(** * The-wiZZ pdf maker: the two command line drivers and the engine they run

    [src/pdf_maker.py] and [src/pdf_maker_full_sample.py] are scripts: each
    parses its arguments, chooses redshift bin edges, collapses the pair
    table into one estimate per reference object, aggregates per region and
    bin, bootstraps over regions and writes the result.  The scripts are
    embedded here statement by statement in a small state and exception
    monad over a global name space, the way Python runs them.

    The engine they call ([the_wizz.pdf_maker_utils], [core_utils],
    [input_flags]) is not part of the two source files; its operations are
    modelled from the specification and marked as such.

    Redshifts, densities and weights are rationals ([Q]) wherever the engine
    only adds, divides and compares, so that every definition runs; the
    logarithmic binner, which needs [ln] and [exp], is stated over [R]. *)

From Stdlib Require Import QArith Qreals Reals Lra Lia List Sorted Permutation.
From stdpp Require Import base gmap strings list.

(* ===================================================================== *)
(** * Part I: definitions                                                 *)
(* ===================================================================== *)

(** ** Pipeline states and exceptions *)

(** Modelled from the spec: the states of the PDFMaker orchestrator, which
    is not among the source files: "Uninitialized -> PairsLoaded ->
    Collapsed -> RegionDensitiesComputed -> BootstrapComputed -> Written". *)
Inductive PipelineState :=
  | Uninitialized
  | PairsLoaded
  | Collapsed
  | RegionDensitiesComputed
  | BootstrapComputed
  | Written.

(** [NameError], [IndexError], [TypeError], [ValueError] and [IOError] are
    Python's own; [BinningError], [PipelineStateError] and [WorkerFailure]
    are the fatal conditions of the specification's error taxonomy, raised
    by the engine. *)
Inductive exn :=
  | NameError (name : string)
  | IndexError
  | TypeError
  | ValueError
  | IOError (path : string)
  | BinningError
  | PipelineStateError (missing : PipelineState)
  | WorkerFailure.

(** The three conditions the specification calls fatal. *)
Definition fatal (e : exn) : bool :=
  match e with
  | BinningError | PipelineStateError _ | WorkerFailure => true
  | _ => false
  end.

Inductive result (A : Type) :=
  | Ok (a : A)
  | Raise (e : exn).
Arguments Ok {A} a.
Arguments Raise {A} e.

(** ** RedshiftBinner over the rationals *)

Module Binner.

Definition Qlt_bool (x y : Q) : bool := negb (Qle_bool y x).

Definition of_nat (n : nat) : Q := inject_Z (Z.of_nat n).

(** Modelled from the spec: [_create_linear_redshift_bin_edges] of
    [pdf_maker_utils], which is not among the source files.
    "n_bins+1 edges evenly spaced between z_min and z_max inclusive". *)
Definition linear (z_min z_max : Q) (n_bins : nat) : list Q :=
  map (fun i => (z_min + of_nat i * ((z_max - z_min) / of_nat n_bins))%Q)
      (seq 0 (S n_bins)).

(** Modelled from the spec: the sort of the adaptive binner, "ties at
    shared redshift values are resolved by stable sort order of the input".
    An insertion sort: an element is put in front of the first element
    that is not smaller, so equal redshifts keep their input order. *)
Fixpoint insert_sorted (x : Q) (l : list Q) : list Q :=
  match l with
  | [] => [x]
  | y :: l' => if Qle_bool x y then x :: y :: l' else y :: insert_sorted x l'
  end.

(** Modelled from the spec: see [insert_sorted]. *)
Definition stable_sort (l : list Q) : list Q := foldr insert_sorted [] l.

(** Modelled from the spec: the reference redshifts "restricted to
    [z_min, z_max]". *)
Definition usable (z_min z_max : Q) (redshifts : list Q) : list Q :=
  List.filter (fun z => Qle_bool z_min z && Qle_bool z z_max) redshifts.

(** Modelled from the spec: the "distinct redshift count" of the
    degenerate case, on a sorted list. *)
Fixpoint distinct_count (sorted : list Q) : nat :=
  match sorted with
  | [] => 0
  | x :: rest =>
      match rest with
      | [] => 1
      | y :: _ => (if Qeq_bool x y then 0 else 1) + distinct_count rest
      end
  end.

(** Modelled from the spec: "quantile binning".  The position in the
    sorted list where bin [i] of [n_bins] starts: the [i]-th quantile of
    [total] objects. *)
Definition quantile_pos (total n_bins i : nat) : nat := (i * total) / n_bins.

(** Modelled from the spec: "each bin contains an equal count of the
    supplied reference redshifts".  The objects of bin [i] are the slice
    of the sorted list between two consecutive quantile positions; equal
    redshifts that straddle a position are split by their place in the
    stable order. *)
Definition bin_members (sorted : list Q) (n_bins i : nat) : list Q :=
  let lo := quantile_pos (length sorted) n_bins i in
  let hi := quantile_pos (length sorted) n_bins (S i) in
  firstn (hi - lo) (skipn lo sorted).

(** Modelled from the spec: the count of bin [i], see [bin_members]. *)
Definition bin_count (sorted : list Q) (n_bins i : nat) : nat :=
  length (bin_members sorted n_bins i).

(** Modelled from the spec: the edges of the adaptive binner.  The edge
    that opens bin [i] is [z_min] for the first bin, the redshift at
    quantile position [i] for an inner bin, and [z_max] to close the last
    bin. *)
Definition edge_at (z_min z_max : Q) (sorted : list Q) (n_bins i : nat) : Q :=
  if i =? 0 then z_min
  else if i =? n_bins then z_max
  else nth (quantile_pos (length sorted) n_bins i) sorted z_max.

(** Modelled from the spec: [_create_adaptive_redshift_bin_edges] of
    [pdf_maker_utils], which is not among the source files.
    Quantile binning of the reference redshifts restricted to
    [z_min, z_max], giving n_bins+1 edges; fewer than [n_bins] distinct
    redshifts is a [BinningError]. *)
Definition adaptive (z_min z_max : Q) (n_bins : nat) (redshifts : list Q)
  : result (list Q) :=
  let sorted := stable_sort (usable z_min z_max redshifts) in
  if distinct_count sorted <? n_bins then Raise BinningError
  else Ok (map (edge_at z_min z_max sorted n_bins) (seq 0 (S n_bins))).


(** Objects of the sorted list whose redshift lies in the half-open
    interval [lo, hi). *)
Definition in_interval (lo hi : Q) (sorted : list Q) : list Q :=
  List.filter (fun z => Qle_bool lo z && Qlt_bool z hi) sorted.

(** The number of objects in each half-open interval between two
    consecutive edges. *)
Definition interval_counts (edges : list Q) (sorted : list Q) : list nat :=
  map (fun i => length (in_interval (nth i edges 0%Q) (nth (S i) edges 0%Q) sorted))
      (seq 0 (length edges - 1)).

(** The number of objects in each bin filled in sorted order. *)
Definition bin_counts (sorted : list Q) (n_bins : nat) : list nat :=
  map (bin_count sorted n_bins) (seq 0 n_bins).


End Binner.

(** ** RedshiftBinner over the reals *)

Module RealBinner.

(** Modelled from the spec: "n_bins+1 edges evenly spaced", over the
    reals. *)
Definition linspace (a b : R) (n : nat) : list R :=
  map (fun i => (a + INR i * ((b - a) / INR n))%R) (seq 0 (S n)).

(** Modelled from the spec: [_create_linear_redshift_bin_edges], read
    over the reals. *)
Definition linear (z_min z_max : R) (n_bins : nat) : list R :=
  linspace z_min z_max n_bins.



End RealBinner.

(** ** Data model of the engine *)

(** Modelled from the spec: the ReferenceObject of the data model.  One
    record of the pair table: a reference object with its region label,
    its redshift and, per angular scale, the indices of the unknown
    objects matched to it. *)
Record ReferenceObject := {
  ref_id : nat;
  ref_redshift : Q;
  ref_region : nat;
  matched : gmap string (list nat)
}.

(** Modelled from the spec: the unknown-sample catalog as the selection
    layer hands it over: the indices of the selected objects (the
    inclusion mask) and the weight columns by name. *)
Record Catalog := {
  selected : gset nat;
  columns : gmap string (gmap nat Q)
}.

(** Modelled from the spec: the CollapsedEstimate of the data model, one
    per reference object. *)
Record CollapsedEstimate := {
  est_region : nat;
  est_redshift : Q;
  est_density : Q
}.

(** Modelled from the spec: a cell of the RegionDensityMatrix: the
    accumulated density and the number of reference objects that went into
    it. *)
Record Cell := {
  raw_density : Q;
  n_objects : nat
}.

Definition empty_cell : Cell := {| raw_density := 0; n_objects := 0 |}.

(** Modelled from the spec: the PDFResult of the data model: per-bin
    estimate, per-bin error and the trial matrix (bin by trial); [None] is
    the sentinel. *)
Record PDFResult := {
  estimate : list (option Q);
  error : list (option Q);
  trials : list (list (option Q))
}.

(** Modelled from the spec: the PDFMaker orchestrator, the object the
    scripts bind to [pdf_maker]; it owns the pipeline state, the collapsed
    estimates, the region-density matrix with its bin edges and the
    bootstrap result. *)
Record PDFMaker := {
  stage : PipelineState;
  reference_redshift_array : list Q;
  reference_region_array : list nat;
  estimates : list CollapsedEstimate;
  bin_edges : list Q;
  region_matrix : gmap (nat * Z) Cell;
  pdf_result : option PDFResult
}.

(** ** PairCollapser *)

Module Collapser.

(** Modelled from the spec: the "optional weight lookup by
    unknown-object index", 1.0 where no weight is given. *)
Definition weight_of (c : Catalog) (weight_name : option string) (i : nat) : Q :=
  match weight_name with
  | None => 1
  | Some w => default 1%Q (columns c !! w ≫= fun col => col !! i)
  end.

Definition Qsum (l : list Q) : Q := foldr Qplus 0%Q l.

(** Modelled from the spec: the per-object step of the PairCollapser.
    "filter its matched-unknown-index list through the inclusion mask,
    sum the corresponding weights (default 1.0 each)". *)
Definition collapse_one (scale : string) (mask : nat -> bool) (weight : nat -> Q)
    (r : ReferenceObject) : CollapsedEstimate :=
  let ids := List.filter mask (default [] (matched r !! scale)) in
  {| est_region := ref_region r;
     est_redshift := ref_redshift r;
     est_density := Qsum (map weight ids) |}.

(** Modelled from the spec: "partition ReferenceObjects into contiguous
    chunks".  The [j]-th of the chunks of [size] objects. *)
Definition chunk {A} (size : nat) (l : list A) (j : nat) : list A :=
  firstn size (skipn (j * size) l).

(** Modelled from the spec: one chunk per worker. *)
Definition chunks {A} (n_process : nat) (l : list A) : list (list A) :=
  let size := (length l + n_process - 1) / n_process in
  map (chunk size l) (seq 0 n_process).

(** Modelled from the spec: "workers either complete or the orchestrator
    surfaces a worker failure". *)
Definition worker (faulty : bool) (f : ReferenceObject -> CollapsedEstimate)
    (refs : list ReferenceObject) : result (list CollapsedEstimate) :=
  if faulty then Raise WorkerFailure else Ok (map f refs).

(** Modelled from the spec: "results merged by concatenation", in input
    order; one failed worker fails the whole step, "never silently drops
    partial results". *)
Fixpoint join (parts : list (result (list CollapsedEstimate)))
  : result (list CollapsedEstimate) :=
  match parts with
  | [] => Ok []
  | Raise e :: _ => Raise e
  | Ok p :: rest =>
      match join rest with
      | Ok ps => Ok (p ++ ps)
      | Raise e => Raise e
      end
  end.

(** Modelled from the spec: [collapse_ids_to_single_estimate] of
    [pdf_maker_utils], which is not among the source files.  The
    weighted variant over the down-selected catalog, fanned out over
    [n_process] workers; [worker_fault] tells which worker fails. *)
Definition collapse_ids_to_single_estimate (worker_fault : nat -> bool)
    (n_process : nat) (pairs : list ReferenceObject) (scale : string)
    (unknown_data : Catalog) (weight_name : option string)
  : result PDFMaker :=
  let f := collapse_one scale (fun i => bool_decide (i ∈ selected unknown_data))
                        (weight_of unknown_data weight_name) in
  match join (map (fun jc => worker (worker_fault jc.1) f jc.2)
                  (imap (fun j c => (j, c)) (chunks n_process pairs))) with
  | Raise e => Raise e
  | Ok ests =>
      Ok {| stage := Collapsed;
            reference_redshift_array := map ref_redshift pairs;
            reference_region_array := map ref_region pairs;
            estimates := ests;
            bin_edges := [];
            region_matrix := ∅;
            pdf_result := None |}
  end.

(** Modelled from the spec: the constructor [PDFMaker(hdf5_pair_file,
    args)] of [pdf_maker_utils], which is not among the source files.
    It preloads the reference data and leaves the object in state
    [PairsLoaded]. *)
Definition new_PDFMaker (pairs : list ReferenceObject) : PDFMaker :=
  {| stage := PairsLoaded;
     reference_redshift_array := map ref_redshift pairs;
     reference_region_array := map ref_region pairs;
     estimates := [];
     bin_edges := [];
     region_matrix := ∅;
     pdf_result := None |}.

End Collapser.


(** ** PDFMaker: the guarded pipeline states *)

Module Orchestrator.

(** Modelled from the spec: the order of the pipeline states. *)
Definition stage_rank (s : PipelineState) : nat :=
  match s with
  | Uninitialized => 0
  | PairsLoaded => 1
  | Collapsed => 2
  | RegionDensitiesComputed => 3
  | BootstrapComputed => 4
  | Written => 5
  end.

(** Modelled from the spec: "requires state >= [need]". *)
Definition reached (need : PipelineState) (m : PDFMaker) : bool :=
  stage_rank need <=? stage_rank (stage m).

(** Modelled from the spec: "each transition ... is one-directional": a
    state is never lowered. *)
Definition advance (target current : PipelineState) : PipelineState :=
  if stage_rank current <? stage_rank target then target else current.

(** Modelled from the spec: the guard of every orchestrator operation.
    "invoking an operation whose prerequisite state has not been reached
    fails with a PipelineStateError naming the missing prerequisite". *)
Definition guarded {A} (need : PipelineState) (m : PDFMaker) (body : result A)
  : result A :=
  if reached need m then body else Raise (PipelineStateError need).

(** Modelled from the spec: the updates of the orchestrator object, each
    with its state transition. *)
Definition set_stage (s : PipelineState) (m : PDFMaker) : PDFMaker :=
  {| stage := s;
     reference_redshift_array := reference_redshift_array m;
     reference_region_array := reference_region_array m;
     estimates := estimates m;
     bin_edges := bin_edges m;
     region_matrix := region_matrix m;
     pdf_result := pdf_result m |}.

Definition set_estimates (ests : list CollapsedEstimate) (m : PDFMaker) : PDFMaker :=
  {| stage := advance Collapsed (stage m);
     reference_redshift_array := reference_redshift_array m;
     reference_region_array := reference_region_array m;
     estimates := ests;
     bin_edges := bin_edges m;
     region_matrix := region_matrix m;
     pdf_result := pdf_result m |}.

Definition set_region_matrix (edges : list Q) (M : gmap (nat * Z) Cell)
    (m : PDFMaker) : PDFMaker :=
  {| stage := advance RegionDensitiesComputed (stage m);
     reference_redshift_array := reference_redshift_array m;
     reference_region_array := reference_region_array m;
     estimates := estimates m;
     bin_edges := edges;
     region_matrix := M;
     pdf_result := pdf_result m |}.

Definition set_pdf_result (r : PDFResult) (m : PDFMaker) : PDFMaker :=
  {| stage := advance BootstrapComputed (stage m);
     reference_redshift_array := reference_redshift_array m;
     reference_region_array := reference_region_array m;
     estimates := estimates m;
     bin_edges := bin_edges m;
     region_matrix := region_matrix m;
     pdf_result := Some r |}.

(** Modelled from the spec: [collapse_full_sample] of [pdf_maker_utils],
    which is not among the source files.  "treats every unknown object as
    included in the estimate (unweighted, full-sample mode)": neither the
    inclusion mask nor any weight column of [unknown_data] is read, and
    the weight name among the arguments is not looked at.  The estimates
    are stored in the object it is handed. *)
Definition collapse_full_sample (pairs : list ReferenceObject) (m : PDFMaker)
    (unknown_data : Catalog) (scale : string) (weight_name : option string)
  : result PDFMaker :=
  guarded PairsLoaded m
    (Ok (set_estimates
           (map (Collapser.collapse_one scale (fun _ => true) (fun _ => 1%Q)) pairs)
           m)).

End Orchestrator.

(** ** RegionDensityAggregator *)

Module Aggregator.

(** Modelled from the spec: "locate its redshift bin via binary search
    over RedshiftBinEdges".  The search is for the insertion point of [z]
    to the right of equal edges, between positions [lo] and [hi]. *)
Fixpoint bisect_right (edges : list Q) (z : Q) (lo hi fuel : nat) : nat :=
  match fuel with
  | 0 => lo
  | S fuel' =>
      if lo <? hi then
        let mid := (lo + hi) / 2 in
        if Binner.Qlt_bool z (nth mid edges 0%Q)
        then bisect_right edges z lo mid fuel'
        else bisect_right edges z (S mid) hi fuel'
      else lo
  end.

(** Modelled from the spec: the bin of redshift [z] among the half-open
    bins [edge_i, edge_i+1): the index of the last edge that is not above
    it; [-1] below the first edge. *)
Definition locate_bin (edges : list Q) (z : Q) : Z :=
  Z.of_nat (bisect_right edges z 0 (length edges) (length edges)) - 1.

(** Modelled from the spec: "accumulate its density contribution and a
    unit count into the matrix cell keyed by (region, bin)". *)
Definition add_estimate (edges : list Q) (M : gmap (nat * Z) Cell)
    (e : CollapsedEstimate) : gmap (nat * Z) Cell :=
  let key := (est_region e, locate_bin edges (est_redshift e)) in
  let c := default empty_cell (M !! key) in
  <[key := {| raw_density := raw_density c + est_density e;
              n_objects := S (n_objects c) |}]> M.

(** Modelled from the spec: "for each CollapsedEstimate with redshift <
    z_max".  One pass over the estimates, from the matrix built so far;
    those at or above [z_max] are skipped. *)
Definition accumulate (edges : list Q) (z_max : Q) (M : gmap (nat * Z) Cell)
    (ests : list CollapsedEstimate) : gmap (nat * Z) Cell :=
  foldl (fun M e => if Binner.Qlt_bool (est_redshift e) z_max
                    then add_estimate edges M e else M)
        M ests.

(** Modelled from the spec: the RegionDensityMatrix of a list of
    estimates. *)
Definition build_matrix (edges : list Q) (z_max : Q)
    (ests : list CollapsedEstimate) : gmap (nat * Z) Cell :=
  accumulate edges z_max ∅ ests.

(** Modelled from the spec: "over-density per cell is defined as the
    accumulated density divided by the cell's object count", with the
    zero-count sentinel [None]. *)
Definition over_density (c : Cell) : option Q :=
  match n_objects c with
  | 0 => None
  | S _ => Some (raw_density c / Binner.of_nat (n_objects c))%Q
  end.

(** Modelled from the spec: [PDFMaker.compute_region_densities] of
    [pdf_maker_utils], which is not among the source files.  Requires
    state [Collapsed]. *)
Definition compute_region_densities (edges : list Q) (z_max : Q) (m : PDFMaker)
  : result PDFMaker :=
  Orchestrator.guarded Collapsed m
    (Ok (Orchestrator.set_region_matrix edges
           (build_matrix edges z_max (estimates m)) m)).

(** Sum of the object counts over all cells of a matrix. *)
Definition total_objects (M : gmap (nat * Z) Cell) : nat :=
  map_fold (fun _ c acc => n_objects c + acc) 0 M.

(** The row of region [r]: its cells over all bins. *)
Definition row (r : nat) (M : gmap (nat * Z) Cell) : gmap (nat * Z) Cell :=
  filter (fun kc => kc.1.1 = r) M.

(** The estimates the matrix is built from: those below [z_max]. *)
Definition below (z_max : Q) (ests : list CollapsedEstimate)
  : list CollapsedEstimate :=
  List.filter (fun e => Binner.Qlt_bool (est_redshift e) z_max) ests.

Definition of_region (r : nat) (ests : list CollapsedEstimate)
  : list CollapsedEstimate :=
  List.filter (fun e => est_region e =? r) ests.

End Aggregator.

(** ** BootstrapEngine *)

Module Bootstrap.

Section Numerics.

(** The square root and the random generator are numpy's: they are taken
    as given.  [randint s k] draws a number below [k] from generator
    state [s] and returns the next state. *)
Variable sqrt : Q -> Q.
Variable randint : N -> nat -> nat * N.

(** Modelled from the spec: the cell of a region and bin; a cell without
    objects counts nothing. *)
Definition cell_at (M : gmap (nat * Z) Cell) (r : nat) (b : Z) : Cell :=
  default empty_cell (M !! (r, b)).

(** Modelled from the spec: "sum that trial's sampled regions'
    over-density contributions and normalize by the number of objects
    summed"; [None] is the sentinel of a draw without objects. *)
Definition trial_value (M : gmap (nat * Z) Cell) (draw : list nat) (b : Z)
  : option Q :=
  let cells := map (fun r => cell_at M r b) draw in
  let n := sum_list (map n_objects cells) in
  if n =? 0 then None
  else Some (Collapser.Qsum (map raw_density cells) / Binner.of_nat n)%Q.

(** Modelled from the spec: the sentinel "propagates through
    aggregation".  All values of a row, or the sentinel if one of them is
    the sentinel. *)
Definition values (xs : list (option Q)) : option (list Q) := mapM (fun x => x) xs.

Definition mean_of (vs : list Q) : Q :=
  (Collapser.Qsum vs / Binner.of_nat (length vs))%Q.

(** Modelled from the spec: "the point estimate per bin is the mean
    across trials". *)
Definition mean (xs : list (option Q)) : option Q :=
  vs ← values xs;
  if length vs =? 0 then None else Some (mean_of vs).

(** Modelled from the spec: "the error is the sample standard deviation
    across trials" (divisor [n - 1]). *)
Definition std (xs : list (option Q)) : option Q :=
  vs ← values xs;
  if length vs <? 2 then None
  else Some (sqrt (Collapser.Qsum (map (fun v => (v - mean_of vs) * (v - mean_of vs)) vs)
                   / Binner.of_nat (length vs - 1))%Q).

(** Modelled from the spec: the bins of n+1 edges. *)
Definition bins (edges : list Q) : list Z :=
  map Z.of_nat (seq 0 (length edges - 1)).

(** Modelled from the spec: the PDFResult of a list of draws: one PDF
    value per bin per trial, then mean and error per bin. *)
Definition bootstrap_pdf (M : gmap (nat * Z) Cell) (edges : list Q)
    (draws : list (list nat)) : PDFResult :=
  let rows := map (fun b => map (fun d => trial_value M d b) draws) (bins edges) in
  {| estimate := map mean rows; error := map std rows; trials := rows |}.

(** Modelled from the spec: [PDFMaker._compute_pdf_bootstrap] of
    [pdf_maker_utils], which is not among the source files: the
    fixed-resample variant, given "a pre-supplied ordered list of
    region-label draws per trial".  Requires state
    [RegionDensitiesComputed]. *)
Definition _compute_pdf_bootstrap (draws : list (list nat)) (m : PDFMaker)
  : result PDFMaker :=
  Orchestrator.guarded RegionDensitiesComputed m
    (Ok (Orchestrator.set_pdf_result
           (bootstrap_pdf (region_matrix m) (bin_edges m) draws) m)).

(** Modelled from the spec: [k] region labels drawn with replacement. *)
Fixpoint draw_regions (regions : list nat) (k : nat) (seed : N) : list nat * N :=
  match k with
  | 0 => ([], seed)
  | S k' =>
      let '(i, seed1) := randint seed (length regions) in
      let '(rest, seed2) := draw_regions regions k' seed1 in
      (nth i regions 0 :: rest, seed2)
  end.

(** Modelled from the spec: one draw per trial, each of as many labels
    as there are regions. *)
Fixpoint draw_trials (regions : list nat) (n_trials : nat) (seed : N)
  : list (list nat) * N :=
  match n_trials with
  | 0 => ([], seed)
  | S n' =>
      let '(d, seed1) := draw_regions regions (length regions) seed in
      let '(rest, seed2) := draw_trials regions n' seed1 in
      (d :: rest, seed2)
  end.

(** Modelled from the spec: [PDFMaker.compute_pdf_bootstrap] of
    [pdf_maker_utils], which is not among the source files: "for each
    trial, draw (with replacement) a number of region labels equal to the
    number of distinct regions", then proceed as the fixed variant. *)
Definition compute_pdf_bootstrap (n_trials : nat) (m : PDFMaker) (seed : N)
  : result PDFMaker * N :=
  if Orchestrator.reached RegionDensitiesComputed m then
    let '(draws, seed') :=
      draw_trials (remove_dups (reference_region_array m)) n_trials seed in
    (_compute_pdf_bootstrap draws m, seed')
  else (Raise (PipelineStateError RegionDensitiesComputed), seed).

End Numerics.

End Bootstrap.


(** ** The Python fragment the two scripts are written in *)

Module Py.

(** The value of [--z_binning_type]: a string, or the list of strings an
    option with several values yields. *)
Inductive PyArg :=
  | PyStr (s : string)
  | PyList (l : list string).

(** [v[i]]: the [i]-th character of a string (as a string of length one)
    or the [i]-th element of a list; [IndexError] out of range. *)
Definition subscript (v : PyArg) (i : nat) : result string :=
  match v with
  | PyStr s =>
      match String.get i s with
      | Some c => Ok (String c EmptyString)
      | None => Raise IndexError
      end
  | PyList l =>
      match nth_error l i with
      | Some x => Ok x
      | None => Raise IndexError
      end
  end.

(** [v == 'name']: a list never equals a string. *)
Definition eq_str (v : PyArg) (name : string) : bool :=
  match v with
  | PyStr s => String.eqb s name
  | PyList _ => false
  end.

(** The [argparse] name space returned by
    [input_flags.parse_input_pdf_args]. *)
Record Namespace := {
  unknown_sample_file : string;
  input_pair_hdf5_file : string;
  pair_scale_name : string;
  unknown_weight_name : option string;
  z_binning_type : PyArg;
  z_min : Q;
  z_max : Q;
  z_n_bins : nat;
  n_processes : nat;
  n_bootstrap : nat;
  bootstrap_samples : option string;
  output_region_pickle_file : option string;
  output_bootstraps_file : option string;
  output_pdf_file_name : string
}.

(** What [core_utils.file_checker_loader] returns: an open pair file or a
    catalog table. *)
Inductive FileData :=
  | Hdf5 (pairs : list ReferenceObject)
  | Fits (c : Catalog).

(** A numpy array as [np.loadtxt] hands it back.  numpy squeezes the table
    it has read: a file of one number gives a 0-d array, a file of one row
    or of one column a 1-d array, any other file a 2-d array. *)
Inductive NdArray (A : Type) :=
  | Scalar (x : A)
  | Vector (l : list A)
  | Table (rows : list (list A)).
Arguments Scalar {A} x.
Arguments Vector {A} l.
Arguments Table {A} rows.

(** The ways [np.loadtxt] ends: the file cannot be opened, its content
    cannot be converted to the number type asked for, or an array. *)
Inductive Loaded (A : Type) :=
  | Unreadable
  | Malformed
  | Read (a : NdArray A).
Arguments Unreadable {A}.
Arguments Malformed {A}.
Arguments Read {A} a.

(** The objects a global name can be bound to.  [VEdges] is a 1-d array
    of numbers, [VTable] a 2-d one. *)
Inductive Value :=
  | VModule (name : string)
  | VArgs (a : Namespace)
  | VData (d : FileData)
  | VEdges (e : list Q)
  | VTable (rows : list (list Q))
  | VMaker (m : PDFMaker)
  | VDraws (d : NdArray nat)
  | VFile (path : string).

(** What a run does that can be observed from outside: lines printed,
    calls into the engine, output files created on disk. *)
Inductive Event :=
  | Print (line : string)
  | Call (f : string)
  | Create (path : string).

(** The interpreter state: the module's global name space, the events so
    far (oldest first) and the state of numpy's random generator. *)
Record World := {
  globals : gmap string Value;
  trace : list Event;
  rng : N
}.

(** Everything a run depends on that lies outside the two scripts: the
    parsed command line, the files on disk, the numeric library and the
    points where the environment can fail. *)
Record External := {
  parse_input_pdf_args : Namespace;
  file_checker_loader : string -> option FileData;
  loadtxt : string -> Loaded Q;
  loadtxt_int : string -> Loaded nat;
  create_comoving : Q -> Q -> nat -> list Q;
  create_logspace : Q -> Q -> nat -> list Q;
  sqrt : Q -> Q;
  randint : N -> nat -> nat * N;
  worker_fault : nat -> bool;
  writable : string -> bool;
  (** the state the region-density snapshot may be written in: at least
      [RegionDensitiesComputed] or at least [BootstrapComputed] by the two
      readings of the specification; any state is allowed for here *)
  snapshot_needs : PipelineState
}.

(** State and exception monad. *)
Definition M (A : Type) : Type := World -> result A * World.

Definition ret {A} (a : A) : M A := fun w => (Ok a, w).

Definition bind {A B} (c : M A) (k : A -> M B) : M B :=
  fun w =>
    match c w with
    | (Ok a, w') => k a w'
    | (Raise e, w') => (Raise e, w')
    end.

Definition raise {A} (e : exn) : M A := fun w => (Raise e, w).

Definition lift {A} (r : result A) : M A := fun w => (r, w).

Declare Scope py_scope.
Delimit Scope py_scope with py.
Bind Scope py_scope with M.

Notation "x <~ c ; k" := (bind c (fun x => k))
  (at level 100, c at next level, k at level 200, right associativity) : py_scope.
Notation "c ;; k" := (bind c (fun _ => k))
  (at level 100, k at level 200, right associativity) : py_scope.

Local Open Scope py_scope.

Definition add_event (e : Event) (w : World) : World :=
  {| globals := globals w; trace := trace w ++ [e]; rng := rng w |}.

Definition set_global (name : string) (v : Value) (w : World) : World :=
  {| globals := <[name := v]> (globals w); trace := trace w; rng := rng w |}.

Definition set_rng (seed : N) (w : World) : World :=
  {| globals := globals w; trace := trace w; rng := seed |}.

Definition emit (e : Event) : M unit := fun w => (Ok tt, add_event e w).

Definition print (line : string) : M unit := emit (Print line).

(** Reading a global name: [NameError] when it is not bound. *)
Definition load (name : string) : M Value :=
  fun w =>
    match globals w !! name with
    | Some v => (Ok v, w)
    | None => (Raise (NameError name), w)
    end.

(** Assignment to a global name. *)
Definition store (name : string) (v : Value) : M unit :=
  fun w => (Ok tt, set_global name v w).

Definition load_args (name : string) : M Namespace :=
  v <~ load name;
  match v with VArgs a => ret a | _ => raise TypeError end.

Definition load_maker (name : string) : M PDFMaker :=
  v <~ load name;
  match v with VMaker m => ret m | _ => raise TypeError end.

Definition load_edges (name : string) : M (NdArray Q) :=
  v <~ load name;
  match v with
  | VEdges e => ret (Vector e)
  | VTable rows => ret (Table rows)
  | _ => raise TypeError
  end.

Definition load_data (name : string) : M FileData :=
  v <~ load name;
  match v with VData d => ret d | _ => raise TypeError end.

Definition load_draws (name : string) : M (NdArray nat) :=
  v <~ load name;
  match v with VDraws d => ret d | _ => raise TypeError end.

Definition load_file (name : string) : M string :=
  v <~ load name;
  match v with VFile p => ret p | _ => raise TypeError end.

(** [args.field] *)
Definition attr {A} (field : Namespace -> A) : M A :=
  a <~ load_args "args"; ret (field a).

(** Evaluating [module.f]: the module name is read first, before any
    argument of the call. *)
Definition lookup (module : string) : M unit :=
  load module ;; ret tt.

(** Entering function [f], after its arguments have been evaluated. *)
Definition enter (f : string) : M unit := emit (Call f).

(** Running method [f] on the object [m] bound to [name]; the object is
    updated in place, so the name sees the new state. *)
Definition invoke (name f : string) (op : PDFMaker -> result PDFMaker)
    (m : PDFMaker) : M unit :=
  enter (name ++ "." ++ f) ;;
  m' <~ lift (op m);
  store name (VMaker m').

(** Creating an output file: an [IOError] where the path cannot be
    written, otherwise the file exists from here on. *)
Definition create_file (ext : External) (path : string) : M unit :=
  if writable ext path then emit (Create path) else raise (IOError path).

Definition tab : string := String (Ascii.ascii_of_nat 9) EmptyString.

(** [array.max()]: numpy raises [ValueError] on an empty array. *)
Definition array_max (l : list Q) : result Q :=
  match l with
  | [] => Raise ValueError
  | x :: rest => Ok (foldl (fun a b => if Qle_bool a b then b else a) x rest)
  end.

End Py.


(** ** The engine as the scripts reach it *)

Module Engine.
Import Py.
Local Open Scope py_scope.

(** [core_utils.file_checker_loader(path)]: what it loads is the
    environment's; a file that cannot be loaded is an [IOError]. *)
Definition file_checker_loader (ext : External) (path : string) : M FileData :=
  enter "core_utils.file_checker_loader" ;;
  match Py.file_checker_loader ext path with
  | Some d => ret d
  | None => raise (IOError path)
  end.

(** [np.loadtxt(path)]: an [IOError] for a file that cannot be opened, a
    [ValueError] for content that is no number, else the array. *)
Definition loadtxt (ext : External) (path : string) : M (NdArray Q) :=
  enter "np.loadtxt" ;;
  match Py.loadtxt ext path with
  | Read a => ret a
  | Unreadable => raise (IOError path)
  | Malformed => raise ValueError
  end.

(** [np.loadtxt(path, dtype=np.int_)], the same for whole numbers. *)
Definition loadtxt_int (ext : External) (path : string) : M (NdArray nat) :=
  enter "np.loadtxt" ;;
  match Py.loadtxt_int ext path with
  | Read a => ret a
  | Unreadable => raise (IOError path)
  | Malformed => raise ValueError
  end.

(** [array[:-1]]: a 0-d array cannot be sliced ([IndexError]), a 1-d
    array loses its last element, a 2-d array its last row. *)
Definition drop_last (a : NdArray Q) : result Value :=
  match a with
  | Scalar _ => Raise IndexError
  | Vector l => Ok (VEdges (removelast l))
  | Table rows => Ok (VTable (removelast rows))
  end.

(** Modelled from the spec: the call of
    [PDFMaker.compute_region_densities(edges, z_max)], which is not among
    the source files.  The spec gives it an ordered list of bin edges;
    what it does with a two-dimensional array is not described, and the
    call is taken to fail with a [TypeError]. *)
Definition compute_region_densities (edges : NdArray Q) (z_max : Q) (m : PDFMaker)
  : result PDFMaker :=
  match edges with
  | Vector e => Aggregator.compute_region_densities e z_max m
  | _ => Raise TypeError
  end.

(** Modelled from the spec: the call of
    [PDFMaker._compute_pdf_bootstrap(draws)], which is not among the source
    files.  The spec gives it "a pre-supplied ordered list of region-label
    draws per trial", a two-dimensional array with a row per trial; what it
    does with an array of another shape is not described, and the call is
    taken to fail with a [TypeError]. *)
Definition _compute_pdf_bootstrap (sqrt : Q -> Q) (draws : NdArray nat)
    (m : PDFMaker) : result PDFMaker :=
  match draws with
  | Table rows => Bootstrap._compute_pdf_bootstrap sqrt rows m
  | _ => Raise TypeError
  end.

(** Modelled from the spec: the call of
    [pdf_maker_utils._create_linear_redshift_bin_edges], which is not
    among the source files; see [Binner.linear]. *)
Definition _create_linear_redshift_bin_edges (z_min z_max : Q) (n_bins : nat)
  : M (list Q) :=
  enter "pdf_maker_utils._create_linear_redshift_bin_edges" ;;
  ret (Binner.linear z_min z_max n_bins).

(** Modelled from the spec: the call of
    [pdf_maker_utils._create_adaptive_redshift_bin_edges], which is not
    among the source files; see [Binner.adaptive]. *)
Definition _create_adaptive_redshift_bin_edges (z_min z_max : Q) (n_bins : nat)
    (redshifts : list Q) : M (list Q) :=
  enter "pdf_maker_utils._create_adaptive_redshift_bin_edges" ;;
  lift (Binner.adaptive z_min z_max n_bins redshifts).

(** [pdf_maker_utils._create_comoving_redshift_bin_edges]: the edges
    depend on the cosmology and are the environment's. *)
Definition _create_comoving_redshift_bin_edges (ext : External)
    (z_min z_max : Q) (n_bins : nat) : M (list Q) :=
  enter "pdf_maker_utils._create_comoving_redshift_bin_edges" ;;
  ret (create_comoving ext z_min z_max n_bins).

(** [pdf_maker_utils._create_logspace_redshift_bin_edges]: the edges
    need the logarithm and are the environment's here; [RealBinner.logspace]
    gives them over the reals. *)
Definition _create_logspace_redshift_bin_edges (ext : External)
    (z_min z_max : Q) (n_bins : nat) : M (list Q) :=
  enter "pdf_maker_utils._create_logspace_redshift_bin_edges" ;;
  ret (create_logspace ext z_min z_max n_bins).

(** Modelled from the spec: the call of
    [pdf_maker_utils.collapse_ids_to_single_estimate(pair_file_name, scale,
    unknown_data, args)], which is not among the source files; it opens
    the pair file itself. *)
Definition collapse_ids_to_single_estimate (ext : External) (path scale : string)
    (unknown_data : FileData) (a : Namespace) : M PDFMaker :=
  enter "pdf_maker_utils.collapse_ids_to_single_estimate" ;;
  match Py.file_checker_loader ext path, unknown_data with
  | None, _ => raise (IOError path)
  | Some (Hdf5 pairs), Fits c =>
      lift (Collapser.collapse_ids_to_single_estimate
              (worker_fault ext) (n_processes a) pairs scale c
              (unknown_weight_name a))
  | Some _, _ => raise TypeError
  end.

(** Modelled from the spec: the constructor
    [pdf_maker_utils.PDFMaker(hdf5_pair_file, args)], which is not among
    the source files. *)
Definition construct_PDFMaker (hdf5_pair_file : FileData) (a : Namespace)
  : M PDFMaker :=
  enter "pdf_maker_utils.PDFMaker" ;;
  match hdf5_pair_file with
  | Hdf5 pairs => ret (Collapser.new_PDFMaker pairs)
  | Fits _ => raise TypeError
  end.

(** [hdf5_pair_file['data']] *)
Definition data_group (hdf5_pair_file : FileData) : M (list ReferenceObject) :=
  match hdf5_pair_file with
  | Hdf5 pairs => ret pairs
  | Fits _ => raise TypeError
  end.

(** Modelled from the spec: the call of
    [pdf_maker_utils.collapse_full_sample(data, pdf_maker, unknown_data,
    args)], which is not among the source files.  The object passed in is
    the one bound to [pdf_maker]; it is filled in place and nothing is
    returned. *)
Definition collapse_full_sample (pairs : list ReferenceObject) (m : PDFMaker)
    (unknown_data : FileData) (a : Namespace) : M unit :=
  enter "pdf_maker_utils.collapse_full_sample" ;;
  match unknown_data with
  | Fits c =>
      m' <~ lift (Orchestrator.collapse_full_sample pairs m c
                    (pair_scale_name a) (unknown_weight_name a));
      store "pdf_maker" (VMaker m')
  | Hdf5 _ => raise TypeError
  end.

(** Modelled from the spec: the call of
    [PDFMaker.compute_pdf_bootstrap(n)], which is not among the source
    files; it draws from the generator. *)
Definition compute_pdf_bootstrap (ext : External) (n : nat) (m : PDFMaker)
  : M unit :=
  enter "pdf_maker.compute_pdf_bootstrap" ;;
  (fun w =>
     let '(r, seed) :=
       Bootstrap.compute_pdf_bootstrap (sqrt ext) (randint ext) n m (rng w) in
     match r with
     | Ok m' => (Ok tt, set_global "pdf_maker" (VMaker m') (set_rng seed w))
     | Raise e => (Raise e, set_rng seed w)
     end).

(** Modelled from the spec: [PDFMaker.write_region_densities], which is
    not among the source files.  A guarded write of the region-density
    snapshot. *)
Definition write_region_densities (ext : External) (path : string) (m : PDFMaker)
  : M unit :=
  enter "pdf_maker.write_region_densities" ;;
  lift (Orchestrator.guarded (snapshot_needs ext) m (Ok tt)) ;;
  create_file ext path.

(** Modelled from the spec: [PDFMaker.write_bootstrap_samples_to_ascii],
    which is not among the source files.  "Write operations require state
    >= BootstrapComputed". *)
Definition write_bootstrap_samples_to_ascii (ext : External) (path : string)
    (m : PDFMaker) : M unit :=
  enter "pdf_maker.write_bootstrap_samples_to_ascii" ;;
  lift (Orchestrator.guarded BootstrapComputed m (Ok tt)) ;;
  create_file ext path.

(** [core_utils.create_ascii_file(path, args)]: the output file exists
    once this returns. *)
Definition create_ascii_file (ext : External) (path : string) : M string :=
  enter "core_utils.create_ascii_file" ;;
  create_file ext path ;;
  ret path.

(** Modelled from the spec: [PDFMaker.write_pdf_to_ascii], which is not
    among the source files.  Requires state [BootstrapComputed] and moves
    the object to [Written]. *)
Definition write_pdf_to_ascii (output_file : string) (m : PDFMaker)
  : result PDFMaker :=
  Orchestrator.guarded BootstrapComputed m
    (Ok (Orchestrator.set_stage (Orchestrator.advance Written (stage m)) m)).

End Engine.


(** ** [src/pdf_maker.py] *)

Module PdfMaker.
Import Py.
Local Open Scope py_scope.

(** The global names bound by the imports of lines 12-18.  No statement
    of the script binds [pdf_maker] before line 88. *)
Definition imports : gmap string Value :=
  list_to_map
    [("division", VModule "__future__");
     ("print_function", VModule "__future__");
     ("absolute_import", VModule "__future__");
     ("np", VModule "numpy");
     ("core_utils", VModule "the_wizz.core_utils");
     ("pdf_maker_utils", VModule "the_wizz.pdf_maker_utils");
     ("input_flags", VModule "the_wizz.input_flags")].

Definition start (seed : N) : World :=
  {| globals := imports; trace := []; rng := seed |}.

(** Lines 22-31. *)
Definition load_inputs (ext : External) : M unit :=
  print "" ;;
  print "The-wiZZ has begun conjuring: running pdf maker..." ;;
  lookup "input_flags" ;;
  enter "input_flags.parse_input_pdf_args" ;;
  store "args" (VArgs (parse_input_pdf_args ext)) ;;
  lookup "input_flags" ;;
  load_args "args" ;;
  enter "input_flags.print_args" ;;
  print "Loading unknown data..." ;;
  lookup "core_utils" ;;
  path <~ attr unknown_sample_file;
  d <~ Engine.file_checker_loader ext path;
  store "unknown_data" (VData d).

(** [args.z_binning_type[0] == name], evaluated at each test of the
    [if]/[elif] chain. *)
Definition binning_is (name : string) : M bool :=
  t <~ attr z_binning_type;
  k <~ lift (subscript t 0);
  ret (String.eqb k name).

(** Lines 54-78. *)
Definition create_bins (ext : External) : M unit :=
  print "Creating bins..." ;;
  b <~ binning_is "linear";
  if b then
    lookup "pdf_maker_utils" ;;
    lo <~ attr z_min; hi <~ attr z_max; n <~ attr z_n_bins;
    e <~ Engine._create_linear_redshift_bin_edges lo hi n;
    store "z_bin_edge_array" (VEdges e)
  else
  b <~ binning_is "adaptive";
  if b then
    lookup "pdf_maker_utils" ;;
    lo <~ attr z_min; hi <~ attr z_max; n <~ attr z_n_bins;
    m <~ load_maker "pdf_maker";
    e <~ Engine._create_adaptive_redshift_bin_edges lo hi n
           (reference_redshift_array m);
    store "z_bin_edge_array" (VEdges e)
  else
  b <~ binning_is "comoving";
  if b then
    lookup "pdf_maker_utils" ;;
    lo <~ attr z_min; hi <~ attr z_max; n <~ attr z_n_bins;
    e <~ Engine._create_comoving_redshift_bin_edges ext lo hi n;
    store "z_bin_edge_array" (VEdges e)
  else
  b <~ binning_is "logspace";
  if b then
    lookup "pdf_maker_utils" ;;
    lo <~ attr z_min; hi <~ attr z_max; n <~ attr z_n_bins;
    e <~ Engine._create_logspace_redshift_bin_edges ext lo hi n;
    store "z_bin_edge_array" (VEdges e)
  else
  b <~ binning_is "file";
  if b then
    lookup "np" ;;
    t <~ attr z_binning_type;
    path <~ lift (subscript t 1);
    l <~ Engine.loadtxt ext path;
    v <~ lift (Engine.drop_last l);
    store "z_bin_edge_array" v
  else
    print "Requested binning name invalid. Valid types are:" ;;
    print (tab ++ "linear: linear binning in redshift") ;;
    print (tab ++ "adaptive: constant reference objects per redshift bin") ;;
    print (tab ++ "comoving: linear binning in comoving distance") ;;
    print (tab ++ "file: file providing the bin edges") ;;
    print "Returning linear binning..." ;;
    lookup "pdf_maker_utils" ;;
    lo <~ attr z_min; hi <~ attr z_max; n <~ attr z_n_bins;
    e <~ Engine._create_linear_redshift_bin_edges lo hi n;
    store "z_bin_edge_array" (VEdges e).

(** Lines 87-89. *)
Definition collapse (ext : External) : M unit :=
  print "Starting indices matcher..." ;;
  lookup "pdf_maker_utils" ;;
  path <~ attr input_pair_hdf5_file;
  scale <~ attr pair_scale_name;
  u <~ load_data "unknown_data";
  a <~ load_args "args";
  m <~ Engine.collapse_ids_to_single_estimate ext path scale u a;
  store "pdf_maker" (VMaker m).

(** Lines 92-95. *)
Definition region_densities (ext : External) : M unit :=
  print "Calculating region densities..." ;;
  m <~ load_maker "pdf_maker";
  e <~ load_edges "z_bin_edge_array";
  hi <~ attr z_max;
  invoke "pdf_maker" "compute_region_densities"
    (Engine.compute_region_densities e hi) m ;;
  o <~ attr output_region_pickle_file;
  match o with
  | None => ret tt
  | Some path =>
      m <~ load_maker "pdf_maker";
      load_args "args" ;;
      Engine.write_region_densities ext path m
  end.

(** Lines 98-104. *)
Definition bootstrap (ext : External) : M unit :=
  print "Calculating pdf..." ;;
  o <~ attr bootstrap_samples;
  match o with
  | None =>
      m <~ load_maker "pdf_maker";
      n <~ attr n_bootstrap;
      Engine.compute_pdf_bootstrap ext n m
  | Some path =>
      lookup "np" ;;
      d <~ Engine.loadtxt_int ext path;
      store "bootstrap_region_array" (VDraws d) ;;
      m <~ load_maker "pdf_maker";
      d <~ load_draws "bootstrap_region_array";
      invoke "pdf_maker" "_compute_pdf_bootstrap"
        (Engine._compute_pdf_bootstrap (sqrt ext) d) m
  end.

(** Lines 106-116. *)
Definition write_out (ext : External) : M unit :=
  o <~ attr output_bootstraps_file;
  match o with
  | None => ret tt
  | Some path =>
      m <~ load_maker "pdf_maker";
      load_args "args" ;;
      Engine.write_bootstrap_samples_to_ascii ext path m
  end ;;
  print "Writing..." ;;
  lookup "core_utils" ;;
  path <~ attr output_pdf_file_name;
  load_args "args" ;;
  f <~ Engine.create_ascii_file ext path;
  store "output_file" (VFile f) ;;
  m <~ load_maker "pdf_maker";
  f <~ load_file "output_file";
  invoke "pdf_maker" "write_pdf_to_ascii" (Engine.write_pdf_to_ascii f) m ;;
  load_file "output_file" ;;
  enter "output_file.close" ;;
  print "Done!".

(** Everything after the bins are chosen: lines 79-116. *)
Definition pipeline (ext : External) : M unit :=
  collapse ext ;;
  region_densities ext ;;
  bootstrap ext ;;
  write_out ext.

Definition main (ext : External) : M unit :=
  load_inputs ext ;;
  create_bins ext ;;
  pipeline ext.

(** A run of the script from a fresh interpreter. *)
Definition run (ext : External) (seed : N) : result unit * World :=
  main ext (start seed).

End PdfMaker.

(** ** [src/pdf_maker_full_sample.py] *)

Module PdfMakerFullSample.
Import Py.
Local Open Scope py_scope.

(** The global names bound by the imports of lines 13-17. *)
Definition imports : gmap string Value :=
  list_to_map
    [("np", VModule "numpy");
     ("core_utils", VModule "the_wizz.core_utils");
     ("input_flags", VModule "the_wizz.input_flags");
     ("pdf_maker_utils", VModule "the_wizz.pdf_maker_utils")].

Definition start (seed : N) : World :=
  {| globals := imports; trace := []; rng := seed |}.

Definition weight_warning (name : string) : string :=
  "WARNING: A weight name, " ++ name ++
  " has been specified for the unknown sample. This is not possible with this code. If this was a mistake, ignore this message and continue, else kill this process and use pdf_maker.py instead.".

(** Lines 21-33. *)
Definition parse_arguments (ext : External) : M unit :=
  print "" ;;
  print "The-wiZZ has begun conjuring: running pdf maker full sample..." ;;
  lookup "input_flags" ;;
  enter "input_flags.parse_input_pdf_args" ;;
  store "args" (VArgs (parse_input_pdf_args ext)) ;;
  lookup "input_flags" ;;
  load_args "args" ;;
  enter "input_flags.print_args" ;;
  o <~ attr unknown_weight_name;
  match o with
  | None => ret tt
  | Some _ =>
      o' <~ attr unknown_weight_name;
      print (weight_warning (default "None" o')) ;;
      print (tab ++ "Continuing...")
  end.

(** Lines 34-45. *)
Definition load_inputs (ext : External) : M unit :=
  print "Loading files..." ;;
  lookup "core_utils" ;;
  path <~ attr input_pair_hdf5_file;
  h <~ Engine.file_checker_loader ext path;
  store "hdf5_pair_file" (VData h) ;;
  lookup "core_utils" ;;
  path <~ attr unknown_sample_file;
  d <~ Engine.file_checker_loader ext path;
  store "unknown_data" (VData d) ;;
  print "Preloading reference data..." ;;
  lookup "pdf_maker_utils" ;;
  h <~ load_data "hdf5_pair_file";
  a <~ load_args "args";
  m <~ Engine.construct_PDFMaker h a;
  store "pdf_maker" (VMaker m) ;;
  m <~ load_maker "pdf_maker";
  top <~ lift (array_max (reference_redshift_array m));
  hi <~ attr z_max;
  if Binner.Qlt_bool top hi then
    print "WARNING: requested z_max is greater than available reference redshifts."
  else ret tt.

(** [args.z_binning_type == name], evaluated at each test of the
    [if]/[elif] chain. *)
Definition binning_is (name : string) : M bool :=
  t <~ attr z_binning_type;
  ret (eq_str t name).

(** Lines 68-89. *)
Definition create_bins (ext : External) : M unit :=
  print "Creating bins..." ;;
  b <~ binning_is "linear";
  if b then
    lookup "pdf_maker_utils" ;;
    lo <~ attr z_min; hi <~ attr z_max; n <~ attr z_n_bins;
    e <~ Engine._create_linear_redshift_bin_edges lo hi n;
    store "z_bin_edge_array" (VEdges e)
  else
  b <~ binning_is "adaptive";
  if b then
    lookup "pdf_maker_utils" ;;
    lo <~ attr z_min; hi <~ attr z_max; n <~ attr z_n_bins;
    m <~ load_maker "pdf_maker";
    e <~ Engine._create_adaptive_redshift_bin_edges lo hi n
           (reference_redshift_array m);
    store "z_bin_edge_array" (VEdges e)
  else
  b <~ binning_is "comoving";
  if b then
    lookup "pdf_maker_utils" ;;
    lo <~ attr z_min; hi <~ attr z_max; n <~ attr z_n_bins;
    e <~ Engine._create_comoving_redshift_bin_edges ext lo hi n;
    store "z_bin_edge_array" (VEdges e)
  else
  b <~ binning_is "logspace";
  if b then
    lookup "pdf_maker_utils" ;;
    lo <~ attr z_min; hi <~ attr z_max; n <~ attr z_n_bins;
    e <~ Engine._create_logspace_redshift_bin_edges ext lo hi n;
    store "z_bin_edge_array" (VEdges e)
  else
    print "Requested binning name invalid. Valid types are:" ;;
    print (tab ++ "linear: linear binning in redshift") ;;
    print (tab ++ "adaptive: constant reference objects per redshift bin") ;;
    print (tab ++ "comoving: linear binning in comoving distance") ;;
    print "Retunning linear binning..." ;;
    lookup "pdf_maker_utils" ;;
    lo <~ attr z_min; hi <~ attr z_max; n <~ attr z_n_bins;
    e <~ Engine._create_linear_redshift_bin_edges lo hi n;
    store "z_bin_edge_array" (VEdges e).

(** Lines 98-100. *)
Definition collapse (ext : External) : M unit :=
  print "Collapsing indices..." ;;
  lookup "pdf_maker_utils" ;;
  h <~ load_data "hdf5_pair_file";
  pairs <~ Engine.data_group h;
  m <~ load_maker "pdf_maker";
  u <~ load_data "unknown_data";
  a <~ load_args "args";
  Engine.collapse_full_sample pairs m u a.

(** Lines 103-106. *)
Definition region_densities (ext : External) : M unit :=
  print "Calculating region densities..." ;;
  m <~ load_maker "pdf_maker";
  e <~ load_edges "z_bin_edge_array";
  hi <~ attr z_max;
  invoke "pdf_maker" "compute_region_densities"
    (Engine.compute_region_densities e hi) m ;;
  o <~ attr output_region_pickle_file;
  match o with
  | None => ret tt
  | Some path =>
      m <~ load_maker "pdf_maker";
      load_args "args" ;;
      Engine.write_region_densities ext path m
  end.

(** Lines 109-115. *)
Definition bootstrap (ext : External) : M unit :=
  print "Calculating pdf..." ;;
  o <~ attr bootstrap_samples;
  match o with
  | None =>
      m <~ load_maker "pdf_maker";
      n <~ attr n_bootstrap;
      Engine.compute_pdf_bootstrap ext n m
  | Some path =>
      lookup "np" ;;
      d <~ Engine.loadtxt_int ext path;
      store "bootstrap_region_array" (VDraws d) ;;
      m <~ load_maker "pdf_maker";
      d <~ load_draws "bootstrap_region_array";
      invoke "pdf_maker" "_compute_pdf_bootstrap"
        (Engine._compute_pdf_bootstrap (sqrt ext) d) m
  end.

(** Lines 117-126. *)
Definition write_out (ext : External) : M unit :=
  o <~ attr output_bootstraps_file;
  match o with
  | None => ret tt
  | Some path =>
      m <~ load_maker "pdf_maker";
      load_args "args" ;;
      Engine.write_bootstrap_samples_to_ascii ext path m
  end ;;
  print "Writing..." ;;
  lookup "core_utils" ;;
  path <~ attr output_pdf_file_name;
  load_args "args" ;;
  f <~ Engine.create_ascii_file ext path;
  store "output_file" (VFile f) ;;
  m <~ load_maker "pdf_maker";
  f <~ load_file "output_file";
  invoke "pdf_maker" "write_pdf_to_ascii" (Engine.write_pdf_to_ascii f) m ;;
  load_file "output_file" ;;
  enter "output_file.close" ;;
  print "Done!".

(** Everything after the bins are chosen: lines 90-126. *)
Definition pipeline (ext : External) : M unit :=
  collapse ext ;;
  region_densities ext ;;
  bootstrap ext ;;
  write_out ext.

Definition main (ext : External) : M unit :=
  parse_arguments ext ;;
  load_inputs ext ;;
  create_bins ext ;;
  pipeline ext.

(** A run of the script from a fresh interpreter. *)
Definition run (ext : External) (seed : N) : result unit * World :=
  main ext (start seed).

End PdfMakerFullSample.


(** ** Reasoning about runs *)

Module Logic.
Import Py.

(** [wp c Q E w]: run from [w], the computation [c] either returns [a] in
    a world with [Q a], or raises [e] in a world with [E e]. *)
Definition wp {A} (c : M A) (Q : A -> World -> Prop) (E : exn -> World -> Prop)
    (w : World) : Prop :=
  match c w with
  | (Ok a, w') => Q a w'
  | (Raise e, w') => E e w'
  end.

(** No output file has been created so far. *)
Definition no_file (w : World) : Prop :=
  forall path, Create path ∉ trace w.


(** A statement sequence that creates no file, however it ends. *)
Definition quiet {A} (c : M A) : Prop :=
  forall w, no_file w -> wp c (fun _ w' => no_file w') (fun _ w' => no_file w') w.



(** The parsed arguments and the modules the bin creation needs are
    bound, as they are once the inputs have been loaded. *)
Definition bound (a : Namespace) (w : World) : Prop :=
  globals w !! "args" = Some (VArgs a)
  /\ (exists v, globals w !! "pdf_maker_utils" = Some v)
  /\ (exists v, globals w !! "np" = Some v).

(** The object bound to [pdf_maker] works on the bin edges [edges]. *)
Definition maker_edges (edges : list Q) (w : World) : Prop :=
  exists m, globals w !! "pdf_maker" = Some (VMaker m) /\ bin_edges m = edges.

(** The object bound to [pdf_maker] has reached state [s]. *)
Definition maker_at (s : PipelineState) (w : World) : Prop :=
  exists m, globals w !! "pdf_maker" = Some (VMaker m)
            /\ Orchestrator.reached s m = true.

(** The two scripts. *)
Inductive Script :=
  | Weighted
  | FullSample.

(** *** Supplying a weight source

    A weight source is the name of a weight column among the arguments
    together with the columns of the catalog. *)

Definition set_weight (o : option string) (a : Namespace) : Namespace :=
  {| unknown_sample_file := unknown_sample_file a;
     input_pair_hdf5_file := input_pair_hdf5_file a;
     pair_scale_name := pair_scale_name a;
     unknown_weight_name := o;
     z_binning_type := z_binning_type a;
     z_min := z_min a;
     z_max := z_max a;
     z_n_bins := z_n_bins a;
     n_processes := n_processes a;
     n_bootstrap := n_bootstrap a;
     bootstrap_samples := bootstrap_samples a;
     output_region_pickle_file := output_region_pickle_file a;
     output_bootstraps_file := output_bootstraps_file a;
     output_pdf_file_name := output_pdf_file_name a |}.

Definition with_columns (cols : gmap string (gmap nat Q)) (d : FileData) : FileData :=
  match d with
  | Fits c => Fits {| selected := selected c; columns := cols |}
  | Hdf5 pairs => Hdf5 pairs
  end.

(** The same run with the weight column [name] requested and the catalogs
    carrying the columns [cols]. *)
Definition supply_weights (name : string) (cols : gmap string (gmap nat Q))
    (ext : External) : External :=
  {| parse_input_pdf_args := set_weight (Some name) (parse_input_pdf_args ext);
     file_checker_loader := fun path => with_columns cols <$> file_checker_loader ext path;
     loadtxt := loadtxt ext;
     loadtxt_int := loadtxt_int ext;
     create_comoving := create_comoving ext;
     create_logspace := create_logspace ext;
     sqrt := sqrt ext;
     randint := randint ext;
     worker_fault := worker_fault ext;
     writable := writable ext;
     snapshot_needs := snapshot_needs ext |}.

(** Two objects that differ at most in the weight source. *)
Definition same_file (d1 d2 : FileData) : Prop :=
  match d1, d2 with
  | Hdf5 p1, Hdf5 p2 => p1 = p2
  | Fits c1, Fits c2 => selected c1 = selected c2
  | _, _ => False
  end.

Definition same_args (a1 a2 : Namespace) : Prop :=
  set_weight None a1 = set_weight None a2.

Definition same_value (v1 v2 : Value) : Prop :=
  match v1, v2 with
  | VArgs a1, VArgs a2 => same_args a1 a2
  | VData d1, VData d2 => same_file d1 d2
  | _, _ => v1 = v2
  end.

Definition same_binding (o1 o2 : option Value) : Prop :=
  match o1, o2 with
  | Some v1, Some v2 => same_value v1 v2
  | None, None => True
  | _, _ => False
  end.

(** The first trace is the second with the weight warning in it. *)
Definition warned (name : string) (t1 t2 : list Event) : Prop :=
  exists before after,
    t1 = before
         ++ [ Print (PdfMakerFullSample.weight_warning name);
              Print (tab ++ "Continuing...") ]
         ++ after
    /\ t2 = before ++ after.

Definition same_world (name : string) (w1 w2 : World) : Prop :=
  (forall k, same_binding (globals w1 !! k) (globals w2 !! k))
  /\ warned name (trace w1) (trace w2)
  /\ rng w1 = rng w2.

(** Run from two such worlds, [c1] and [c2] end the same way, in two such
    worlds, with results related by [V]. *)
Definition sim (name : string) {A} (V : A -> A -> Prop) (c1 c2 : M A) : Prop :=
  forall w1 w2, same_world name w1 w2 ->
    match c1 w1, c2 w2 with
    | (Ok a1, w1'), (Ok a2, w2') => V a1 a2 /\ same_world name w1' w2'
    | (Raise e1, w1'), (Raise e2, w2') => e1 = e2 /\ same_world name w1' w2'
    | _, _ => False
    end.

Definition run_script (s : Script) (ext : External) (seed : N)
  : result unit * World :=
  match s with
  | Weighted => PdfMaker.run ext seed
  | FullSample => PdfMakerFullSample.run ext seed
  end.

End Logic.

(** ** A small survey to run the scripts on *)

Module Sample.
Import Py.

Definition pairs : list ReferenceObject :=
  [ {| ref_id := 0; ref_redshift := 1 # 2; ref_region := 0;
       matched := {[ "kpc100" := [0; 1; 2] ]} |};
    {| ref_id := 1; ref_redshift := 3 # 2; ref_region := 1;
       matched := {[ "kpc100" := [1; 2] ]} |};
    {| ref_id := 2; ref_redshift := 5 # 2; ref_region := 0;
       matched := {[ "kpc100" := [0] ]} |} ].

(** Objects 0 and 1 are selected; the column [w] holds non-unit weights. *)
Definition catalog : Catalog :=
  {| selected := {[ 0; 1 ]};
     columns := {[ "w" := {[ 0 := 2%Q; 1 := 3%Q ]} ]} |}.

Definition args_with (binning : PyArg) (weight : option string) (n_bins : nat)
    (draws : option string) : Namespace :=
  {| unknown_sample_file := "unknown.fits";
     input_pair_hdf5_file := "pairs.hdf5";
     pair_scale_name := "kpc100";
     unknown_weight_name := weight;
     z_binning_type := binning;
     z_min := 0;
     z_max := 2;
     z_n_bins := n_bins;
     n_processes := 2;
     n_bootstrap := 2;
     bootstrap_samples := draws;
     output_region_pickle_file := Some "regions.pkl";
     output_bootstraps_file := None;
     output_pdf_file_name := "pdf.ascii" |}.

Definition args (binning : PyArg) (weight : option string) : Namespace :=
  args_with binning weight 2 (Some "draws.txt").

Definition files (path : string) : option FileData :=
  if String.eqb path "unknown.fits" then Some (Fits catalog)
  else if String.eqb path "pairs.hdf5" then Some (Hdf5 pairs)
  else None.

(** A generator that always draws the first region. *)
Definition first_region (seed : N) (bound : nat) : nat * N := (0, N.succ seed).

Definition survey (a : Namespace) (faulty : bool) : External :=
  {| parse_input_pdf_args := a;
     file_checker_loader := files;
     loadtxt := fun path =>
       if String.eqb path "edges.txt" then Read (Vector [0; 1; 2; 3]%Q)
       else if String.eqb path "one.txt" then Read (Scalar 1%Q)
       else Unreadable;
     loadtxt_int := fun path =>
       if String.eqb path "draws.txt" then Read (Table [[0; 1]; [1; 1]])
       else Unreadable;
     create_comoving := fun lo hi n => Binner.linear lo hi n;
     create_logspace := fun lo hi n => Binner.linear lo hi n;
     sqrt := fun x => x;
     randint := first_region;
     worker_fault := fun _ => faulty;
     writable := fun _ => true;
     snapshot_needs := RegionDensitiesComputed |}.

(** The same survey under the reading of the specification by which the
    snapshot, like every write, needs the bootstrap to be done. *)
Definition strict_survey (a : Namespace) : External :=
  {| parse_input_pdf_args := a;
     file_checker_loader := files;
     loadtxt := loadtxt (survey a false);
     loadtxt_int := loadtxt_int (survey a false);
     create_comoving := create_comoving (survey a false);
     create_logspace := create_logspace (survey a false);
     sqrt := sqrt (survey a false);
     randint := first_region;
     worker_fault := fun _ => false;
     writable := fun _ => true;
     snapshot_needs := BootstrapComputed |}.

Definition collapsed : PDFMaker :=
  Orchestrator.set_estimates
    [ {| est_region := 0; est_redshift := 1 # 2; est_density := 3 |};
      {| est_region := 1; est_redshift := 5 # 2; est_density := 1 |};
      {| est_region := 0; est_redshift := 3 # 2; est_density := 2 |} ]
    (Collapser.new_PDFMaker []).

(** The same object once its region densities are computed. *)
Definition aggregated : PDFMaker :=
  Orchestrator.set_region_matrix [0; 1; 2]%Q
    (Aggregator.build_matrix [0; 1; 2]%Q 2 (estimates collapsed)) collapsed.

Definition linear_args : Namespace := args (PyList ["linear"]) None.
Definition adaptive_args : Namespace := args (PyList ["adaptive"]) None.
Definition unknown_args : Namespace := args (PyList ["quantile"]) None.
Definition file_args : Namespace := args (PyList ["file"; "edges.txt"]) None.
(** The file policy on a file that holds the single number 1. *)
Definition one_number_args : Namespace := args (PyList ["file"; "one.txt"]) None.

(** The adaptive policy as pdf_maker_full_sample.py reads it, with more
    bins asked for than the survey has distinct redshifts. *)
Definition degenerate_args : Namespace := args_with (PyStr "adaptive") None 5 None.

(** A world in which the arguments and the aggregated object are bound. *)
Definition ready (a : Namespace) (seed : N) : World :=
  set_global "pdf_maker" (VMaker aggregated)
    (set_global "args" (VArgs a) (PdfMaker.start seed)).

End Sample.

(** ** The log a run leaves behind

    What the two scripts print, which engine entry points they call and
    which files get created, in the order of the statements, as a list
    fixed by the arguments and the files: the trace of a run that nothing
    stops. *)

Module Conduct.
Import Py.

Definition print_of (line : string) (e : Event) : bool :=
  match e with Print l => String.eqb l line | _ => false end.

Definition call_of (f : string) (e : Event) : bool :=
  match e with Call g => String.eqb g f | _ => false end.

Definition is_create (e : Event) : bool :=
  match e with Create _ => true | _ => false end.

(** [B] events come only after an [A] event: a run-time monitor, [seen]
    telling whether an [A] event has gone by. *)
Fixpoint after_first (A B : Event -> bool) (seen : bool) (t : list Event) : bool :=
  match t with
  | [] => true
  | e :: t' => (negb (B e) || seen) && after_first A B (seen || A e) t'
  end.

(** In the trace [t] every [B] event has an [A] event before it. *)
Definition comes_after (A B : Event -> bool) (t : list Event) : Prop :=
  forall i e, t !! i = Some e -> B e = true ->
    exists j e', j < i /\ t !! j = Some e' /\ A e' = true.

(** The call that collapses the pairs, in either script. *)
Definition collapsing (e : Event) : bool :=
  call_of "pdf_maker_utils.collapse_ids_to_single_estimate" e
  || call_of "pdf_maker_utils.collapse_full_sample" e.

(** The call that computes the bootstrap, on either path. *)
Definition bootstrapping (e : Event) : bool :=
  call_of "pdf_maker.compute_pdf_bootstrap" e
  || call_of "pdf_maker._compute_pdf_bootstrap" e.

(** What the engine function of a policy without further inputs returns
    for [(args.z_min, args.z_max, args.z_n_bins)]. *)
Definition policy_edges (ext : External) (name : string) (a : Namespace) : list Q :=
  if String.eqb name "comoving" then
    create_comoving ext (z_min a) (z_max a) (z_n_bins a)
  else if String.eqb name "logspace" then
    create_logspace ext (z_min a) (z_max a) (z_n_bins a)
  else Binner.linear (z_min a) (z_max a) (z_n_bins a).

(** A write that is made when its file name is given:
    [if args.name is not None: pdf_maker.f(args.name, args)]. *)
Definition optional_write (f : string) (o : option string) : list Event :=
  match o with
  | None => []
  | Some path => [Call f; Create path]
  end.

(** [pdf_maker.py], lines 22-31. *)
Definition inputs_log : list Event :=
  [ Print "";
    Print "The-wiZZ has begun conjuring: running pdf maker...";
    Call "input_flags.parse_input_pdf_args";
    Call "input_flags.print_args";
    Print "Loading unknown data...";
    Call "core_utils.file_checker_loader" ].

(** [pdf_maker.py], lines 54-78: the chain of tests on
    [args.z_binning_type[0]], in the order of the [if]/[elif]s.  The
    adaptive branch shows nothing: it stops before its call. *)
Definition bins_log (a : Namespace) : list Event :=
  Print "Creating bins..." ::
  match subscript (z_binning_type a) 0 with
  | Raise _ => []
  | Ok k =>
      if String.eqb k "linear" then
        [Call "pdf_maker_utils._create_linear_redshift_bin_edges"]
      else if String.eqb k "adaptive" then
        []
      else if String.eqb k "comoving" then
        [Call "pdf_maker_utils._create_comoving_redshift_bin_edges"]
      else if String.eqb k "logspace" then
        [Call "pdf_maker_utils._create_logspace_redshift_bin_edges"]
      else if String.eqb k "file" then
        [Call "np.loadtxt"]
      else
        [ Print "Requested binning name invalid. Valid types are:";
          Print (tab ++ "linear: linear binning in redshift");
          Print (tab ++ "adaptive: constant reference objects per redshift bin");
          Print (tab ++ "comoving: linear binning in comoving distance");
          Print (tab ++ "file: file providing the bin edges");
          Print "Returning linear binning...";
          Call "pdf_maker_utils._create_linear_redshift_bin_edges" ]
  end.

(** [pdf_maker_full_sample.py], lines 21-33. *)
Definition full_arguments_log (a : Namespace) : list Event :=
  [ Print "";
    Print "The-wiZZ has begun conjuring: running pdf maker full sample...";
    Call "input_flags.parse_input_pdf_args";
    Call "input_flags.print_args" ]
  ++ match unknown_weight_name a with
     | None => []
     | Some name =>
         [ Print (PdfMakerFullSample.weight_warning name);
           Print (tab ++ "Continuing...") ]
     end.

(** [pdf_maker_full_sample.py], line 43: the test
    [pdf_maker.reference_redshift_array.max() < args.z_max] on the object
    built from the pair file. *)
Definition z_max_beyond (ext : External) (a : Namespace) : bool :=
  match file_checker_loader ext (input_pair_hdf5_file a) with
  | Some (Hdf5 pairs) =>
      match array_max (reference_redshift_array (Collapser.new_PDFMaker pairs)) with
      | Ok top => Binner.Qlt_bool top (z_max a)
      | Raise _ => false
      end
  | _ => false
  end.

(** [pdf_maker_full_sample.py], lines 36-45. *)
Definition full_inputs_log (ext : External) (a : Namespace) : list Event :=
  [ Print "Loading files...";
    Call "core_utils.file_checker_loader";
    Call "core_utils.file_checker_loader";
    Print "Preloading reference data...";
    Call "pdf_maker_utils.PDFMaker" ]
  ++ (if z_max_beyond ext a
      then [Print "WARNING: requested z_max is greater than available reference redshifts."]
      else []).

(** [pdf_maker_full_sample.py], lines 68-89: the chain of tests on the
    whole of [args.z_binning_type]. *)
Definition full_bins_log (a : Namespace) : list Event :=
  Print "Creating bins..." ::
  if eq_str (z_binning_type a) "linear" then
    [Call "pdf_maker_utils._create_linear_redshift_bin_edges"]
  else if eq_str (z_binning_type a) "adaptive" then
    [Call "pdf_maker_utils._create_adaptive_redshift_bin_edges"]
  else if eq_str (z_binning_type a) "comoving" then
    [Call "pdf_maker_utils._create_comoving_redshift_bin_edges"]
  else if eq_str (z_binning_type a) "logspace" then
    [Call "pdf_maker_utils._create_logspace_redshift_bin_edges"]
  else
    [ Print "Requested binning name invalid. Valid types are:";
      Print (tab ++ "linear: linear binning in redshift");
      Print (tab ++ "adaptive: constant reference objects per redshift bin");
      Print (tab ++ "comoving: linear binning in comoving distance");
      Print "Retunning linear binning...";
      Call "pdf_maker_utils._create_linear_redshift_bin_edges" ].

(** Lines 87-89 of [pdf_maker.py], lines 98-100 of
    [pdf_maker_full_sample.py]. *)
Definition collapse_log (s : Logic.Script) : list Event :=
  match s with
  | Logic.Weighted =>
      [ Print "Starting indices matcher...";
        Call "pdf_maker_utils.collapse_ids_to_single_estimate" ]
  | Logic.FullSample =>
      [ Print "Collapsing indices...";
        Call "pdf_maker_utils.collapse_full_sample" ]
  end.

(** Lines 92-95 of [pdf_maker.py], lines 103-106 of
    [pdf_maker_full_sample.py]. *)
Definition region_log (a : Namespace) : list Event :=
  [ Print "Calculating region densities...";
    Call "pdf_maker.compute_region_densities" ]
  ++ optional_write "pdf_maker.write_region_densities" (output_region_pickle_file a).

(** Lines 98-104 of [pdf_maker.py], lines 109-115 of
    [pdf_maker_full_sample.py]. *)
Definition bootstrap_log (a : Namespace) : list Event :=
  Print "Calculating pdf..." ::
  match bootstrap_samples a with
  | None => [Call "pdf_maker.compute_pdf_bootstrap"]
  | Some _ => [Call "np.loadtxt"; Call "pdf_maker._compute_pdf_bootstrap"]
  end.

(** Lines 106-115 of [pdf_maker.py], lines 117-125 of
    [pdf_maker_full_sample.py]. *)
Definition write_log (a : Namespace) : list Event :=
  optional_write "pdf_maker.write_bootstrap_samples_to_ascii" (output_bootstraps_file a)
  ++ [ Print "Writing...";
       Call "core_utils.create_ascii_file";
       Create (output_pdf_file_name a);
       Call "pdf_maker.write_pdf_to_ascii";
       Call "output_file.close" ].

Definition pipeline_log (s : Logic.Script) (a : Namespace) : list Event :=
  collapse_log s ++ region_log a ++ bootstrap_log a ++ write_log a.

(** Everything up to the last statement. *)
Definition body_log (s : Logic.Script) (ext : External) : list Event :=
  let a := parse_input_pdf_args ext in
  match s with
  | Logic.Weighted => inputs_log ++ bins_log a ++ pipeline_log s a
  | Logic.FullSample =>
      full_arguments_log a ++ full_inputs_log ext a ++ full_bins_log a
      ++ pipeline_log s a
  end.

(** The last statement of both scripts: [print("Done!")]. *)
Definition script_log (s : Logic.Script) (ext : External) : list Event :=
  body_log s ext ++ [Print "Done!"].

(** What the statements of [pdf_maker.py] settle about the exception a
    run ends in: a [NameError] only for the name [pdf_maker] under the
    adaptive policy, and no [BinningError], the adaptive binner being out
    of reach.  Every other exception is left open: it comes from the
    argument, from numpy or from the engine. *)
Definition may_raise (a : Namespace) (e : exn) : Prop :=
  match e with
  | NameError name =>
      name = "pdf_maker" /\ subscript (z_binning_type a) 0 = Ok "adaptive"
  | BinningError => False
  | _ => True
  end.

(** The same for [pdf_maker_full_sample.py]: no [NameError], and a
    [BinningError] only when the whole argument is the adaptive name. *)
Definition full_may_raise (a : Namespace) (e : exn) : Prop :=
  match e with
  | NameError _ => False
  | BinningError => eq_str (z_binning_type a) "adaptive" = true
  | _ => True
  end.

Definition may_raise_of (s : Logic.Script) (a : Namespace) (e : exn) : Prop :=
  match s with
  | Logic.Weighted => may_raise a e
  | Logic.FullSample => full_may_raise a e
  end.

(** The names the statements after the argument parsing read. *)
Definition parsed (a : Namespace) (w : World) : Prop :=
  globals w !! "args" = Some (VArgs a)
  /\ (exists v, globals w !! "np" = Some v)
  /\ (exists v, globals w !! "core_utils" = Some v)
  /\ (exists v, globals w !! "pdf_maker_utils" = Some v)
  /\ (exists v, globals w !! "input_flags" = Some v).

Definition holds_catalog (w : World) : Prop :=
  exists d, globals w !! "unknown_data" = Some (VData d).

Definition holds_pairs (w : World) : Prop :=
  exists d, globals w !! "hdf5_pair_file" = Some (VData d).

(** The bin edges are bound, to a 1-d array or, after the file policy on
    a file of several rows and columns, to a 2-d one. *)
Definition holds_edges (w : World) : Prop :=
  (exists e, globals w !! "z_bin_edge_array" = Some (VEdges e))
  \/ (exists rows, globals w !! "z_bin_edge_array" = Some (VTable rows)).

Definition holds_maker (w : World) : Prop :=
  exists m, globals w !! "pdf_maker" = Some (VMaker m).

(** What the pipeline reads once the bins are chosen and the pairs are
    collapsed. *)
Definition staged (a : Namespace) (w : World) : Prop :=
  parsed a w /\ holds_edges w /\ holds_maker w.

(** The exceptions that come from outside the scripts: a file that cannot
    be read or written or whose content numpy cannot convert, an object of
    the wrong kind, and the engine's state errors and worker failures. *)
Definition outside_fault (e : exn) : Prop :=
  match e with
  | IOError _ | ValueError | TypeError | PipelineStateError _ | WorkerFailure => True
  | _ => False
  end.

(** [c] runs from a world with [pre]: when it returns, [post] holds and
    the trace has grown by [log] and then [final]; when it raises, the
    exception is one of [may] and the trace has grown by an initial
    segment of [log].  Under [still] the random generator is left as it
    was. *)
Definition conducts {A} (pre post : World -> Prop) (may : exn -> Prop)
    (log final : list Event) (still : Prop) (c : M A) : Prop :=
  forall w, pre w ->
    Logic.wp c
      (fun _ w' => post w' /\ trace w' = trace w ++ log ++ final
                   /\ (still -> rng w' = rng w))
      (fun e w' => may e
                   /\ (exists t, trace w' = trace w ++ t /\ t `prefix_of` log)
                   /\ (still -> rng w' = rng w))
      w.

End Conduct.


(* ===================================================================== *)
(** * Part II: properties                                                 *)
(* ===================================================================== *)

(** ** RedshiftBinner: linear and logspace edges *)

Section RealBinnerFacts.
Import RealBinner.
Local Open Scope R_scope.

Lemma nth_map_seq {A} (f : nat -> A) (n i : nat) (d : A) :
  (i < n)%nat -> nth i (map f (seq 0 n)) d = f i.
Proof.
  intros Hi.
  rewrite (nth_indep _ d (f 0%nat)) by (rewrite length_map, length_seq; exact Hi).
  rewrite map_nth, seq_nth by exact Hi. reflexivity.
Qed.











(** The rational binner the scripts run computes the same edges. *)
Lemma linear_Q2R (z_min z_max : Q) (n_bins : nat) :
  (1 <= n_bins)%nat ->
  map Q2R (Binner.linear z_min z_max n_bins)
  = linear (Q2R z_min) (Q2R z_max) n_bins.
Proof.
  intros Hn. unfold Binner.linear, linear, linspace. rewrite map_map.
  apply map_ext. intros i.
  assert (Hof : forall k, Q2R (Binner.of_nat k) = INR k).
  { intros k. unfold Binner.of_nat, Q2R, inject_Z. simpl.
    rewrite INR_IZR_INZ. lra. }
  rewrite Q2R_plus, Q2R_mult, Q2R_div, Q2R_minus, !Hof; [reflexivity |].
  unfold Binner.of_nat, Qeq, inject_Z. simpl. lia.
Qed.
End RealBinnerFacts.

(** ** RedshiftBinner: adaptive (quantile) binning *)

Section AdaptiveFacts.
Import Binner.


Lemma quantile_pos_le (total n_bins i : nat) :
  i <= n_bins -> quantile_pos total n_bins i <= total.
Proof.
  intros Hi. unfold quantile_pos.
  destruct n_bins as [|n]; [simpl; lia |].
  apply Nat.Div0.div_le_upper_bound. nia.
Qed.

Lemma quantile_pos_mono (total n_bins i : nat) :
  quantile_pos total n_bins i <= quantile_pos total n_bins (S i).
Proof.
  unfold quantile_pos. apply Nat.Div0.div_le_mono. lia.
Qed.

Lemma quantile_pos_0 (total n_bins : nat) : quantile_pos total n_bins 0 = 0.
Proof. unfold quantile_pos. simpl. apply Nat.Div0.div_0_l. Qed.

Lemma quantile_pos_last (total n_bins : nat) :
  1 <= n_bins -> quantile_pos total n_bins n_bins = total.
Proof.
  intros Hn. unfold quantile_pos. rewrite Nat.mul_comm. apply Nat.div_mul. lia.
Qed.

Lemma bin_count_eq (sorted : list Q) (n_bins i : nat) :
  i < n_bins ->
  bin_count sorted n_bins i
  = quantile_pos (length sorted) n_bins (S i) - quantile_pos (length sorted) n_bins i.
Proof.
  intros Hi. unfold bin_count, bin_members.
  rewrite length_firstn, length_skipn.
  pose proof (quantile_pos_le (length sorted) n_bins (S i)). lia.
Qed.

(** The bins are consecutive slices: together they are the sorted list. *)
Lemma bin_members_upto (sorted : list Q) (n_bins k : nat) :
  concat (map (bin_members sorted n_bins) (seq 0 k))
  = firstn (quantile_pos (length sorted) n_bins k) sorted.
Proof.
  induction k as [|k IH].
  - rewrite quantile_pos_0. reflexivity.
  - rewrite seq_S, map_app, concat_app, IH. simpl. rewrite app_nil_r.
    unfold bin_members.
    pose proof (quantile_pos_mono (length sorted) n_bins k) as Hm.
    set (lo := quantile_pos (length sorted) n_bins k) in *.
    set (hi := quantile_pos (length sorted) n_bins (S k)) in *.
    replace hi with (lo + (hi - lo)) at 2 by lia.
    rewrite <- (firstn_skipn lo sorted) at 3.
    destruct (Nat.le_gt_cases lo (length sorted)) as [Hle|Hgt].
    + rewrite firstn_app, firstn_firstn, length_firstn.
      replace (Init.Nat.min (lo + (hi - lo)) lo) with lo by lia.
      replace (lo + (hi - lo) - Init.Nat.min lo (length sorted)) with (hi - lo) by lia.
      reflexivity.
    + rewrite (skipn_all2 sorted) by lia.
      rewrite firstn_nil, !app_nil_r, firstn_firstn.
      replace (Init.Nat.min (lo + (hi - lo)) lo) with lo by lia. reflexivity.
Qed.

Lemma bin_members_partition (sorted : list Q) (n_bins : nat) :
  1 <= n_bins ->
  concat (map (bin_members sorted n_bins) (seq 0 n_bins)) = sorted.
Proof.
  intros Hn. rewrite bin_members_upto, quantile_pos_last by assumption.
  apply firstn_all.
Qed.

(** The edges: n_bins+1 of them, from [z_min] to [z_max]. *)
Lemma adaptive_edges_length (z_min z_max : Q) (n_bins : nat) (redshifts edges : list Q) :
  adaptive z_min z_max n_bins redshifts = Ok edges -> length edges = S n_bins.
Proof.
  unfold adaptive. destruct (_ <? _); [discriminate |].
  intros [= <-]. cbn [length]. rewrite length_map, length_seq. reflexivity.
Qed.

(** The sort rearranges its input and orders it. *)
Lemma insert_sorted_perm (x : Q) (l : list Q) :
  Permutation (insert_sorted x l) (x :: l).
Proof.
  induction l as [|y l IH]; simpl; [reflexivity |].
  destruct (Qle_bool x y); [reflexivity |].
  rewrite IH. apply perm_swap.
Qed.

Lemma stable_sort_perm (l : list Q) : Permutation (stable_sort l) l.
Proof.
  induction l as [|x l IH]; simpl; [reflexivity |].
  rewrite insert_sorted_perm. constructor. exact IH.
Qed.

Lemma stable_sort_length (l : list Q) : length (stable_sort l) = length l.
Proof. apply Permutation_length, stable_sort_perm. Qed.

Lemma insert_sorted_sorted (x : Q) (l : list Q) :
  Sorted Qle l -> Sorted Qle (insert_sorted x l).
Proof.
  induction 1 as [|y l Hs IH Hhd]; simpl.
  - repeat constructor.
  - destruct (Qle_bool x y) eqn:Hxy.
    + apply Qle_bool_iff in Hxy. repeat constructor; assumption.
    + assert (Hyx : (y <= x)%Q).
      { apply Qlt_le_weak, Qnot_le_lt. intros Hle.
        apply Qle_bool_iff in Hle. congruence. }
      constructor; [exact IH |].
      destruct Hhd as [|z l Hyz]; simpl.
      * constructor. exact Hyx.
      * destruct (Qle_bool x z); constructor; assumption.
Qed.

Lemma stable_sort_sorted (l : list Q) : Sorted Qle (stable_sort l).
Proof.
  induction l as [|x l IH]; simpl; [constructor |].
  apply insert_sorted_sorted, IH.
Qed.

(** A filter that holds exactly on the positions from [p] up to [q]
    keeps that slice. *)
Lemma filter_slice (f : Q -> bool) (l : list Q) (p q : nat) :
  (forall k, k < length l -> f (nth k l 0%Q) = (p <=? k) && (k <? q)) ->
  List.filter f l = firstn (q - p) (skipn p l).
Proof.
  revert p q. induction l as [|x l IH]; intros p q Hf.
  - rewrite skipn_nil, firstn_nil. reflexivity.
  - assert (Hx := Hf 0 ltac:(simpl; lia)). simpl in Hx.
    assert (Hl : forall k, k < length l ->
              f (nth k l 0%Q) = (p <=? S k) && (S k <? q)).
    { intros k Hk. apply (Hf (S k)). simpl. lia. }
    simpl List.filter. rewrite Hx.
    destruct p as [|p]; simpl.
    + destruct q as [|q]; simpl.
      * rewrite (IH 0 0); [reflexivity |].
        intros k Hk. rewrite Hl by assumption. reflexivity.
      * rewrite (IH 0 q); [rewrite Nat.sub_0_r; reflexivity |].
        intros k Hk. rewrite Hl by assumption. reflexivity.
    + rewrite (IH p (q - 1)).
      * replace (q - 1 - p) with (q - S p) by lia. reflexivity.
      * intros k Hk. rewrite Hl by assumption.
        destruct (Nat.leb_spec (S p) (S k)), (Nat.leb_spec p k),
          (Nat.ltb_spec (S k) q), (Nat.ltb_spec k (q - 1)); simpl; try reflexivity; lia.
Qed.

Lemma increasing_nth (l : list Q) (j k : nat) :
  StronglySorted Qlt l -> j < k -> k < length l ->
  (nth j l 0 < nth k l 0)%Q.
Proof.
  intros Hs. revert j k. induction Hs as [|x l Hs IH Hall]; intros j k Hjk Hk.
  - simpl in Hk. lia.
  - destruct k as [|k]; [lia |]. simpl in Hk.
    destruct j as [|j]; simpl.
    + rewrite Stdlib.Lists.List.Forall_forall in Hall. apply Hall, nth_In. lia.
    + apply IH; lia.
Qed.

Lemma Qle_bool_false (x y : Q) : Qle_bool x y = false <-> (y < x)%Q.
Proof.
  split.
  - intros H. apply Qnot_le_lt. intros Hle. apply Qle_bool_iff in Hle. congruence.
  - intros H. destruct (Qle_bool x y) eqn:E; [| reflexivity].
    apply Qle_bool_iff in E. exfalso. apply (Qlt_not_le _ _ H E).
Qed.

Lemma Qlt_bool_iff (x y : Q) : Qlt_bool x y = true <-> (x < y)%Q.
Proof.
  unfold Qlt_bool. rewrite negb_true_iff. apply Qle_bool_false.
Qed.


(** With pairwise distinct redshifts below [z_max], the objects of a bin
    are exactly those whose redshift lies between its two edges. *)
Lemma bin_members_interval (z_min z_max : Q) (sorted : list Q) (n_bins i : nat) :
  StronglySorted Qlt sorted ->
  Forall (fun z => (z_min <= z)%Q /\ (z < z_max)%Q) sorted ->
  i < n_bins ->
  in_interval (edge_at z_min z_max sorted n_bins i)
              (edge_at z_min z_max sorted n_bins (S i)) sorted
  = bin_members sorted n_bins i.
Proof.
  intros Hs Hall Hi. unfold in_interval, bin_members.
  apply filter_slice. intros k Hk.
  assert (Hk' : (z_min <= nth k sorted 0)%Q /\ (nth k sorted 0 < z_max)%Q).
  { rewrite Stdlib.Lists.List.Forall_forall in Hall. apply Hall, nth_In, Hk. }
  assert (Hpos : forall j, 0 < j -> j < n_bins ->
            quantile_pos (length sorted) n_bins j < length sorted).
  { intros j Hj0 Hj. unfold quantile_pos.
    apply Nat.Div0.div_lt_upper_bound. nia. }
  f_equal.
  - unfold edge_at. destruct (Nat.eqb_spec i 0) as [->|Hi0].
    + rewrite quantile_pos_0. simpl. apply Qle_bool_iff, Hk'.
    + destruct (Nat.eqb_spec i n_bins); [lia |].
      set (p := quantile_pos (length sorted) n_bins i).
      assert (Hp : p < length sorted) by (apply Hpos; lia).
      rewrite (nth_indep _ z_max 0%Q) by exact Hp.
      destruct (Nat.leb_spec p k) as [Hle|Hgt].
      * apply Qle_bool_iff.
        destruct (Nat.eq_dec p k) as [->|Hne]; [apply Qle_refl |].
        apply Qlt_le_weak, increasing_nth; [assumption | lia | assumption].
      * apply Qle_bool_false, increasing_nth; [assumption | lia | assumption].
  - unfold edge_at. simpl (S i =? 0).
    destruct (Nat.eqb_spec (S i) n_bins) as [Hlast|Hin].
    + rewrite Hlast, quantile_pos_last by lia.
      destruct (Nat.ltb_spec k (length sorted)); [| lia].
      apply Qlt_bool_iff, Hk'.
    + set (q := quantile_pos (length sorted) n_bins (S i)).
      assert (Hq : q < length sorted) by (apply Hpos; lia).
      rewrite (nth_indep _ z_max 0%Q) by exact Hq.
      destruct (Nat.ltb_spec k q) as [Hlt|Hge].
      * apply Qlt_bool_iff, increasing_nth; [assumption | lia | assumption].
      * unfold Qlt_bool. apply negb_false_iff, Qle_bool_iff.
        destruct (Nat.eq_dec q k) as [->|Hne]; [apply Qle_refl |].
        apply Qlt_le_weak, increasing_nth; [assumption | lia | assumption].
Qed.



Lemma interval_counts_bin_counts (z_min z_max : Q) (sorted : list Q) (n_bins : nat) :
  StronglySorted Qlt sorted ->
  Forall (fun z => (z_min <= z)%Q /\ (z < z_max)%Q) sorted ->
  interval_counts (map (edge_at z_min z_max sorted n_bins) (seq 0 (S n_bins))) sorted
  = bin_counts sorted n_bins.
Proof.
  intros Hs Hall. unfold interval_counts, bin_counts.
  rewrite length_map, length_seq. replace (S n_bins - 1) with n_bins by lia.
  apply map_ext_in. intros i Hi. apply in_seq in Hi.
  rewrite !nth_map_seq by lia. unfold bin_count. f_equal.
  apply bin_members_interval; [assumption | assumption | lia].
Qed.










End AdaptiveFacts.

(** ** RegionDensityAggregator: object counts *)

Section AggregatorFacts.
Import Aggregator.

Implicit Types (M : gmap (nat * Z) Cell) (e : CollapsedEstimate).

Lemma count_comm (c1 c2 : Cell) (acc : nat) :
  n_objects c1 + (n_objects c2 + acc) = n_objects c2 + (n_objects c1 + acc).
Proof. lia. Qed.

Lemma total_objects_insert M (k : nat * Z) (c : Cell) :
  total_objects (<[k := c]> M) + n_objects (default empty_cell (M !! k))
  = total_objects M + n_objects c.
Proof.
  unfold total_objects. destruct (M !! k) as [c0|] eqn:Hk; simpl.
  - rewrite <- insert_delete_eq.
    rewrite map_fold_insert_L; [| intros; apply count_comm | apply lookup_delete_eq].
    rewrite (map_fold_delete_L _ _ k c0 M); [lia | intros; apply count_comm | exact Hk].
  - rewrite map_fold_insert_L; [lia | intros; apply count_comm | exact Hk].
Qed.

Lemma total_objects_add (edges : list Q) M e :
  total_objects (add_estimate edges M e) = S (total_objects M).
Proof.
  unfold add_estimate.
  pose proof (total_objects_insert M
    (est_region e, locate_bin edges (est_redshift e))
    {| raw_density := raw_density (default empty_cell
                         (M !! (est_region e, locate_bin edges (est_redshift e))))
                      + est_density e;
       n_objects := S (n_objects (default empty_cell
                         (M !! (est_region e, locate_bin edges (est_redshift e))))) |}) as H.
  simpl in H. simpl. lia.
Qed.

Lemma row_lookup (r : nat) M (k : nat * Z) :
  k.1 = r -> row r M !! k = M !! k.
Proof.
  intros Hk. unfold row. apply option_eq. intros c.
  rewrite map_lookup_filter_Some. simpl. tauto.
Qed.

Lemma row_add (edges : list Q) (r : nat) M e :
  row r (add_estimate edges M e)
  = if est_region e =? r then add_estimate edges (row r M) e else row r M.
Proof.
  unfold add_estimate.
  destruct (Nat.eqb_spec (est_region e) r) as [Heq|Hne].
  - rewrite row_lookup by exact Heq.
    unfold row. apply map_filter_insert_True. exact Heq.
  - unfold row. apply map_filter_insert_not. intros c. simpl. exact Hne.
Qed.

Lemma total_objects_empty : total_objects ∅ = 0.
Proof. unfold total_objects. apply map_fold_empty. Qed.

Lemma row_empty (r : nat) : row r ∅ = ∅.
Proof. unfold row. apply map_filter_empty. Qed.

Lemma accumulate_total (edges : list Q) (z_max : Q) (ests : list CollapsedEstimate) M :
  total_objects (accumulate edges z_max M ests)
  = total_objects M + length (below z_max ests).
Proof.
  revert M. induction ests as [|e ests IH]; intros M; simpl.
  - lia.
  - unfold accumulate in *. simpl. rewrite IH.
    destruct (Binner.Qlt_bool (est_redshift e) z_max); simpl.
    + rewrite total_objects_add. lia.
    + reflexivity.
Qed.

Lemma accumulate_row (edges : list Q) (z_max : Q) (r : nat)
    (ests : list CollapsedEstimate) M :
  total_objects (row r (accumulate edges z_max M ests))
  = total_objects (row r M) + length (of_region r (below z_max ests)).
Proof.
  revert M. induction ests as [|e ests IH]; intros M; simpl.
  - lia.
  - unfold accumulate in *. simpl. rewrite IH.
    destruct (Binner.Qlt_bool (est_redshift e) z_max); simpl.
    + rewrite row_add. destruct (est_region e =? r); simpl.
      * rewrite total_objects_add. lia.
      * reflexivity.
    + reflexivity.
Qed.

Lemma accumulate_skip (edges : list Q) (z_max : Q)
    (before after : list CollapsedEstimate) e M :
  Binner.Qlt_bool (est_redshift e) z_max = false ->
  accumulate edges z_max M (before ++ e :: after)
  = accumulate edges z_max M (before ++ after).
Proof.
  intros He. unfold accumulate. rewrite !foldl_app. simpl. rewrite He. reflexivity.
Qed.

(** C4: after compute_region_densities(edges, z_max) the object counts of
    all cells sum to the number of collapsed estimates with redshift below
    z_max, each region's row sums to the number of those with that region
    label, and an estimate at or above z_max contributes to no cell. *)
Theorem region_object_counts (edges : list Q) (z_max : Q) (m : PDFMaker) :
  Orchestrator.reached Collapsed m = true ->
  exists m',
    compute_region_densities edges z_max m = Ok m'
    /\ total_objects (region_matrix m') = length (below z_max (estimates m))
    /\ (forall r, total_objects (row r (region_matrix m'))
                  = length (of_region r (below z_max (estimates m))))
    /\ (forall before e after,
          estimates m = before ++ e :: after ->
          Binner.Qlt_bool (est_redshift e) z_max = false ->
          region_matrix m' = build_matrix edges z_max (before ++ after)).
Proof.
  intros Hst. unfold compute_region_densities, Orchestrator.guarded. rewrite Hst.
  eexists. split; [reflexivity |]. simpl.
  unfold build_matrix.
  repeat split.
  - rewrite accumulate_total, total_objects_empty. reflexivity.
  - intros r. rewrite accumulate_row, row_empty, total_objects_empty. reflexivity.
  - intros before e after -> He. apply accumulate_skip, He.
Qed.

Lemma region_object_counts_witness :
  exists m',
    compute_region_densities [0; 1; 2]%Q 2 Sample.collapsed = Ok m'
    /\ total_objects (region_matrix m') = length (below 2 (estimates Sample.collapsed))
    /\ (forall r, total_objects (row r (region_matrix m'))
                  = length (of_region r (below 2 (estimates Sample.collapsed))))
    /\ (forall before e after,
          estimates Sample.collapsed = before ++ e :: after ->
          Binner.Qlt_bool (est_redshift e) 2 = false ->
          region_matrix m' = build_matrix [0; 1; 2]%Q 2 (before ++ after)).
Proof. apply (region_object_counts [0; 1; 2]%Q 2 Sample.collapsed). reflexivity. Defined.

End AggregatorFacts.

Section BinarySearch.
Import Aggregator.

(** The search returns the number of edges that are not above [z], when
    these edges are the first [c] of the list. *)
Lemma bisect_right_spec (edges : list Q) (z : Q) (c fuel lo hi : nat) :
  (forall i, i < c -> Binner.Qlt_bool z (nth i edges 0%Q) = false) ->
  (forall i, c <= i -> i < length edges -> Binner.Qlt_bool z (nth i edges 0%Q) = true) ->
  lo <= c -> c <= hi -> hi <= length edges -> hi - lo <= fuel ->
  bisect_right edges z lo hi fuel = c.
Proof.
  intros Hlow Hhigh. revert lo hi.
  induction fuel as [|fuel IH]; intros lo hi Hlo Hhi Hlen Hfuel; cbn [bisect_right].
  - lia.
  - destruct (Nat.ltb_spec lo hi) as [Hlt|Hge]; [| lia].
    assert (Hmid : lo <= (lo + hi) / 2 /\ (lo + hi) / 2 < hi).
    { split.
      - apply Nat.div_le_lower_bound; lia.
      - apply Nat.Div0.div_lt_upper_bound; lia. }
    destruct (Binner.Qlt_bool z (nth ((lo + hi) / 2) edges 0%Q)) eqn:Hcmp.
    + apply IH; try lia.
      destruct (Nat.le_gt_cases c ((lo + hi) / 2)) as [Hc|Hc]; [exact Hc |].
      rewrite (Hlow _ Hc) in Hcmp. discriminate.
    + apply IH; try lia.
      destruct (Nat.le_gt_cases c ((lo + hi) / 2)) as [Hc|Hc]; [| lia].
      rewrite (Hhigh _ Hc) in Hcmp; [discriminate | lia].
Qed.

(** With strictly increasing edges, a redshift in the half-open interval
    of bin [i] is located in bin [i]. *)
Lemma locate_bin_interval (edges : list Q) (z : Q) (i : nat) :
  StronglySorted Qlt edges ->
  S i < length edges ->
  (nth i edges 0 <= z)%Q -> (z < nth (S i) edges 0)%Q ->
  locate_bin edges z = Z.of_nat i.
Proof.
  intros Hs Hi Hlo Hhi. unfold locate_bin.
  rewrite (bisect_right_spec edges z (S i)); try lia.
  - intros k Hk. unfold Binner.Qlt_bool. apply negb_false_iff, Qle_bool_iff.
    destruct (Nat.eq_dec k i) as [->|Hne]; [exact Hlo |].
    apply Qle_trans with (nth i edges 0%Q); [| exact Hlo].
    apply Qlt_le_weak, increasing_nth; [assumption | lia | lia].
  - intros k Hk Hlen. apply Qlt_bool_iff.
    destruct (Nat.eq_dec k (S i)) as [->|Hne]; [exact Hhi |].
    apply Qlt_trans with (nth (S i) edges 0%Q); [exact Hhi |].
    apply increasing_nth; [assumption | lia | lia].
Qed.

End BinarySearch.

(** ** PairCollapser: the fan-out over workers *)

Section CollapserFacts.
Import Collapser.

Lemma chunks_upto {A} (size : nat) (l : list A) (k : nat) :
  concat (map (chunk size l) (seq 0 k)) = firstn (k * size) l.
Proof.
  induction k as [|k IH]; [reflexivity |].
  rewrite seq_S, map_app, concat_app, IH. simpl. rewrite app_nil_r.
  unfold chunk. replace (size + k * size) with (k * size + size) by lia.
  rewrite <- (firstn_skipn (k * size) l) at 3.
  destruct (Nat.le_gt_cases (k * size) (length l)) as [Hle|Hgt].
  - rewrite firstn_app, firstn_firstn, length_firstn.
    replace (Init.Nat.min (k * size + size) (k * size)) with (k * size) by lia.
    replace (k * size + size - Init.Nat.min (k * size) (length l)) with size by lia.
    reflexivity.
  - rewrite (skipn_all2 l) by lia.
    rewrite firstn_nil, !app_nil_r, firstn_firstn.
    replace (Init.Nat.min (k * size + size) (k * size)) with (k * size) by lia.
    reflexivity.
Qed.

(** The chunks handed to the workers are the reference objects in input
    order, none dropped and none twice. *)
Lemma chunks_concat {A} (n_process : nat) (l : list A) :
  1 <= n_process -> concat (chunks n_process l) = l.
Proof.
  intros Hn. unfold chunks. rewrite chunks_upto. apply firstn_all2.
  pose proof (Nat.div_mod_eq (length l + n_process - 1) n_process) as Hd.
  pose proof (Nat.mod_upper_bound (length l + n_process - 1) n_process ltac:(lia)).
  nia.
Qed.

Lemma join_all_ok (f : ReferenceObject -> CollapsedEstimate)
    (parts : list (list ReferenceObject)) (k : nat) :
  join (map (fun jc : nat * list ReferenceObject => worker false f jc.2)
            (imap (fun j c => (k + j, c)) parts))
  = Ok (map f (concat parts)).
Proof.
  revert k. induction parts as [|p parts IH]; intros k; [reflexivity |].
  cbn [imap map join concat worker snd].
  rewrite (imap_ext _ (fun j c => (S k + j, c)))
    by (intros; unfold compose; simpl; f_equal; lia).
  rewrite IH, map_app. reflexivity.
Qed.

(** When no worker fails there is one estimate per reference object, in
    input order. *)
Lemma collapse_all_workers_ok (n_process : nat) (pairs : list ReferenceObject)
    (scale : string) (unknown_data : Catalog) (weight_name : option string) :
  1 <= n_process ->
  exists m,
    collapse_ids_to_single_estimate (fun _ => false) n_process pairs scale
      unknown_data weight_name = Ok m
    /\ estimates m
       = map (collapse_one scale (fun i => bool_decide (i ∈ selected unknown_data))
                (weight_of unknown_data weight_name)) pairs.
Proof.
  intros Hn. unfold collapse_ids_to_single_estimate.
  rewrite (join_all_ok _ (chunks n_process pairs) 0).
  rewrite (chunks_concat n_process pairs Hn).
  eexists. split; reflexivity.
Qed.

End CollapserFacts.

(** ** Rules for running the scripts *)

Section Rules.
Import Py Logic.
Local Open Scope py_scope.

Context {A B : Type}.
Implicit Types (Q : A -> World -> Prop) (E : exn -> World -> Prop) (w : World).

Lemma wp_ret (a : A) Q E w : Q a w -> wp (ret a) Q E w.
Proof. intros H. exact H. Qed.

Lemma wp_raise (e : exn) Q E w : E e w -> wp (raise e : M A) Q E w.
Proof. intros H. exact H. Qed.

Lemma wp_lift (r : result A) Q E w :
  match r with Ok a => Q a w | Raise e => E e w end -> wp (lift r) Q E w.
Proof. unfold wp, lift. destruct r; intros H; exact H. Qed.

Lemma wp_bind (c : M A) (k : A -> M B) (R : B -> World -> Prop) E w :
  wp c (fun a w' => wp (k a) R E w') E w -> wp (bind c k) R E w.
Proof.
  unfold wp, bind. destruct (c w) as [[a|e] w']; intros H; exact H.
Qed.

Lemma wp_conseq (c : M A) Q Q' E E' w :
  wp c Q E w ->
  (forall a w', Q a w' -> Q' a w') ->
  (forall e w', E e w' -> E' e w') ->
  wp c Q' E' w.
Proof.
  unfold wp. destruct (c w) as [[a|e] w']; intros H HQ HE; auto.
Qed.

End Rules.

Section PrimitiveRules.
Import Py Logic.
Local Open Scope py_scope.

Implicit Types (E : exn -> World -> Prop) (w : World).

Lemma wp_emit (e : Event) (Q : unit -> World -> Prop) E w :
  Q tt (add_event e w) -> wp (emit e) Q E w.
Proof. intros H. exact H. Qed.

Lemma wp_print (line : string) (Q : unit -> World -> Prop) E w :
  Q tt (add_event (Print line) w) -> wp (print line) Q E w.
Proof. intros H. exact H. Qed.

Lemma wp_enter (f : string) (Q : unit -> World -> Prop) E w :
  Q tt (add_event (Call f) w) -> wp (enter f) Q E w.
Proof. intros H. exact H. Qed.

Lemma wp_store (name : string) (v : Value) (Q : unit -> World -> Prop) E w :
  Q tt (set_global name v w) -> wp (store name v) Q E w.
Proof. intros H. exact H. Qed.

Lemma wp_load (name : string) (Q : Value -> World -> Prop) E w :
  (forall v, globals w !! name = Some v -> Q v w) ->
  (globals w !! name = None -> E (NameError name) w) ->
  wp (load name) Q E w.
Proof.
  unfold wp, load. destruct (globals w !! name); intros HQ HE; auto.
Qed.

Lemma wp_lookup (name : string) (Q : unit -> World -> Prop) E w :
  Q tt w ->
  (globals w !! name = None -> E (NameError name) w) ->
  wp (lookup name) Q E w.
Proof.
  intros HQ HE. unfold lookup. apply wp_bind, wp_load; [| exact HE].
  intros v _. apply wp_ret, HQ.
Qed.

(** The loads that expect a kind of object fail with a Python error, never
    with one of the fatal conditions. *)
Lemma wp_load_args (name : string) (Q : Namespace -> World -> Prop) E w :
  (forall a, globals w !! name = Some (VArgs a) -> Q a w) ->
  (forall e, fatal e = false -> E e w) ->
  wp (load_args name) Q E w.
Proof.
  intros HQ HE. unfold load_args. apply wp_bind, wp_load.
  - intros v Hv. destruct v; try (apply wp_raise, HE; reflexivity).
    apply wp_ret, HQ, Hv.
  - intros _. apply HE. reflexivity.
Qed.

Lemma wp_load_maker (name : string) (Q : PDFMaker -> World -> Prop) E w :
  (forall m, globals w !! name = Some (VMaker m) -> Q m w) ->
  (forall e, fatal e = false -> E e w) ->
  wp (load_maker name) Q E w.
Proof.
  intros HQ HE. unfold load_maker. apply wp_bind, wp_load.
  - intros v Hv. destruct v; try (apply wp_raise, HE; reflexivity).
    apply wp_ret, HQ, Hv.
  - intros _. apply HE. reflexivity.
Qed.

Lemma wp_load_edges (name : string) (Q : NdArray Q -> World -> Prop) E w :
  (forall l, globals w !! name = Some (VEdges l) -> Q (Vector l) w) ->
  (forall rows, globals w !! name = Some (VTable rows) -> Q (Table rows) w) ->
  (forall e, fatal e = false -> E e w) ->
  wp (load_edges name) Q E w.
Proof.
  intros HQ HT HE. unfold load_edges. apply wp_bind, wp_load.
  - intros v Hv. destruct v; try (apply wp_raise, HE; reflexivity).
    + apply wp_ret, HQ, Hv.
    + apply wp_ret, HT, Hv.
  - intros _. apply HE. reflexivity.
Qed.

Lemma wp_load_data (name : string) (Q : FileData -> World -> Prop) E w :
  (forall d, globals w !! name = Some (VData d) -> Q d w) ->
  (forall e, fatal e = false -> E e w) ->
  wp (load_data name) Q E w.
Proof.
  intros HQ HE. unfold load_data. apply wp_bind, wp_load.
  - intros v Hv. destruct v; try (apply wp_raise, HE; reflexivity).
    apply wp_ret, HQ, Hv.
  - intros _. apply HE. reflexivity.
Qed.

Lemma wp_load_draws (name : string) (Q : NdArray nat -> World -> Prop) E w :
  (forall d, globals w !! name = Some (VDraws d) -> Q d w) ->
  (forall e, fatal e = false -> E e w) ->
  wp (load_draws name) Q E w.
Proof.
  intros HQ HE. unfold load_draws. apply wp_bind, wp_load.
  - intros v Hv. destruct v; try (apply wp_raise, HE; reflexivity).
    apply wp_ret, HQ, Hv.
  - intros _. apply HE. reflexivity.
Qed.

Lemma wp_load_file (name : string) (Q : string -> World -> Prop) E w :
  (forall p, globals w !! name = Some (VFile p) -> Q p w) ->
  (forall e, fatal e = false -> E e w) ->
  wp (load_file name) Q E w.
Proof.
  intros HQ HE. unfold load_file. apply wp_bind, wp_load.
  - intros v Hv. destruct v; try (apply wp_raise, HE; reflexivity).
    apply wp_ret, HQ, Hv.
  - intros _. apply HE. reflexivity.
Qed.

Lemma wp_attr {A} (field : Namespace -> A) (Q : A -> World -> Prop) E w :
  (forall a, globals w !! "args" = Some (VArgs a) -> Q (field a) w) ->
  (forall e, fatal e = false -> E e w) ->
  wp (attr field) Q E w.
Proof.
  intros HQ HE. unfold attr. apply wp_bind, wp_load_args; [| exact HE].
  intros a Ha. apply wp_ret, HQ, Ha.
Qed.

Lemma wp_create_file (ext : External) (path : string)
    (Q : unit -> World -> Prop) E w :
  (writable ext path = true -> Q tt (add_event (Create path) w)) ->
  (writable ext path = false -> E (IOError path) w) ->
  wp (create_file ext path) Q E w.
Proof.
  unfold create_file. destruct (writable ext path); intros HQ HE.
  - apply wp_emit, HQ. reflexivity.
  - apply wp_raise, HE. reflexivity.
Qed.

Lemma wp_invoke (name f : string) (op : PDFMaker -> result PDFMaker)
    (m : PDFMaker) (Q : unit -> World -> Prop) E w :
  match op m with
  | Ok m' => Q tt (set_global name (VMaker m') (add_event (Call (name ++ "." ++ f)) w))
  | Raise e => E e (add_event (Call (name ++ "." ++ f)) w)
  end ->
  wp (invoke name f op m) Q E w.
Proof.
  intros H. unfold invoke. apply wp_bind, wp_enter, wp_bind, wp_lift.
  destruct (op m); [apply wp_store |]; exact H.
Qed.

Lemma globals_add_event (e : Event) w : globals (add_event e w) = globals w.
Proof. reflexivity. Qed.

Lemma globals_set_global (name : string) (v : Value) w :
  globals (set_global name v w) = <[name := v]> (globals w).
Proof. reflexivity. Qed.

Lemma trace_add_event (e : Event) w : trace (add_event e w) = trace w ++ [e].
Proof. reflexivity. Qed.

Lemma trace_set_global (name : string) (v : Value) w :
  trace (set_global name v w) = trace w.
Proof. reflexivity. Qed.

Lemma no_file_add_event (e : Event) w :
  (forall path, e <> Create path) -> no_file w -> no_file (add_event e w).
Proof.
  intros He Hw path Hin. rewrite trace_add_event in Hin.
  apply elem_of_app in Hin as [Hin|Hin]; [exact (Hw path Hin) |].
  apply list_elem_of_singleton in Hin. exact (He path (eq_sym Hin)).
Qed.

Lemma no_file_set_global (name : string) (v : Value) w :
  no_file w -> no_file (set_global name v w).
Proof. intros Hw. exact Hw. Qed.

Lemma no_file_set_rng (seed : N) w : no_file w -> no_file (set_rng seed w).
Proof. intros Hw. exact Hw. Qed.

(** The same loads when the binding is known. *)
Lemma wp_lookup_known (name : string) (v : Value) (Q : unit -> World -> Prop) E w :
  globals w !! name = Some v -> Q tt w -> wp (lookup name) Q E w.
Proof.
  intros Hv HQ. apply wp_lookup; [exact HQ | congruence].
Qed.

Lemma wp_load_unbound (name : string) (Q : Value -> World -> Prop) E w :
  globals w !! name = None -> E (NameError name) w -> wp (load name) Q E w.
Proof. intros Hv HE. apply wp_load; [congruence | auto]. Qed.

Lemma wp_load_args_known (name : string) (a : Namespace)
    (Q : Namespace -> World -> Prop) E w :
  globals w !! name = Some (VArgs a) -> Q a w -> wp (load_args name) Q E w.
Proof.
  intros Hv HQ. unfold load_args, wp, bind, load. rewrite Hv. exact HQ.
Qed.

Lemma wp_attr_known {A} (field : Namespace -> A) (a : Namespace)
    (Q : A -> World -> Prop) E w :
  globals w !! "args" = Some (VArgs a) -> Q (field a) w -> wp (attr field) Q E w.
Proof.
  intros Hv HQ. unfold attr. apply wp_bind.
  apply (wp_load_args_known _ a); [exact Hv | exact HQ].
Qed.

Lemma wp_load_maker_known (name : string) (m : PDFMaker)
    (Q : PDFMaker -> World -> Prop) E w :
  globals w !! name = Some (VMaker m) -> Q m w -> wp (load_maker name) Q E w.
Proof.
  intros Hv HQ. unfold load_maker, wp, bind, load. rewrite Hv. exact HQ.
Qed.

Lemma wp_load_maker_unbound (name : string) (Q : PDFMaker -> World -> Prop) E w :
  globals w !! name = None -> E (NameError name) w -> wp (load_maker name) Q E w.
Proof.
  intros Hv HE. unfold load_maker, wp, bind, load. rewrite Hv. exact HE.
Qed.

Lemma wp_load_edges_known (name : string) (l : list Q)
    (Q : NdArray Q -> World -> Prop) E w :
  globals w !! name = Some (VEdges l) -> Q (Vector l) w -> wp (load_edges name) Q E w.
Proof.
  intros Hv HQ. unfold load_edges, wp, bind, load. rewrite Hv. exact HQ.
Qed.

Lemma wp_load_table_known (name : string) (rows : list (list Q))
    (Q : NdArray Q -> World -> Prop) E w :
  globals w !! name = Some (VTable rows) -> Q (Table rows) w ->
  wp (load_edges name) Q E w.
Proof.
  intros Hv HQ. unfold load_edges, wp, bind, load. rewrite Hv. exact HQ.
Qed.

Lemma wp_load_data_known (name : string) (d : FileData)
    (Q : FileData -> World -> Prop) E w :
  globals w !! name = Some (VData d) -> Q d w -> wp (load_data name) Q E w.
Proof.
  intros Hv HQ. unfold load_data, wp, bind, load. rewrite Hv. exact HQ.
Qed.

Lemma wp_load_draws_known (name : string) (d : NdArray nat)
    (Q : NdArray nat -> World -> Prop) E w :
  globals w !! name = Some (VDraws d) -> Q d w -> wp (load_draws name) Q E w.
Proof.
  intros Hv HQ. unfold load_draws, wp, bind, load. rewrite Hv. exact HQ.
Qed.

Lemma wp_load_file_known (name : string) (p : string)
    (Q : string -> World -> Prop) E w :
  globals w !! name = Some (VFile p) -> Q p w -> wp (load_file name) Q E w.
Proof.
  intros Hv HQ. unfold load_file, wp, bind, load. rewrite Hv. exact HQ.
Qed.

Lemma bind_run {A B} (c : M A) (k : A -> M B) (a : A) (w w' : World) :
  c w = (Ok a, w') -> bind c k w = k a w'.
Proof. intros H. unfold bind. rewrite H. reflexivity. Qed.

Lemma bind_assoc {A B C} (c : M A) (k1 : A -> M B) (k2 : B -> M C) (w : World) :
  bind (bind c k1) k2 w = bind c (fun a => bind (k1 a) k2) w.
Proof. unfold bind. destruct (c w) as [[a|e] w']; reflexivity. Qed.

Lemma wp_run {A} (c : M A) (Q : A -> World -> Prop) E w :
  wp c Q E w ->
  match c w with (Ok a, w') => Q a w' | (Raise e, w') => E e w' end.
Proof. intros H. exact H. Qed.

Lemma wp_raises {A} (c : M A) (e : exn) (w w' : World) :
  wp c (fun _ _ => False) (fun e' w'' => e' = e /\ w'' = w') w ->
  c w = (Raise e, w').
Proof.
  unfold wp. destruct (c w) as [[a|e'] w'']; [tauto |]. intros [-> ->]. reflexivity.
Qed.

Lemma wp_returns {A} (c : M A) (a : A) (w w' : World) :
  wp c (fun a' w'' => a' = a /\ w'' = w') (fun _ _ => False) w ->
  c w = (Ok a, w').
Proof.
  unfold wp. destruct (c w) as [[a'|e'] w'']; [| tauto]. intros [-> ->]. reflexivity.
Qed.

End PrimitiveRules.

Create HintDb script.

#[local] Hint Unfold
  Engine.file_checker_loader Engine.loadtxt Engine.loadtxt_int
  Engine._create_linear_redshift_bin_edges
  Engine._create_adaptive_redshift_bin_edges
  Engine._create_comoving_redshift_bin_edges
  Engine._create_logspace_redshift_bin_edges
  Engine.collapse_ids_to_single_estimate Engine.construct_PDFMaker
  Engine.data_group Engine.collapse_full_sample
  Engine.write_region_densities Engine.write_bootstrap_samples_to_ascii
  Engine.create_ascii_file
  PdfMaker.binning_is PdfMakerFullSample.binning_is : script.

(** One step of a run, whatever the world: the rule for the statement in
    front, with a case for every way it can go. *)
Ltac wp_step :=
  lazymatch goal with
  | |- Logic.wp (Py.bind _ _) _ _ _ => apply wp_bind
  | |- Logic.wp (Py.ret _) _ _ _ => apply wp_ret
  | |- Logic.wp (Py.raise _) _ _ _ => apply wp_raise
  | |- Logic.wp (Py.print _) _ _ _ => apply wp_print
  | |- Logic.wp (Py.enter _) _ _ _ => apply wp_enter
  | |- Logic.wp (Py.emit _) _ _ _ => apply wp_emit
  | |- Logic.wp (Py.store _ _) _ _ _ => apply wp_store
  | |- Logic.wp (Py.lookup _) _ _ _ => apply wp_lookup; [| intros _]
  | |- Logic.wp (Py.load_args _) _ _ _ => apply wp_load_args; [intros ? ? | intros ? ?]
  | |- Logic.wp (Py.load_maker _) _ _ _ => apply wp_load_maker; [intros ? ? | intros ? ?]
  | |- Logic.wp (Py.load_edges _) _ _ _ =>
      apply wp_load_edges; [intros ? ? | intros ? ? | intros ? ?]
  | |- Logic.wp (Py.load_data _) _ _ _ => apply wp_load_data; [intros ? ? | intros ? ?]
  | |- Logic.wp (Py.load_draws _) _ _ _ => apply wp_load_draws; [intros ? ? | intros ? ?]
  | |- Logic.wp (Py.load_file _) _ _ _ => apply wp_load_file; [intros ? ? | intros ? ?]
  | |- Logic.wp (Py.attr _) _ _ _ => apply wp_attr; [intros ? ? | intros ? ?]
  | |- Logic.wp (Py.create_file _ _) _ _ _ => apply wp_create_file; intros ?
  | |- Logic.wp (Py.invoke _ _ _ _) _ _ _ => apply wp_invoke
  | |- Logic.wp (Py.lift ?r) _ _ _ => apply wp_lift; destruct r eqn:?
  | |- Logic.wp (if ?b then _ else _) _ _ _ => destruct b eqn:?
  | |- Logic.wp (match ?x with _ => _ end) _ _ _ => destruct x eqn:?
  | |- Logic.wp _ _ _ _ => progress autounfold with script
  | |- match ?x with _ => _ end => destruct x eqn:?
  end.

(** What a name is bound to in a world that is known. *)
Ltac lookup_solve :=
  cbn [Py.globals Py.add_event Py.set_global Py.set_rng
       PdfMaker.start PdfMakerFullSample.start];
  repeat (rewrite lookup_insert_ne by discriminate);
  first [ apply lookup_insert_eq | eassumption | vm_compute; reflexivity ].

(** Bring what is known about the bound names into its simplest form. *)
Ltac norm_lookups :=
  repeat match goal with
  | H : Py.globals _ !! _ = _ |- _ =>
      progress cbn [Py.globals Py.add_event Py.set_global Py.set_rng
                    PdfMaker.start PdfMakerFullSample.start] in H
  | H : <[ ?a := _ ]> _ !! ?a = _ |- _ => rewrite lookup_insert_eq in H
  | H : <[ _ := _ ]> _ !! _ = _ |- _ => rewrite lookup_insert_ne in H by discriminate
  | H1 : ?m !! ?k = Some _, H2 : ?m !! ?k = _ |- _ => rewrite H1 in H2
  | H : Some _ = None |- _ => discriminate H
  | H : None = Some _ |- _ => discriminate H
  | H : Some _ = Some _ |- _ => injection H as H
  | H : Py.VArgs _ = Py.VArgs _ |- _ => injection H as H
  | H : Py.VMaker _ = Py.VMaker _ |- _ => injection H as H
  | H : Py.VEdges _ = Py.VEdges _ |- _ => injection H as H
  | H : Py.VTable _ = Py.VTable _ |- _ => injection H as H
  | H : Py.VEdges _ = Py.VTable _ |- _ => discriminate H
  | H : Py.VTable _ = Py.VEdges _ |- _ => discriminate H
  | H : Py.VData _ = Py.VData _ |- _ => injection H as H
  | H : Py.VDraws _ = Py.VDraws _ |- _ => injection H as H
  | H : Py.VFile _ = Py.VFile _ |- _ => injection H as H
  | H : ?x = ?y |- _ => first [is_var y; subst y | is_var x; subst x]
  end.

Ltac head_of t :=
  lazymatch t with
  | ?f _ => head_of f
  | _ => t
  end.

(** Decide a test: by what is known, by evaluation, or else by cases. *)
Ltac decide_scrutinee x :=
  first [ match goal with H : x = _ |- _ => rewrite H end
        | let v := eval hnf in x in
          let h := head_of v in
          is_constructor h; change x with v
        | let v := eval vm_compute in x in
          let h := head_of v in
          is_constructor h; change x with v
        | destruct x eqn:? ];
  cbv beta iota.

(** One step of a run from a known world: every name is looked up, every
    test is decided. *)
Ltac wp_exec_step :=
  lazymatch goal with
  | |- Logic.wp (Py.lookup _) _ _ _ => eapply wp_lookup_known; [lookup_solve |]
  | |- Logic.wp (Py.load_args _) _ _ _ => eapply wp_load_args_known; [lookup_solve |]
  | |- Logic.wp (Py.attr _) _ _ _ => eapply wp_attr_known; [lookup_solve |]
  | |- Logic.wp (Py.load_maker _) _ _ _ =>
      first [ eapply wp_load_maker_known; [lookup_solve |]
            | eapply wp_load_maker_unbound; [lookup_solve |] ]
  | |- Logic.wp (Py.load_edges _) _ _ _ =>
      first [ eapply wp_load_edges_known; [lookup_solve |]
            | eapply wp_load_table_known; [lookup_solve |] ]
  | |- Logic.wp (Py.load_data _) _ _ _ => eapply wp_load_data_known; [lookup_solve |]
  | |- Logic.wp (Py.load_draws _) _ _ _ => eapply wp_load_draws_known; [lookup_solve |]
  | |- Logic.wp (Py.load_file _) _ _ _ => eapply wp_load_file_known; [lookup_solve |]
  | |- Logic.wp (Py.lift ?r) _ _ _ => apply wp_lift; decide_scrutinee r
  | |- Logic.wp (if ?b then _ else _) _ _ _ => decide_scrutinee b
  | |- Logic.wp (match ?x with _ => _ end) _ _ _ => decide_scrutinee x
  | |- match ?x with _ => _ end => decide_scrutinee x
  | |- _ => wp_step
  end.

Ltac wp_exec := repeat wp_exec_step.

(** The trace of a world reached by a known sequence of events. *)
Ltac trace_solve :=
  cbn [Py.trace Py.add_event Py.set_global Py.set_rng];
  rewrite <- ?app_assoc; reflexivity.

(** The engine calls on an array: by the shape of the array, the call is
    the operation on a list of edges or on a table of draws, or fails. *)
Ltac engine_shape :=
  repeat match goal with
  | H : Engine.compute_region_densities ?a _ _ = _ |- _ => is_var a; destruct a
  | H : Engine.compute_region_densities _ _ _ = _ |- _ =>
      progress cbn [Engine.compute_region_densities] in H
  | H : Engine._compute_pdf_bootstrap _ ?d _ = _ |- _ => is_var d; destruct d
  | H : Engine._compute_pdf_bootstrap _ _ _ = _ |- _ =>
      progress cbn [Engine._compute_pdf_bootstrap] in H
  | H : Raise _ = Ok _ |- _ => discriminate H
  | H : Raise TypeError = Raise ?e |- _ => is_var e; injection H as <-
  end.

(** ** Fatal conditions and output files *)

Ltac no_file_tac :=
  repeat first
    [ assumption
    | apply no_file_set_global
    | apply no_file_set_rng
    | apply no_file_add_event; [intros ?; discriminate |] ].

Section FatalBeforeFiles.
Import Py Logic.
Local Open Scope py_scope.

Variable ext : External.

Implicit Types (w : World).

Lemma wp_seq {A B} (c : M A) (k : A -> M B) (Q1 : A -> World -> Prop)
    (Q : B -> World -> Prop) (E : exn -> World -> Prop) w :
  wp c Q1 E w ->
  (forall a w', Q1 a w' -> wp (k a) Q E w') ->
  wp (bind c k) Q E w.
Proof.
  intros Hc Hk. apply wp_bind. eapply wp_conseq; [exact Hc | exact Hk | auto].
Qed.

Ltac quiet_tac := intros w Hw; repeat wp_step; no_file_tac.

Lemma load_inputs_quiet : quiet (PdfMaker.load_inputs ext).
Proof. unfold PdfMaker.load_inputs. quiet_tac. Qed.

Lemma create_bins_quiet : quiet (PdfMaker.create_bins ext).
Proof. unfold PdfMaker.create_bins. quiet_tac. Qed.

Lemma collapse_quiet : quiet (PdfMaker.collapse ext).
Proof. unfold PdfMaker.collapse. quiet_tac. Qed.


Lemma reached_set_region_matrix (edges : list Q) (M : gmap (nat * Z) Cell)
    (m : PDFMaker) :
  Orchestrator.reached RegionDensitiesComputed
    (Orchestrator.set_region_matrix edges M m) = true.
Proof. unfold Orchestrator.reached. simpl. destruct (stage m); reflexivity. Qed.

Lemma reached_set_pdf_result (r : PDFResult) (m : PDFMaker) :
  Orchestrator.reached BootstrapComputed (Orchestrator.set_pdf_result r m) = true.
Proof. unfold Orchestrator.reached. simpl. destruct (stage m); reflexivity. Qed.

Lemma maker_at_add_event (s : PipelineState) (e : Event) w :
  maker_at s w -> maker_at s (add_event e w).
Proof. intros H. exact H. Qed.

Lemma maker_at_set_rng (s : PipelineState) (seed : N) w :
  maker_at s w -> maker_at s (set_rng seed w).
Proof. intros H. exact H. Qed.

Lemma maker_at_set_other (s : PipelineState) (name : string) (v : Value) w :
  name <> "pdf_maker" -> maker_at s w -> maker_at s (set_global name v w).
Proof.
  intros Hne (m & Hm & Hs). exists m. split; [| exact Hs].
  rewrite globals_set_global, lookup_insert_ne by exact Hne. exact Hm.
Qed.

Lemma maker_at_set_maker (s : PipelineState) (m : PDFMaker) w :
  Orchestrator.reached s m = true -> maker_at s (set_global "pdf_maker" (VMaker m) w).
Proof.
  intros Hs. exists m. split; [| exact Hs].
  rewrite globals_set_global. apply lookup_insert_eq.
Qed.

Lemma maker_at_lookup (s : PipelineState) (m : PDFMaker) w :
  maker_at s w -> globals w !! "pdf_maker" = Some (VMaker m) ->
  Orchestrator.reached s m = true.
Proof. intros (m' & Hm' & Hs) Hm. congruence. Qed.

Ltac maker_tac :=
  repeat first
    [ assumption
    | apply maker_at_add_event
    | apply maker_at_set_rng
    | apply maker_at_set_other; [discriminate |]
    | apply maker_at_set_maker ].

Lemma compute_region_densities_reached (edges : list Q) (z_max : Q)
    (m m' : PDFMaker) :
  Aggregator.compute_region_densities edges z_max m = Ok m' ->
  Orchestrator.reached RegionDensitiesComputed m' = true.
Proof.
  unfold Aggregator.compute_region_densities, Orchestrator.guarded.
  destruct (Orchestrator.reached Collapsed m); [| discriminate].
  intros [= <-]. apply reached_set_region_matrix.
Qed.

(** The engine works on a list of edges and on a table of draws. *)
Lemma region_densities_of_vector (edges : NdArray Q) (z_max : Q) (m m' : PDFMaker) :
  Engine.compute_region_densities edges z_max m = Ok m' ->
  exists e, edges = Vector e /\ Aggregator.compute_region_densities e z_max m = Ok m'.
Proof.
  destruct edges as [x|e|rows]; simpl; try discriminate.
  intros H. exists e. split; [reflexivity | exact H].
Qed.

Lemma bootstrap_of_table (draws : NdArray nat) (m m' : PDFMaker) :
  Engine._compute_pdf_bootstrap (sqrt ext) draws m = Ok m' ->
  exists rows, draws = Table rows
               /\ Bootstrap._compute_pdf_bootstrap (sqrt ext) rows m = Ok m'.
Proof.
  destruct draws as [x|l|rows]; simpl; try discriminate.
  intros H. exists rows. split; [reflexivity | exact H].
Qed.

Lemma engine_region_densities_reached (edges : NdArray Q) (z_max : Q)
    (m m' : PDFMaker) :
  Engine.compute_region_densities edges z_max m = Ok m' ->
  Orchestrator.reached RegionDensitiesComputed m' = true.
Proof.
  intros H. apply region_densities_of_vector in H as (e & _ & H).
  exact (compute_region_densities_reached _ _ _ _ H).
Qed.

Lemma _compute_pdf_bootstrap_reached (draws : list (list nat)) (m m' : PDFMaker) :
  Bootstrap._compute_pdf_bootstrap (sqrt ext) draws m = Ok m' ->
  Orchestrator.reached BootstrapComputed m' = true.
Proof.
  unfold Bootstrap._compute_pdf_bootstrap, Orchestrator.guarded.
  destruct (Orchestrator.reached RegionDensitiesComputed m); [| discriminate].
  intros [= <-]. apply reached_set_pdf_result.
Qed.

Lemma guarded_reached {A} (s : PipelineState) (m : PDFMaker) (body : result A) :
  Orchestrator.reached s m = true -> Orchestrator.guarded s m body = body.
Proof. intros H. unfold Orchestrator.guarded. rewrite H. reflexivity. Qed.

Lemma guarded_fatal {A} (s : PipelineState) (m : PDFMaker) (a : A) (e : exn) :
  Orchestrator.guarded s m (Ok a) = Raise e -> e = PipelineStateError s.
Proof.
  unfold Orchestrator.guarded. destruct (Orchestrator.reached s m); congruence.
Qed.

(** Lines 92-95: a fatal condition here comes before the snapshot is
    written; afterwards the object has its region densities. *)
Lemma region_densities_safe w :
  no_file w ->
  wp (PdfMaker.region_densities ext)
     (fun _ w' => maker_at RegionDensitiesComputed w')
     (fun e w' => fatal e = true -> no_file w') w.
Proof.
  intros Hw. unfold PdfMaker.region_densities.
  repeat wp_step.
  all: try (intros _; no_file_tac).
  all: try (intros; congruence).
  all: engine_shape.
  all: try (maker_tac; eauto using compute_region_densities_reached).
Qed.

Lemma wp_compute_pdf_bootstrap (n : nat) (m : PDFMaker)
    (Q : unit -> World -> Prop) (E : exn -> World -> Prop) w :
  Orchestrator.reached RegionDensitiesComputed m = true ->
  (forall m' seed,
     Orchestrator.reached BootstrapComputed m' = true ->
     Q tt (set_global "pdf_maker" (VMaker m')
             (set_rng seed (add_event (Call "pdf_maker.compute_pdf_bootstrap") w)))) ->
  wp (Engine.compute_pdf_bootstrap ext n m) Q E w.
Proof.
  intros Hm HQ. unfold Engine.compute_pdf_bootstrap.
  apply wp_bind, wp_enter. unfold wp, Bootstrap.compute_pdf_bootstrap.
  rewrite Hm. destruct (Bootstrap.draw_trials _ _ _ _) as [draws seed'].
  unfold Bootstrap._compute_pdf_bootstrap. rewrite guarded_reached by exact Hm.
  apply HQ, reached_set_pdf_result.
Qed.

(** Lines 98-104: once the region densities are there, the bootstrap
    raises none of the fatal conditions. *)
Lemma bootstrap_safe w :
  maker_at RegionDensitiesComputed w ->
  wp (PdfMaker.bootstrap ext)
     (fun _ w' => maker_at BootstrapComputed w')
     (fun e _ => fatal e = false) w.
Proof.
  intros Hw. unfold PdfMaker.bootstrap.
  repeat wp_step.
  all: engine_shape.
  all: try reflexivity; try assumption.
  - pose proof (_compute_pdf_bootstrap_reached _ _ _ Heqr). maker_tac.
  - exfalso. apply guarded_fatal in Heqr as Hg.
    unfold Bootstrap._compute_pdf_bootstrap in Heqr.
    rewrite guarded_reached in Heqr; [discriminate |].
    eapply maker_at_lookup; [| eassumption]. maker_tac.
  - apply wp_compute_pdf_bootstrap.
    + eapply maker_at_lookup; [| eassumption]. maker_tac.
    + intros m' seed Hm'. maker_tac.
Qed.

Lemma write_pdf_to_ascii_ok (f : string) (m : PDFMaker) :
  Orchestrator.reached BootstrapComputed m = true ->
  exists m', Engine.write_pdf_to_ascii f m = Ok m'.
Proof.
  intros H. unfold Engine.write_pdf_to_ascii. rewrite guarded_reached by exact H.
  eexists. reflexivity.
Qed.

(** Lines 106-116: after the bootstrap no write raises a fatal condition. *)
Lemma write_out_safe w :
  maker_at BootstrapComputed w ->
  wp (PdfMaker.write_out ext) (fun _ _ => True) (fun e _ => fatal e = false) w.
Proof.
  intros Hw. unfold PdfMaker.write_out.
  repeat wp_step.
  all: try reflexivity; try assumption; try exact I.
  all: exfalso.
  all: match goal with
       | H : Engine.write_pdf_to_ascii ?f ?m = Raise _ |- _ =>
           destruct (write_pdf_to_ascii_ok f m) as [m' Hm']; [| congruence]
       | H : Orchestrator.guarded _ ?m _ = Raise _ |- _ =>
           rewrite guarded_reached in H; [discriminate |]
       end.
  all: eapply maker_at_lookup; [| eassumption]; maker_tac.
Qed.

(** After the bins are chosen. *)
Lemma pipeline_fatal_before_files (collapse : M unit) w :
  quiet collapse ->
  no_file w ->
  wp (collapse ;; PdfMaker.region_densities ext ;; PdfMaker.bootstrap ext ;;
      PdfMaker.write_out ext)
     (fun _ _ => True) (fun e w' => fatal e = true -> no_file w') w.
Proof.
  intros Hc Hw. eapply wp_seq.
  { eapply wp_conseq; [apply Hc, Hw | intros a w' H; exact H | auto]. }
  intros [] w3 Hw3. eapply wp_seq.
  { apply region_densities_safe, Hw3. }
  intros [] w4 Hw4. eapply wp_seq.
  { eapply wp_conseq; [apply bootstrap_safe, Hw4 | intros a w' H; exact H |].
    simpl. intros e w' He Hf. congruence. }
  intros [] w5 Hw5.
  eapply wp_conseq; [apply write_out_safe, Hw5 | auto |].
  simpl. intros e w' He Hf. congruence.
Qed.

(** The whole of [pdf_maker.py]. *)
Lemma main_fatal_before_files w :
  no_file w ->
  wp (PdfMaker.main ext) (fun _ _ => True) (fun e w' => fatal e = true -> no_file w') w.
Proof.
  intros Hw. unfold PdfMaker.main.
  eapply wp_seq.
  { eapply wp_conseq; [apply load_inputs_quiet, Hw | intros a w' H; exact H | auto]. }
  intros [] w1 Hw1. eapply wp_seq.
  { eapply wp_conseq; [apply create_bins_quiet, Hw1 | intros a w' H; exact H | auto]. }
  intros [] w2 Hw2.
  apply (pipeline_fatal_before_files (PdfMaker.collapse ext)); [| exact Hw2].
  apply collapse_quiet.
Qed.

Lemma full_parse_arguments_quiet : quiet (PdfMakerFullSample.parse_arguments ext).
Proof. unfold PdfMakerFullSample.parse_arguments. quiet_tac. Qed.

Lemma full_load_inputs_quiet : quiet (PdfMakerFullSample.load_inputs ext).
Proof. unfold PdfMakerFullSample.load_inputs. quiet_tac. Qed.

Lemma full_create_bins_quiet : quiet (PdfMakerFullSample.create_bins ext).
Proof. unfold PdfMakerFullSample.create_bins. quiet_tac. Qed.

Lemma full_collapse_quiet : quiet (PdfMakerFullSample.collapse ext).
Proof. unfold PdfMakerFullSample.collapse. quiet_tac. Qed.

(** The whole of [pdf_maker_full_sample.py]. *)
Lemma full_main_fatal_before_files w :
  no_file w ->
  wp (PdfMakerFullSample.main ext) (fun _ _ => True)
     (fun e w' => fatal e = true -> no_file w') w.
Proof.
  intros Hw. unfold PdfMakerFullSample.main.
  eapply wp_seq.
  { eapply wp_conseq; [apply full_parse_arguments_quiet, Hw | intros a w' H; exact H | auto]. }
  intros [] w0 Hw0. eapply wp_seq.
  { eapply wp_conseq; [apply full_load_inputs_quiet, Hw0 | intros a w' H; exact H | auto]. }
  intros [] w1 Hw1. eapply wp_seq.
  { eapply wp_conseq; [apply full_create_bins_quiet, Hw1 | intros a w' H; exact H | auto]. }
  intros [] w2 Hw2.
  apply (pipeline_fatal_before_files (PdfMakerFullSample.collapse ext)); [| exact Hw2].
  apply full_collapse_quiet.
Qed.

Lemma no_file_start (s : Script) (seed : N) :
  no_file match s with
          | Weighted => PdfMaker.start seed
          | FullSample => PdfMakerFullSample.start seed
          end.
Proof. destruct s; intros path Hin; apply elem_of_nil in Hin; exact Hin. Qed.

End FatalBeforeFiles.

(** C8: when a run of either script ends in one of the fatal conditions
    (BinningError, PipelineStateError, WorkerFailure), no output file has
    been created by then. *)
Theorem fatal_abort_before_output (s : Logic.Script) (ext : Py.External) (seed : N)
    (e : exn) (w' : Py.World) :
  Logic.run_script s ext seed = (Raise e, w') ->
  fatal e = true ->
  Logic.no_file w'.
Proof.
  intros Hrun Hf. destruct s; simpl in Hrun.
  - pose proof (main_fatal_before_files ext _ (no_file_start Logic.Weighted seed)) as H.
    apply wp_run in H. unfold PdfMaker.run in Hrun. rewrite Hrun in H. auto.
  - pose proof (full_main_fatal_before_files ext _ (no_file_start Logic.FullSample seed)) as H.
    apply wp_run in H. unfold PdfMakerFullSample.run in Hrun. rewrite Hrun in H. auto.
Qed.

(** ** A degenerate adaptive binning stops the run before it collapses *)

Section BinningErrorFirst.
Import Py Logic.
Local Open Scope py_scope.

Variable ext : External.

Implicit Types (w : World).










(** The engine behind the pipeline raises a worker failure or a state
    error, never a binning error. *)
Lemma join_raises (parts : list (result (list CollapsedEstimate))) (e : exn) :
  Collapser.join parts = Raise e -> In (Raise e) parts.
Proof.
  induction parts as [|[p|e'] parts IH]; simpl; [discriminate | |].
  - destruct (Collapser.join parts) as [ps|e'']; [discriminate |].
    intros [= ->]. right. apply IH. reflexivity.
  - intros [= ->]. left. reflexivity.
Qed.

Lemma collapse_ids_raises (fault : nat -> bool) (n : nat)
    (pairs : list ReferenceObject) (scale : string) (c : Catalog)
    (weight : option string) (e : exn) :
  Collapser.collapse_ids_to_single_estimate fault n pairs scale c weight = Raise e ->
  e = WorkerFailure.
Proof.
  unfold Collapser.collapse_ids_to_single_estimate.
  destruct (Collapser.join _) as [ests|e'] eqn:Hj; [discriminate |].
  intros [= ->]. apply join_raises in Hj.
  apply in_map_iff in Hj as (jc & Hw & _). unfold Collapser.worker in Hw.
  destruct (fault jc.1); congruence.
Qed.

Lemma compute_pdf_bootstrap_raises (n : nat) (m : PDFMaker) (seed seed' : N)
    (e : exn) :
  Bootstrap.compute_pdf_bootstrap (sqrt ext) (randint ext) n m seed = (Raise e, seed') ->
  e = PipelineStateError RegionDensitiesComputed.
Proof.
  unfold Bootstrap.compute_pdf_bootstrap.
  destruct (Orchestrator.reached RegionDensitiesComputed m) eqn:Hm.
  - destruct (Bootstrap.draw_trials _ _ _ _) as [draws s'].
    unfold Bootstrap._compute_pdf_bootstrap. rewrite guarded_reached by exact Hm.
    discriminate.
  - congruence.
Qed.





Lemma wp_compute_pdf_bootstrap_cases (n : nat) (m : PDFMaker)
    (Q : unit -> World -> Prop) (E : exn -> World -> Prop) w :
  (forall m' seed,
     Q tt (set_global "pdf_maker" (VMaker m')
             (set_rng seed (add_event (Call "pdf_maker.compute_pdf_bootstrap") w)))) ->
  (forall seed,
     E (PipelineStateError RegionDensitiesComputed)
       (set_rng seed (add_event (Call "pdf_maker.compute_pdf_bootstrap") w))) ->
  wp (Engine.compute_pdf_bootstrap ext n m) Q E w.
Proof.
  intros HQ HE. unfold Engine.compute_pdf_bootstrap.
  apply wp_bind, wp_enter. unfold wp.
  destruct (Bootstrap.compute_pdf_bootstrap _ _ _ _ _) as [[m'|e] seed'] eqn:Hr.
  - apply HQ.
  - apply compute_pdf_bootstrap_raises in Hr. rewrite Hr. apply HE.
Qed.







End BinningErrorFirst.


Section AdaptiveBinning.
Import Binner.



End AdaptiveBinning.

(** ** The adaptive branch of [pdf_maker.py] *)

Section AdaptiveBranch.
Import Py Logic.
Local Open Scope py_scope.

(** C9: in pdf_maker.py every run that reaches bin creation with the
    adaptive policy stops there with NameError for the name pdf_maker:
    the name is read at line 61 and first bound at line 88, so nothing is
    collapsed. *)
Theorem adaptive_raises_name_error (ext : External) (seed : N) (d : FileData) :
  Py.file_checker_loader ext (unknown_sample_file (parse_input_pdf_args ext)) = Some d ->
  subscript (z_binning_type (parse_input_pdf_args ext)) 0 = Ok "adaptive" ->
  exists w',
    PdfMaker.run ext seed = (Raise (NameError "pdf_maker"), w')
    /\ trace w' = [ Print "";
                    Print "The-wiZZ has begun conjuring: running pdf maker...";
                    Call "input_flags.parse_input_pdf_args";
                    Call "input_flags.print_args";
                    Print "Loading unknown data...";
                    Call "core_utils.file_checker_loader";
                    Print "Creating bins..." ]
    /\ globals w' !! "pdf_maker" = None.
Proof.
  intros Hd Hk. eexists. split.
  - unfold PdfMaker.run. apply wp_raises.
    unfold PdfMaker.main, PdfMaker.load_inputs, PdfMaker.create_bins.
    wp_exec. split; reflexivity.
  - split; [reflexivity | lookup_solve].
Qed.

End AdaptiveBranch.

(** ** The dispatch on the binning policy *)

Section BinningDispatch.
Import Py Logic.
Local Open Scope py_scope.

Variable ext : External.

Lemma load_inputs_bound (seed : N) (w1 : World) :
  PdfMaker.load_inputs ext (PdfMaker.start seed) = (Ok tt, w1) ->
  bound (parse_input_pdf_args ext) w1.
Proof.
  intros Hrun.
  assert (H : wp (PdfMaker.load_inputs ext)
                (fun _ w' => bound (parse_input_pdf_args ext) w')
                (fun _ _ => True) (PdfMaker.start seed)).
  { unfold PdfMaker.load_inputs. wp_exec; try exact I.
    split; [lookup_solve | split; eexists; lookup_solve]. }
  apply wp_run in H. rewrite Hrun in H. exact H.
Qed.

Lemma full_inputs_bound (seed : N) (w1 : World) :
  (PdfMakerFullSample.parse_arguments ext ;; PdfMakerFullSample.load_inputs ext)
    (PdfMakerFullSample.start seed) = (Ok tt, w1) ->
  bound (parse_input_pdf_args ext) w1.
Proof.
  intros Hrun.
  assert (H : wp (PdfMakerFullSample.parse_arguments ext ;;
                  PdfMakerFullSample.load_inputs ext)
                (fun _ w' => bound (parse_input_pdf_args ext) w')
                (fun _ _ => True) (PdfMakerFullSample.start seed)).
  { unfold PdfMakerFullSample.parse_arguments, PdfMakerFullSample.load_inputs.
    wp_exec; try exact I.
    all: split; [lookup_solve | split; eexists; lookup_solve]. }
  apply wp_run in H. rewrite Hrun in H. exact H.
Qed.

(** The last [else] of [pdf_maker.py]: lines 70-78. *)
Lemma create_bins_fallback (a : Namespace) (k : string) (w : World) :
  bound a w ->
  subscript (z_binning_type a) 0 = Ok k ->
  k ∉ ["linear"; "adaptive"; "comoving"; "logspace"; "file"] ->
  exists w',
    PdfMaker.create_bins ext w = (Ok tt, w')
    /\ globals w' = <["z_bin_edge_array" :=
                       VEdges (Binner.linear (z_min a) (z_max a) (z_n_bins a))]>
                     (globals w)
    /\ trace w' = trace w ++
         [ Print "Creating bins...";
           Print "Requested binning name invalid. Valid types are:";
           Print (tab ++ "linear: linear binning in redshift");
           Print (tab ++ "adaptive: constant reference objects per redshift bin");
           Print (tab ++ "comoving: linear binning in comoving distance");
           Print (tab ++ "file: file providing the bin edges");
           Print "Returning linear binning...";
           Call "pdf_maker_utils._create_linear_redshift_bin_edges" ]
    /\ rng w' = rng w.
Proof.
  intros (Hargs & [v1 Hutils] & [v2 Hnp]) Hsub Hk.
  assert (Hne : forall n, n ∈ ["linear"; "adaptive"; "comoving"; "logspace"; "file"] ->
                          String.eqb k n = false).
  { intros n Hn. apply String.eqb_neq. intros ->. exact (Hk Hn). }
  pose proof (Hne "linear" ltac:(set_solver)) as H1.
  pose proof (Hne "adaptive" ltac:(set_solver)) as H2.
  pose proof (Hne "comoving" ltac:(set_solver)) as H3.
  pose proof (Hne "logspace" ltac:(set_solver)) as H4.
  pose proof (Hne "file" ltac:(set_solver)) as H5.
  eexists. split.
  - apply wp_returns. unfold PdfMaker.create_bins. wp_exec. split; reflexivity.
  - split; [reflexivity | split; [trace_solve | reflexivity]].
Qed.

(** The last [else] of [pdf_maker_full_sample.py]: lines 82-89. *)
Lemma full_create_bins_fallback (a : Namespace) (w : World) :
  bound a w ->
  (forall n, n ∈ ["linear"; "adaptive"; "comoving"; "logspace"] ->
             eq_str (z_binning_type a) n = false) ->
  exists w',
    PdfMakerFullSample.create_bins ext w = (Ok tt, w')
    /\ globals w' = <["z_bin_edge_array" :=
                       VEdges (Binner.linear (z_min a) (z_max a) (z_n_bins a))]>
                     (globals w)
    /\ trace w' = trace w ++
         [ Print "Creating bins...";
           Print "Requested binning name invalid. Valid types are:";
           Print (tab ++ "linear: linear binning in redshift");
           Print (tab ++ "adaptive: constant reference objects per redshift bin");
           Print (tab ++ "comoving: linear binning in comoving distance");
           Print "Retunning linear binning...";
           Call "pdf_maker_utils._create_linear_redshift_bin_edges" ]
    /\ rng w' = rng w.
Proof.
  intros (Hargs & [v1 Hutils] & [v2 Hnp]) Hne.
  pose proof (Hne "linear" ltac:(set_solver)) as H1.
  pose proof (Hne "adaptive" ltac:(set_solver)) as H2.
  pose proof (Hne "comoving" ltac:(set_solver)) as H3.
  pose proof (Hne "logspace" ltac:(set_solver)) as H4.
  eexists. split.
  - apply wp_returns. unfold PdfMakerFullSample.create_bins. wp_exec.
    split; reflexivity.
  - split; [reflexivity | split; [trace_solve | reflexivity]].
Qed.

(** The [file] branch of [pdf_maker.py], lines 68-69, on a file that
    numpy reads as a one-dimensional array. *)
Lemma create_bins_file (a : Namespace) (path : string) (l : list Q) (w : World) :
  bound a w ->
  subscript (z_binning_type a) 0 = Ok "file" ->
  subscript (z_binning_type a) 1 = Ok path ->
  Py.loadtxt ext path = Read (Vector l) ->
  exists w',
    PdfMaker.create_bins ext w = (Ok tt, w')
    /\ globals w' = <["z_bin_edge_array" := VEdges (removelast l)]> (globals w)
    /\ trace w' = trace w ++ [ Print "Creating bins..."; Call "np.loadtxt" ]
    /\ rng w' = rng w.
Proof.
  intros (Hargs & [v1 Hutils] & [v2 Hnp]) Hsub Hpath Hl.
  eexists. split.
  - apply wp_returns. unfold PdfMaker.create_bins. wp_exec. split; reflexivity.
  - split; [reflexivity | split; [trace_solve | reflexivity]].
Qed.

(** The same branch on a file that holds one number: the slice of line 69
    raises, and nothing is bound. *)
Lemma create_bins_file_scalar (a : Namespace) (path : string) (x : Q) (w : World) :
  bound a w ->
  subscript (z_binning_type a) 0 = Ok "file" ->
  subscript (z_binning_type a) 1 = Ok path ->
  Py.loadtxt ext path = Read (Scalar x) ->
  exists w',
    PdfMaker.create_bins ext w = (Raise IndexError, w')
    /\ globals w' = globals w
    /\ trace w' = trace w ++ [ Print "Creating bins..."; Call "np.loadtxt" ]
    /\ rng w' = rng w.
Proof.
  intros (Hargs & [v1 Hutils] & [v2 Hnp]) Hsub Hpath Hl.
  eexists. split.
  - apply wp_raises. unfold PdfMaker.create_bins. wp_exec. split; reflexivity.
  - split; [reflexivity | split; [trace_solve | reflexivity]].
Qed.

(** The same branch on a file of several rows and columns: the slice
    drops the last row. *)
Lemma create_bins_file_table (a : Namespace) (path : string) (rows : list (list Q))
    (w : World) :
  bound a w ->
  subscript (z_binning_type a) 0 = Ok "file" ->
  subscript (z_binning_type a) 1 = Ok path ->
  Py.loadtxt ext path = Read (Table rows) ->
  exists w',
    PdfMaker.create_bins ext w = (Ok tt, w')
    /\ globals w' = <["z_bin_edge_array" := VTable (removelast rows)]> (globals w)
    /\ trace w' = trace w ++ [ Print "Creating bins..."; Call "np.loadtxt" ]
    /\ rng w' = rng w.
Proof.
  intros (Hargs & [v1 Hutils] & [v2 Hnp]) Hsub Hpath Hl.
  eexists. split.
  - apply wp_returns. unfold PdfMaker.create_bins. wp_exec. split; reflexivity.
  - split; [reflexivity | split; [trace_solve | reflexivity]].
Qed.

(** The tests of the two [if]/[elif] chains. *)
Lemma binning_is_first_element (a : Namespace) (name : string) (w : World) :
  globals w !! "args" = Some (VArgs a) ->
  PdfMaker.binning_is name w
  = (match subscript (z_binning_type a) 0 with
     | Ok k => Ok (String.eqb k name)
     | Raise e => Raise e
     end, w).
Proof.
  intros Hargs. unfold PdfMaker.binning_is, attr, load_args, bind, load, lift, ret.
  rewrite Hargs. destruct (subscript (z_binning_type a) 0); reflexivity.
Qed.

Lemma binning_is_whole_argument (a : Namespace) (name : string) (w : World) :
  globals w !! "args" = Some (VArgs a) ->
  PdfMakerFullSample.binning_is name w = (Ok (eq_str (z_binning_type a) name), w).
Proof.
  intros Hargs.
  unfold PdfMakerFullSample.binning_is, attr, load_args, bind, load, ret.
  rewrite Hargs. reflexivity.
Qed.

(** An argument whose first element is a policy name of more than one
    letter is a list, and a list equals no name. *)
Lemma first_element_not_whole (t : PyArg) (k name : string) :
  subscript t 0 = Ok k -> (1 < String.length k)%nat -> eq_str t name = false.
Proof.
  destruct t as [s|l]; simpl; [| reflexivity].
  destruct s as [|c s]; simpl; [discriminate |].
  intros [= <-]. simpl. lia.
Qed.

End BinningDispatch.

(** ** The bin edges the pipeline works on *)

Section EdgesUsed.
Import Py Logic.
Local Open Scope py_scope.

Variable ext : External.
Variable edges : list Q.

Implicit Types (w : World).

Lemma maker_edges_add_event (e : Event) w :
  maker_edges edges w -> maker_edges edges (add_event e w).
Proof. intros H. exact H. Qed.

Lemma maker_edges_set_rng (seed : N) w :
  maker_edges edges w -> maker_edges edges (set_rng seed w).
Proof. intros H. exact H. Qed.

Lemma maker_edges_set_other (name : string) (v : Value) w :
  name <> "pdf_maker" -> maker_edges edges w ->
  maker_edges edges (set_global name v w).
Proof.
  intros Hne (m & Hm & Hs). exists m. split; [| exact Hs].
  rewrite globals_set_global, lookup_insert_ne by exact Hne. exact Hm.
Qed.

Lemma maker_edges_set_maker (m : PDFMaker) w :
  bin_edges m = edges -> maker_edges edges (set_global "pdf_maker" (VMaker m) w).
Proof.
  intros Hs. exists m. split; [| exact Hs].
  rewrite globals_set_global. apply lookup_insert_eq.
Qed.

Lemma compute_region_densities_edges (z_max : Q) (m m' : PDFMaker) :
  Aggregator.compute_region_densities edges z_max m = Ok m' -> bin_edges m' = edges.
Proof.
  unfold Aggregator.compute_region_densities, Orchestrator.guarded.
  destruct (Orchestrator.reached Collapsed m); [| discriminate].
  intros [= <-]. reflexivity.
Qed.

Lemma _compute_pdf_bootstrap_edges (draws : list (list nat)) (m m' : PDFMaker) :
  Bootstrap._compute_pdf_bootstrap (sqrt ext) draws m = Ok m' ->
  bin_edges m' = bin_edges m.
Proof.
  unfold Bootstrap._compute_pdf_bootstrap, Orchestrator.guarded.
  destruct (Orchestrator.reached RegionDensitiesComputed m); [| discriminate].
  intros [= <-]. reflexivity.
Qed.

Lemma write_pdf_to_ascii_edges (f : string) (m m' : PDFMaker) :
  Engine.write_pdf_to_ascii f m = Ok m' -> bin_edges m' = bin_edges m.
Proof.
  unfold Engine.write_pdf_to_ascii, Orchestrator.guarded.
  destruct (Orchestrator.reached BootstrapComputed m); [| discriminate].
  intros [= <-]. reflexivity.
Qed.

Lemma wp_compute_pdf_bootstrap_edges (n : nat) (m : PDFMaker)
    (Q : unit -> World -> Prop) (E : exn -> World -> Prop) w :
  (forall m' seed,
     bin_edges m' = bin_edges m ->
     Q tt (set_global "pdf_maker" (VMaker m')
             (set_rng seed (add_event (Call "pdf_maker.compute_pdf_bootstrap") w)))) ->
  (forall e seed,
     E e (set_rng seed (add_event (Call "pdf_maker.compute_pdf_bootstrap") w))) ->
  wp (Engine.compute_pdf_bootstrap ext n m) Q E w.
Proof.
  intros HQ HE. unfold Engine.compute_pdf_bootstrap.
  apply wp_bind, wp_enter. unfold wp.
  destruct (Bootstrap.compute_pdf_bootstrap _ _ _ _ _) as [[m'|e] seed'] eqn:Hb.
  - apply HQ. unfold Bootstrap.compute_pdf_bootstrap in Hb.
    destruct (Orchestrator.reached RegionDensitiesComputed m); [| discriminate].
    destruct (Bootstrap.draw_trials _ _ _ _) as [draws seed''].
    injection Hb as Hb _. apply (_compute_pdf_bootstrap_edges _ _ _ Hb).
  - apply HE.
Qed.

Lemma maker_edges_lookup (m : PDFMaker) w :
  maker_edges edges w -> globals w !! "pdf_maker" = Some (VMaker m) ->
  bin_edges m = edges.
Proof. intros (m' & Hm' & He) Hm. congruence. Qed.

Ltac edges_tac :=
  repeat first
    [ assumption
    | apply maker_edges_add_event
    | apply maker_edges_set_rng
    | apply maker_edges_set_other; [discriminate |]
    | apply maker_edges_set_maker ].

Lemma collapse_keeps_edges w :
  globals w !! "z_bin_edge_array" = Some (VEdges edges) ->
  wp (PdfMaker.collapse ext)
     (fun _ w' => globals w' !! "z_bin_edge_array" = Some (VEdges edges))
     (fun _ _ => True) w.
Proof.
  intros Hw. unfold PdfMaker.collapse. repeat wp_step; try exact I. lookup_solve.
Qed.

Lemma full_collapse_keeps_edges w :
  globals w !! "z_bin_edge_array" = Some (VEdges edges) ->
  wp (PdfMakerFullSample.collapse ext)
     (fun _ w' => globals w' !! "z_bin_edge_array" = Some (VEdges edges))
     (fun _ _ => True) w.
Proof.
  intros Hw. unfold PdfMakerFullSample.collapse. repeat wp_step; try exact I.
  lookup_solve.
Qed.

(** Lines 92-93: the edges handed to [compute_region_densities] are the
    ones bound to [z_bin_edge_array]. *)
Lemma region_densities_edges w :
  globals w !! "z_bin_edge_array" = Some (VEdges edges) ->
  wp (PdfMaker.region_densities ext)
     (fun _ w' => maker_edges edges w') (fun _ _ => True) w.
Proof.
  intros Hw. unfold PdfMaker.region_densities.
  repeat (wp_step; norm_lookups); try exact I.
  all: edges_tac; eauto using compute_region_densities_edges.
Qed.

Lemma bootstrap_edges w :
  maker_edges edges w ->
  wp (PdfMaker.bootstrap ext)
     (fun _ w' => maker_edges edges w') (fun _ _ => True) w.
Proof.
  intros Hw. unfold PdfMaker.bootstrap.
  repeat (wp_step; norm_lookups); try exact I.
  all: engine_shape.
  - edges_tac. rewrite (_compute_pdf_bootstrap_edges _ _ _ Heqr).
    eapply maker_edges_lookup; eassumption.
  - apply wp_compute_pdf_bootstrap_edges; [| intros; exact I].
    intros m' seed Hm'. edges_tac. rewrite Hm'.
    eapply maker_edges_lookup; eassumption.
Qed.

Lemma write_out_edges w :
  maker_edges edges w ->
  wp (PdfMaker.write_out ext)
     (fun _ w' => maker_edges edges w') (fun _ _ => True) w.
Proof.
  intros Hw. unfold PdfMaker.write_out.
  repeat (wp_step; norm_lookups); try exact I.
  all: edges_tac.
  all: match goal with
       | H : Engine.write_pdf_to_ascii _ _ = Ok _ |- _ =>
           rewrite (write_pdf_to_ascii_edges _ _ _ H)
       end.
  all: eapply maker_edges_lookup; eassumption.
Qed.

Lemma pipeline_tail_edges (collapse : M unit) w :
  (forall w0, globals w0 !! "z_bin_edge_array" = Some (VEdges edges) ->
              wp collapse
                 (fun _ w' => globals w' !! "z_bin_edge_array" = Some (VEdges edges))
                 (fun _ _ => True) w0) ->
  globals w !! "z_bin_edge_array" = Some (VEdges edges) ->
  wp (collapse ;; PdfMaker.region_densities ext ;; PdfMaker.bootstrap ext ;;
      PdfMaker.write_out ext)
     (fun _ w' => maker_edges edges w') (fun _ _ => True) w.
Proof.
  intros Hc Hw. eapply wp_seq; [apply Hc, Hw |].
  intros [] w1 Hw1. eapply wp_seq; [apply region_densities_edges, Hw1 |].
  intros [] w2 Hw2. eapply wp_seq; [apply bootstrap_edges, Hw2 |].
  intros [] w3 Hw3. apply write_out_edges, Hw3.
Qed.

(** A run of the pipeline that completes has worked on the edges that were
    bound to [z_bin_edge_array] when it started. *)
Lemma pipeline_uses_edges w w' :
  globals w !! "z_bin_edge_array" = Some (VEdges edges) ->
  PdfMaker.pipeline ext w = (Ok tt, w') ->
  maker_edges edges w'.
Proof.
  intros Hw Hrun.
  pose proof (pipeline_tail_edges (PdfMaker.collapse ext) w collapse_keeps_edges Hw) as H.
  apply wp_run in H. unfold PdfMaker.pipeline in Hrun. rewrite Hrun in H. exact H.
Qed.

Lemma full_pipeline_uses_edges w w' :
  globals w !! "z_bin_edge_array" = Some (VEdges edges) ->
  PdfMakerFullSample.pipeline ext w = (Ok tt, w') ->
  maker_edges edges w'.
Proof.
  intros Hw Hrun.
  assert (H : wp (PdfMakerFullSample.pipeline ext)
                (fun _ w' => maker_edges edges w') (fun _ _ => True) w).
  { exact (pipeline_tail_edges (PdfMakerFullSample.collapse ext) w
             full_collapse_keeps_edges Hw). }
  apply wp_run in H. rewrite Hrun in H. exact H.
Qed.

End EdgesUsed.

(** ** The binning policies, seen from a whole run *)

Section BinningRuns.
Import Py Logic.
Local Open Scope py_scope.

Variable ext : External.
Variable seed : N.

(** C2: a binning-type argument that is none of the recognised names does
    not stop either script: the warning is printed, the bin edges are the
    linear ones over (z_min, z_max, n_bins), and the run goes on with the
    pipeline from there. *)
Theorem invalid_binning_falls_back :
  (forall w1 k,
     PdfMaker.load_inputs ext (PdfMaker.start seed) = (Ok tt, w1) ->
     subscript (z_binning_type (parse_input_pdf_args ext)) 0 = Ok k ->
     k ∉ ["linear"; "adaptive"; "comoving"; "logspace"; "file"] ->
     exists w2,
       PdfMaker.run ext seed = PdfMaker.pipeline ext w2
       /\ globals w2 !! "z_bin_edge_array"
          = Some (VEdges (Binner.linear (z_min (parse_input_pdf_args ext))
                                        (z_max (parse_input_pdf_args ext))
                                        (z_n_bins (parse_input_pdf_args ext))))
       /\ trace w2 = trace w1 ++
            [ Print "Creating bins...";
              Print "Requested binning name invalid. Valid types are:";
              Print (tab ++ "linear: linear binning in redshift");
              Print (tab ++ "adaptive: constant reference objects per redshift bin");
              Print (tab ++ "comoving: linear binning in comoving distance");
              Print (tab ++ "file: file providing the bin edges");
              Print "Returning linear binning...";
              Call "pdf_maker_utils._create_linear_redshift_bin_edges" ])
  /\ (forall w1,
        (PdfMakerFullSample.parse_arguments ext ;; PdfMakerFullSample.load_inputs ext)
          (PdfMakerFullSample.start seed) = (Ok tt, w1) ->
        (forall n, n ∈ ["linear"; "adaptive"; "comoving"; "logspace"] ->
                   eq_str (z_binning_type (parse_input_pdf_args ext)) n = false) ->
        exists w2,
          PdfMakerFullSample.run ext seed = PdfMakerFullSample.pipeline ext w2
          /\ globals w2 !! "z_bin_edge_array"
             = Some (VEdges (Binner.linear (z_min (parse_input_pdf_args ext))
                                           (z_max (parse_input_pdf_args ext))
                                           (z_n_bins (parse_input_pdf_args ext))))
          /\ trace w2 = trace w1 ++
               [ Print "Creating bins...";
                 Print "Requested binning name invalid. Valid types are:";
                 Print (tab ++ "linear: linear binning in redshift");
                 Print (tab ++ "adaptive: constant reference objects per redshift bin");
                 Print (tab ++ "comoving: linear binning in comoving distance");
                 Print "Retunning linear binning...";
                 Call "pdf_maker_utils._create_linear_redshift_bin_edges" ]).
Proof.
  split.
  - intros w1 k Hload Hsub Hk.
    destruct (create_bins_fallback ext _ k w1 (load_inputs_bound ext seed w1 Hload)
                Hsub Hk) as (w2 & Hbins & Hg & Ht & _).
    exists w2. split; [| split; [| exact Ht]].
    + unfold PdfMaker.run, PdfMaker.main.
      rewrite (bind_run _ _ _ _ _ Hload). apply (bind_run _ (fun _ => PdfMaker.pipeline ext) _ _ _ Hbins).
    + rewrite Hg. apply lookup_insert_eq.
  - intros w1 Hload Hne.
    destruct (full_create_bins_fallback ext _ w1 (full_inputs_bound ext seed w1 Hload)
                Hne) as (w2 & Hbins & Hg & Ht & _).
    exists w2. split; [| split; [| exact Ht]].
    + unfold PdfMakerFullSample.run, PdfMakerFullSample.main.
      rewrite <- bind_assoc. rewrite (bind_run _ _ _ _ _ Hload).
      apply (bind_run _ (fun _ => PdfMakerFullSample.pipeline ext) _ _ _ Hbins).
    + rewrite Hg. apply lookup_insert_eq.
Qed.

(** C7: with the file policy of pdf_maker.py, a file that np.loadtxt reads
    as a one-dimensional array gives the pipeline the list read from the
    file without its last element; a file read as a two-dimensional array
    gives it the rows without the last one; on a file that holds a single
    number the slice of line 69 raises IndexError and the pipeline is not
    started. *)
Theorem file_edges_drop_last (w1 : World) (path : string) :
  PdfMaker.load_inputs ext (PdfMaker.start seed) = (Ok tt, w1) ->
  subscript (z_binning_type (parse_input_pdf_args ext)) 0 = Ok "file" ->
  subscript (z_binning_type (parse_input_pdf_args ext)) 1 = Ok path ->
  (forall l : list Q,
     Py.loadtxt ext path = Read (Vector l) ->
     exists w2,
       PdfMaker.run ext seed = PdfMaker.pipeline ext w2
       /\ globals w2 !! "z_bin_edge_array" = Some (VEdges (removelast l))
       /\ (forall w', PdfMaker.run ext seed = (Ok tt, w') ->
                      maker_edges (removelast l) w'))
  /\ (forall rows : list (list Q),
        Py.loadtxt ext path = Read (Table rows) ->
        exists w2,
          PdfMaker.run ext seed = PdfMaker.pipeline ext w2
          /\ globals w2 !! "z_bin_edge_array" = Some (VTable (removelast rows)))
  /\ (forall x : Q,
        Py.loadtxt ext path = Read (Scalar x) ->
        exists w',
          PdfMaker.run ext seed = (Raise IndexError, w')
          /\ globals w' = globals w1
          /\ trace w' = trace w1 ++ [ Print "Creating bins..."; Call "np.loadtxt" ]).
Proof.
  intros Hload Hsub Hpath.
  pose proof (load_inputs_bound ext seed w1 Hload) as Hb.
  split; [| split].
  - intros l Hl.
    destruct (create_bins_file ext _ path l w1 Hb Hsub Hpath Hl) as (w2 & Hbins & Hg & _).
    assert (Hrun : PdfMaker.run ext seed = PdfMaker.pipeline ext w2).
    { unfold PdfMaker.run, PdfMaker.main.
      rewrite (bind_run _ _ _ _ _ Hload).
      apply (bind_run _ (fun _ => PdfMaker.pipeline ext) _ _ _ Hbins). }
    assert (Hedges : globals w2 !! "z_bin_edge_array" = Some (VEdges (removelast l))).
    { rewrite Hg. apply lookup_insert_eq. }
    exists w2. split; [exact Hrun | split; [exact Hedges |]].
    intros w' Hok. rewrite Hrun in Hok.
    exact (pipeline_uses_edges ext _ w2 w' Hedges Hok).
  - intros rows Hl.
    destruct (create_bins_file_table ext _ path rows w1 Hb Hsub Hpath Hl)
      as (w2 & Hbins & Hg & _).
    exists w2. split.
    + unfold PdfMaker.run, PdfMaker.main.
      rewrite (bind_run _ _ _ _ _ Hload).
      apply (bind_run _ (fun _ => PdfMaker.pipeline ext) _ _ _ Hbins).
    + rewrite Hg. apply lookup_insert_eq.
  - intros x Hl.
    destruct (create_bins_file_scalar ext _ path x w1 Hb Hsub Hpath Hl)
      as (w' & Hbins & Hg & Ht & _).
    exists w'. split; [| split; [exact Hg | exact Ht]].
    unfold PdfMaker.run, PdfMaker.main.
    rewrite (bind_run _ _ _ _ _ Hload).
    unfold bind at 1. rewrite Hbins. reflexivity.
Qed.

End BinningRuns.

(** C10: on an argument that names the file policy the two scripts part
    ways: pdf_maker_full_sample.py has no such branch, warns and computes
    linear edges, pdf_maker.py reads the named file and binds what it
    read without its last element (or stops at the slice when the file
    holds a single number); and the first tests the whole argument where
    the second tests its first element. *)
Theorem file_policy_dispatch_differs (ext : Py.External) (a : Py.Namespace)
    (path : string) (arr : Py.NdArray Q) (w : Py.World) :
  Logic.bound a w ->
  Py.subscript (Py.z_binning_type a) 0 = Ok "file" ->
  Py.subscript (Py.z_binning_type a) 1 = Ok path ->
  Py.loadtxt ext path = Py.Read arr ->
  (exists w',
     PdfMakerFullSample.create_bins ext w = (Ok tt, w')
     /\ Py.globals w' !! "z_bin_edge_array"
        = Some (Py.VEdges (Binner.linear (Py.z_min a) (Py.z_max a) (Py.z_n_bins a)))
     /\ Py.Print "Requested binning name invalid. Valid types are:" ∈ Py.trace w')
  /\ (exists r w',
        PdfMaker.create_bins ext w = (r, w')
        /\ Py.trace w' = Py.trace w ++ [ Py.Print "Creating bins..."; Py.Call "np.loadtxt" ]
        /\ (forall l, arr = Py.Vector l ->
              r = Ok tt
              /\ Py.globals w' !! "z_bin_edge_array" = Some (Py.VEdges (removelast l)))
        /\ (forall rows, arr = Py.Table rows ->
              r = Ok tt
              /\ Py.globals w' !! "z_bin_edge_array" = Some (Py.VTable (removelast rows)))
        /\ (forall x, arr = Py.Scalar x -> r = Raise IndexError))
  /\ (forall name,
        PdfMaker.binning_is name w
        = (match Py.subscript (Py.z_binning_type a) 0 with
           | Ok k => Ok (String.eqb k name)
           | Raise e => Raise e
           end, w)
        /\ PdfMakerFullSample.binning_is name w
           = (Ok (Py.eq_str (Py.z_binning_type a) name), w)).
Proof.
  intros Hb Hsub Hpath Hl.
  assert (Hwhole : forall n, Py.eq_str (Py.z_binning_type a) n = false).
  { intros n. apply (first_element_not_whole _ "file" n Hsub). simpl. lia. }
  split; [| split].
  - destruct (full_create_bins_fallback ext a w Hb (fun n _ => Hwhole n))
      as (w' & Hbins & Hg & Ht & _).
    exists w'. split; [exact Hbins | split].
    + rewrite Hg. apply lookup_insert_eq.
    + rewrite Ht. set_solver.
  - destruct arr as [x | l | rows].
    + destruct (create_bins_file_scalar ext a path x w Hb Hsub Hpath Hl)
        as (w' & Hbins & _ & Ht & _).
      exists (Raise IndexError), w'.
      split; [exact Hbins | split; [exact Ht |]].
      split; [| split]; intros; (discriminate || reflexivity).
    + destruct (create_bins_file ext a path l w Hb Hsub Hpath Hl)
        as (w' & Hbins & Hg & Ht & _).
      exists (Ok tt), w'.
      split; [exact Hbins | split; [exact Ht |]].
      split; [| split]; intros ? [=]; subst.
      split; [reflexivity |]. rewrite Hg. apply lookup_insert_eq.
    + destruct (create_bins_file_table ext a path rows w Hb Hsub Hpath Hl)
        as (w' & Hbins & Hg & Ht & _).
      exists (Ok tt), w'.
      split; [exact Hbins | split; [exact Ht |]].
      split; [| split]; intros ? [=]; subst.
      split; [reflexivity |]. rewrite Hg. apply lookup_insert_eq.
  - intros name. destruct Hb as (Hargs & _). split.
    + apply (binning_is_first_element a name w Hargs).
    + apply (binning_is_whole_argument a name w Hargs).
Qed.

(** ** Full-sample mode and the weight source *)

Section WeightSource.
Import Py Logic.
Local Open Scope py_scope.

Variable name : string.

Implicit Types (w : World).

Lemma same_world_add_event (e : Event) w1 w2 :
  same_world name w1 w2 -> same_world name (add_event e w1) (add_event e w2).
Proof.
  intros (Hg & (before & after & H1 & H2) & Hr). split; [exact Hg | split; [| exact Hr]].
  exists before, (after ++ [e]). simpl. rewrite H1, H2.
  rewrite <- !app_assoc. split; reflexivity.
Qed.

Lemma same_world_set_global (k : string) (v1 v2 : Value) w1 w2 :
  same_value v1 v2 -> same_world name w1 w2 ->
  same_world name (set_global k v1 w1) (set_global k v2 w2).
Proof.
  intros Hv (Hg & Ht & Hr). split; [| split; [exact Ht | exact Hr]].
  intros k'. simpl. destruct (decide (k = k')) as [<-|Hne].
  - rewrite !lookup_insert_eq. exact Hv.
  - rewrite !lookup_insert_ne by exact Hne. apply Hg.
Qed.

Lemma same_world_set_rng (seed : N) w1 w2 :
  same_world name w1 w2 -> same_world name (set_rng seed w1) (set_rng seed w2).
Proof. intros (Hg & Ht & Hr). split; [exact Hg | split; [exact Ht | reflexivity]]. Qed.

Lemma same_value_refl_maker (m : PDFMaker) : same_value (VMaker m) (VMaker m).
Proof. reflexivity. Qed.

Section Rules.
Context {A B : Type}.

Lemma sim_ret (V : A -> A -> Prop) (a1 a2 : A) :
  V a1 a2 -> sim name V (ret a1) (ret a2).
Proof. intros HV w1 w2 Hw. split; assumption. Qed.

Lemma sim_ret_eq (a : A) : sim name eq (ret a) (ret a).
Proof. apply sim_ret. reflexivity. Qed.

Lemma sim_raise (V : A -> A -> Prop) (e : exn) :
  sim name V (raise e) (raise e).
Proof. intros w1 w2 Hw. split; [reflexivity | assumption]. Qed.

Lemma sim_lift (r : result A) : sim name eq (lift r) (lift r).
Proof. intros w1 w2 Hw. unfold lift. destruct r; split; auto. Qed.

Lemma sim_bind (V : A -> A -> Prop) (V' : B -> B -> Prop)
    (c1 c2 : M A) (k1 k2 : A -> M B) :
  sim name V c1 c2 ->
  (forall a1 a2, V a1 a2 -> sim name V' (k1 a1) (k2 a2)) ->
  sim name V' (bind c1 k1) (bind c2 k2).
Proof.
  intros Hc Hk w1 w2 Hw. unfold bind. specialize (Hc w1 w2 Hw).
  destruct (c1 w1) as [[a1|e1] w1'], (c2 w2) as [[a2|e2] w2']; try contradiction.
  - destruct Hc as [HV Hw']. apply (Hk a1 a2 HV w1' w2' Hw').
  - exact Hc.
Qed.

End Rules.

Lemma sim_emit (e : Event) : sim name eq (emit e) (emit e).
Proof.
  intros w1 w2 Hw. split; [reflexivity | apply same_world_add_event, Hw].
Qed.

Lemma sim_store (k : string) (v1 v2 : Value) :
  same_value v1 v2 -> sim name eq (store k v1) (store k v2).
Proof.
  intros Hv w1 w2 Hw. split; [reflexivity | apply same_world_set_global; assumption].
Qed.

Lemma sim_load (k : string) : sim name same_value (load k) (load k).
Proof.
  intros w1 w2 Hw. unfold load. destruct Hw as (Hg & Ht & Hr).
  pose proof (Hg k) as Hk. unfold same_binding in Hk.
  destruct (globals w1 !! k), (globals w2 !! k); try contradiction.
  - split; [exact Hk | split; [exact Hg | split; assumption]].
  - split; [reflexivity | split; [exact Hg | split; assumption]].
Qed.

Lemma sim_lookup (k : string) : sim name eq (lookup k) (lookup k).
Proof.
  unfold lookup. eapply sim_bind; [apply sim_load |]. intros; apply sim_ret_eq.
Qed.

Lemma sim_load_args (k : string) : sim name same_args (load_args k) (load_args k).
Proof.
  unfold load_args. eapply sim_bind; [apply sim_load |].
  intros v1 v2 Hv. destruct v1, v2; simpl in Hv; try discriminate Hv;
    try contradiction; try apply sim_raise.
  apply sim_ret, Hv.
Qed.

Lemma sim_load_data (k : string) : sim name same_file (load_data k) (load_data k).
Proof.
  unfold load_data. eapply sim_bind; [apply sim_load |].
  intros v1 v2 Hv. destruct v1, v2; simpl in Hv; try discriminate Hv;
    try contradiction; try apply sim_raise.
  apply sim_ret, Hv.
Qed.

Lemma sim_load_maker (k : string) : sim name eq (load_maker k) (load_maker k).
Proof.
  unfold load_maker. eapply sim_bind; [apply sim_load |].
  intros v1 v2 Hv. destruct v1, v2; simpl in Hv; try discriminate Hv;
    try contradiction; try apply sim_raise.
  injection Hv as ->. apply sim_ret_eq.
Qed.

Lemma sim_load_edges (k : string) : sim name eq (load_edges k) (load_edges k).
Proof.
  unfold load_edges. eapply sim_bind; [apply sim_load |].
  intros v1 v2 Hv. destruct v1, v2; simpl in Hv; try discriminate Hv;
    try contradiction; try apply sim_raise.
  all: injection Hv as ->; apply sim_ret_eq.
Qed.

Lemma sim_load_draws (k : string) : sim name eq (load_draws k) (load_draws k).
Proof.
  unfold load_draws. eapply sim_bind; [apply sim_load |].
  intros v1 v2 Hv. destruct v1, v2; simpl in Hv; try discriminate Hv;
    try contradiction; try apply sim_raise.
  injection Hv as ->. apply sim_ret_eq.
Qed.

Lemma sim_load_file (k : string) : sim name eq (load_file k) (load_file k).
Proof.
  unfold load_file. eapply sim_bind; [apply sim_load |].
  intros v1 v2 Hv. destruct v1, v2; simpl in Hv; try discriminate Hv;
    try contradiction; try apply sim_raise.
  injection Hv as ->. apply sim_ret_eq.
Qed.

(** Every field but the weight name reads the same. *)
Lemma sim_attr {A} (field : Namespace -> A) :
  (forall a, field a = field (set_weight None a)) ->
  sim name eq (attr field) (attr field).
Proof.
  intros Hf. unfold attr. eapply sim_bind; [apply sim_load_args |].
  intros a1 a2 Ha. apply sim_ret. unfold same_args in Ha.
  rewrite (Hf a1), (Hf a2), Ha. reflexivity.
Qed.

Lemma sim_create_file (ext : External) (path : string) :
  sim name eq (create_file ext path) (create_file ext path).
Proof.
  unfold create_file. destruct (writable ext path); [apply sim_emit | apply sim_raise].
Qed.

Lemma sim_invoke (k f : string) (op : PDFMaker -> result PDFMaker) (m : PDFMaker) :
  sim name eq (invoke k f op m) (invoke k f op m).
Proof.
  unfold invoke, enter. eapply sim_bind; [apply sim_emit |]. intros _ _ _.
  eapply sim_bind; [apply sim_lift |]. intros m1 m2 <-.
  apply sim_store. reflexivity.
Qed.

Lemma sim_compute_pdf_bootstrap (ext : External) (n : nat) (m : PDFMaker) :
  sim name eq (Engine.compute_pdf_bootstrap ext n m)
              (Engine.compute_pdf_bootstrap ext n m).
Proof.
  unfold Engine.compute_pdf_bootstrap, enter.
  eapply sim_bind; [apply sim_emit |]. intros _ _ _ w1 w2 Hw.
  assert (Hr : rng w1 = rng w2) by apply Hw. rewrite Hr.
  destruct (Bootstrap.compute_pdf_bootstrap _ _ _ _ _) as [[m'|e] seed].
  - split; [reflexivity |].
    apply same_world_set_global; [reflexivity | apply same_world_set_rng, Hw].
  - split; [reflexivity | apply same_world_set_rng, Hw].
Qed.

Lemma sim_data_group (h1 h2 : FileData) :
  same_file h1 h2 -> sim name eq (Engine.data_group h1) (Engine.data_group h2).
Proof.
  intros H. destruct h1, h2; simpl in H; try contradiction.
  - subst. apply sim_ret_eq.
  - apply sim_raise.
Qed.

Lemma sim_construct_PDFMaker (h1 h2 : FileData) (a1 a2 : Namespace) :
  same_file h1 h2 ->
  sim name eq (Engine.construct_PDFMaker h1 a1) (Engine.construct_PDFMaker h2 a2).
Proof.
  intros H. unfold Engine.construct_PDFMaker, enter.
  eapply sim_bind; [apply sim_emit |]. intros _ _ _.
  destruct h1, h2; simpl in H; try contradiction.
  - subst. apply sim_ret_eq.
  - apply sim_raise.
Qed.

(** The collapsing step of the full-sample mode reads neither the weight
    name nor the catalog columns. *)
Lemma sim_collapse_full_sample (pairs : list ReferenceObject) (m : PDFMaker)
    (u1 u2 : FileData) (a1 a2 : Namespace) :
  same_file u1 u2 -> same_args a1 a2 ->
  sim name eq (Engine.collapse_full_sample pairs m u1 a1)
              (Engine.collapse_full_sample pairs m u2 a2).
Proof.
  intros Hu Ha. unfold Engine.collapse_full_sample, enter.
  eapply sim_bind; [apply sim_emit |]. intros _ _ _.
  destruct u1, u2; simpl in Hu; try contradiction.
  - apply sim_raise.
  - assert (Hs : pair_scale_name a1 = pair_scale_name a2).
    { change (pair_scale_name (set_weight None a1) = pair_scale_name (set_weight None a2)).
      rewrite Ha. reflexivity. }
    rewrite Hs. unfold Orchestrator.collapse_full_sample.
    eapply sim_bind; [apply sim_lift |]. intros m1 m2 <-.
    apply sim_store. reflexivity.
Qed.

Lemma sim_file_checker_loader (cols : gmap string (gmap nat Q)) (ext : External)
    (path : string) :
  sim name same_file
    (Engine.file_checker_loader (supply_weights name cols ext) path)
    (Engine.file_checker_loader ext path).
Proof.
  unfold Engine.file_checker_loader, enter.
  eapply sim_bind; [apply sim_emit |]. intros _ _ _.
  cbn [supply_weights Py.file_checker_loader].
  destruct (Py.file_checker_loader ext path) as [d|]; simpl.
  - apply sim_ret. destruct d; simpl; reflexivity.
  - apply sim_raise.
Qed.

End WeightSource.

(** One step of two runs side by side. *)
Ltac sim_step :=
  lazymatch goal with
  | |- Logic.sim _ _ (Py.bind _ _) (Py.bind _ _) =>
      eapply sim_bind; [| intros ? ? ?]
  | |- Logic.sim _ _ (Py.ret ?a) (Py.ret ?a) => apply sim_ret_eq
  | |- Logic.sim _ _ (Py.raise _) (Py.raise _) => apply sim_raise
  | |- Logic.sim _ _ (Py.print _) (Py.print _) => apply sim_emit
  | |- Logic.sim _ _ (Py.enter _) (Py.enter _) => apply sim_emit
  | |- Logic.sim _ _ (Py.emit _) (Py.emit _) => apply sim_emit
  | |- Logic.sim _ _ (Py.store _ _) (Py.store _ _) => apply sim_store
  | |- Logic.sim _ _ (Py.lookup _) (Py.lookup _) => apply sim_lookup
  | |- Logic.sim _ _ (Py.load_args _) (Py.load_args _) => apply sim_load_args
  | |- Logic.sim _ _ (Py.load_maker _) (Py.load_maker _) => apply sim_load_maker
  | |- Logic.sim _ _ (Py.load_edges _) (Py.load_edges _) => apply sim_load_edges
  | |- Logic.sim _ _ (Py.load_data _) (Py.load_data _) => apply sim_load_data
  | |- Logic.sim _ _ (Py.load_draws _) (Py.load_draws _) => apply sim_load_draws
  | |- Logic.sim _ _ (Py.load_file _) (Py.load_file _) => apply sim_load_file
  | |- Logic.sim _ _ (Py.attr _) (Py.attr _) => apply sim_attr; intros ?; reflexivity
  | |- Logic.sim _ _ (Py.create_file ?e _) (Py.create_file ?e _) => apply sim_create_file
  | |- Logic.sim _ _ (Py.invoke _ _ _ _) (Py.invoke ?k ?f ?op ?m) =>
      exact (sim_invoke _ k f op m)
  | |- Logic.sim _ _ (Engine.compute_pdf_bootstrap _ _ _)
                     (Engine.compute_pdf_bootstrap ?e ?n ?m) =>
      exact (sim_compute_pdf_bootstrap _ e n m)
  | H : Logic.same_file ?h1 ?h2
    |- Logic.sim _ _ (Engine.data_group ?h1) (Engine.data_group ?h2) =>
      apply (sim_data_group _ _ _ H)
  | H : Logic.same_file ?h1 ?h2
    |- Logic.sim _ _ (Engine.construct_PDFMaker ?h1 _) (Engine.construct_PDFMaker ?h2 _) =>
      apply (sim_construct_PDFMaker _ _ _ _ _ H)
  | H : Logic.same_file ?u1 ?u2, H' : Logic.same_args ?a1 ?a2
    |- Logic.sim _ _ (Engine.collapse_full_sample _ _ ?u1 ?a1)
                     (Engine.collapse_full_sample _ _ ?u2 ?a2) =>
      apply (sim_collapse_full_sample _ _ _ _ _ _ _ H H')
  | |- Logic.sim _ _ (Engine.file_checker_loader (Logic.supply_weights _ _ _) _)
                     (Engine.file_checker_loader _ _) =>
      apply sim_file_checker_loader
  | H : Logic.same_file ?d1 ?d2 |- Logic.same_value (Py.VData ?d1) (Py.VData ?d2) =>
      exact H
  | |- Logic.sim _ _ (Py.lift ?r) (Py.lift ?r) => apply sim_lift
  | |- Logic.sim _ _ (if ?b then _ else _) (if ?b then _ else _) => destruct b
  | |- Logic.sim _ _ (match ?x with _ => _ end) (match ?x with _ => _ end) => destruct x
  | |- Logic.sim _ _ _ _ =>
      first [ progress autounfold with script
            | progress unfold Py.create_file
            | progress cbn [Logic.supply_weights Py.loadtxt Py.loadtxt_int
                            Py.create_comoving Py.create_logspace Py.sqrt
                            Py.randint Py.worker_fault Py.writable
                            Py.snapshot_needs] ]
  | |- Logic.same_value _ _ => reflexivity
  end.

Ltac sim_tac := repeat (subst; sim_step).

Section WeightIgnored.
Import Py Logic.
Local Open Scope py_scope.

Variable name : string.
Variable cols : gmap string (gmap nat Q).
Variable ext : External.

Lemma full_create_bins_sim :
  sim name eq (PdfMakerFullSample.create_bins (supply_weights name cols ext))
              (PdfMakerFullSample.create_bins ext).
Proof.
  unfold PdfMakerFullSample.create_bins.
  sim_tac.
Qed.

Lemma region_densities_sim :
  sim name eq (PdfMakerFullSample.region_densities (supply_weights name cols ext))
              (PdfMakerFullSample.region_densities ext).
Proof.
  unfold PdfMakerFullSample.region_densities. sim_tac.
Qed.

Lemma full_load_inputs_sim :
  sim name eq (PdfMakerFullSample.load_inputs (supply_weights name cols ext))
              (PdfMakerFullSample.load_inputs ext).
Proof.
  unfold PdfMakerFullSample.load_inputs. sim_tac.
Qed.

Lemma full_collapse_sim :
  sim name eq (PdfMakerFullSample.collapse (supply_weights name cols ext))
              (PdfMakerFullSample.collapse ext).
Proof.
  unfold PdfMakerFullSample.collapse. sim_tac.
Qed.

Lemma bootstrap_sim :
  sim name eq (PdfMakerFullSample.bootstrap (supply_weights name cols ext))
              (PdfMakerFullSample.bootstrap ext).
Proof.
  unfold PdfMakerFullSample.bootstrap. sim_tac.
Qed.

Lemma write_out_sim :
  sim name eq (PdfMakerFullSample.write_out (supply_weights name cols ext))
              (PdfMakerFullSample.write_out ext).
Proof.
  unfold PdfMakerFullSample.write_out. sim_tac.
Qed.

Lemma same_value_refl (v : Value) : same_value v v.
Proof.
  destruct v as [| | d | | | | |]; simpl; try reflexivity.
  destruct d; reflexivity.
Qed.

Lemma full_tail_sim :
  sim name eq
    (PdfMakerFullSample.load_inputs (supply_weights name cols ext) ;;
     PdfMakerFullSample.create_bins (supply_weights name cols ext) ;;
     PdfMakerFullSample.pipeline (supply_weights name cols ext))
    (PdfMakerFullSample.load_inputs ext ;;
     PdfMakerFullSample.create_bins ext ;;
     PdfMakerFullSample.pipeline ext).
Proof.
  eapply sim_bind; [apply full_load_inputs_sim |]. intros _ _ _.
  eapply sim_bind; [apply full_create_bins_sim |]. intros _ _ _.
  unfold PdfMakerFullSample.pipeline.
  eapply sim_bind; [apply full_collapse_sim |]. intros _ _ _.
  eapply sim_bind; [apply region_densities_sim |]. intros _ _ _.
  eapply sim_bind; [apply bootstrap_sim |]. intros _ _ _.
  apply write_out_sim.
Qed.

(** C3: in full-sample mode, supplying a weight source (a weight name
    among the arguments, weight columns in the catalog) changes neither
    how the run ends nor what the pdf_maker object holds; the run with the
    weight source prints the warning and is otherwise the same. *)
Theorem weight_source_ignored (seed : N) :
  unknown_weight_name (parse_input_pdf_args ext) = None ->
  (PdfMakerFullSample.run (supply_weights name cols ext) seed).1
  = (PdfMakerFullSample.run ext seed).1
  /\ (forall m,
        globals (PdfMakerFullSample.run (supply_weights name cols ext) seed).2
          !! "pdf_maker" = Some (VMaker m)
        <-> globals (PdfMakerFullSample.run ext seed).2 !! "pdf_maker"
            = Some (VMaker m))
  /\ warned name
       (trace (PdfMakerFullSample.run (supply_weights name cols ext) seed).2)
       (trace (PdfMakerFullSample.run ext seed).2).
Proof.
  intros Hnone.
  assert (H1 : exists W1, PdfMakerFullSample.parse_arguments (supply_weights name cols ext)
                            (PdfMakerFullSample.start seed) = (Ok tt, W1)
                          /\ globals W1 = <["args" := VArgs (set_weight (Some name)
                                                              (parse_input_pdf_args ext))]>
                                            PdfMakerFullSample.imports
                          /\ trace W1 =
                               [ Print "";
                                 Print "The-wiZZ has begun conjuring: running pdf maker full sample...";
                                 Call "input_flags.parse_input_pdf_args";
                                 Call "input_flags.print_args" ]
                               ++ [ Print (PdfMakerFullSample.weight_warning name);
                                    Print (tab ++ "Continuing...") ] ++ []
                          /\ rng W1 = seed).
  { eexists. split.
    - apply wp_returns. unfold PdfMakerFullSample.parse_arguments. wp_exec.
      split; reflexivity.
    - split; [reflexivity | split; reflexivity]. }
  assert (H2 : exists W2, PdfMakerFullSample.parse_arguments ext
                            (PdfMakerFullSample.start seed) = (Ok tt, W2)
                          /\ globals W2 = <["args" := VArgs (parse_input_pdf_args ext)]>
                                            PdfMakerFullSample.imports
                          /\ trace W2 =
                               [ Print "";
                                 Print "The-wiZZ has begun conjuring: running pdf maker full sample...";
                                 Call "input_flags.parse_input_pdf_args";
                                 Call "input_flags.print_args" ] ++ []
                          /\ rng W2 = seed).
  { eexists. split.
    - apply wp_returns. unfold PdfMakerFullSample.parse_arguments. wp_exec.
      split; reflexivity.
    - split; [reflexivity | split; reflexivity]. }
  destruct H1 as (W1 & Hrun1 & Hg1 & Ht1 & Hr1), H2 as (W2 & Hrun2 & Hg2 & Ht2 & Hr2).
  assert (HW : same_world name W1 W2).
  { split; [| split].
    - intros k. rewrite Hg1, Hg2. destruct (decide ("args" = k)) as [<-|Hne].
      + rewrite !lookup_insert_eq. reflexivity.
      + rewrite !lookup_insert_ne by exact Hne.
        destruct (PdfMakerFullSample.imports !! k); simpl; [apply same_value_refl | exact I].
    - rewrite Ht1, Ht2. eexists _, _. split; reflexivity.
    - congruence. }
  unfold PdfMakerFullSample.run, PdfMakerFullSample.main.
  rewrite (bind_run _ _ _ _ _ Hrun1), (bind_run _ _ _ _ _ Hrun2).
  pose proof (full_tail_sim W1 W2 HW) as Hsim.
  destruct ((PdfMakerFullSample.load_inputs (supply_weights name cols ext) ;; _) W1)
    as [[[]|e1] w1'],
    ((PdfMakerFullSample.load_inputs ext ;; _) W2) as [[[]|e2] w2'];
    try contradiction; destruct Hsim as (Hres & Hg & Ht & _); simpl.
  all: split; [congruence | split; [| exact Ht]].
  all: intros m; specialize (Hg "pdf_maker"); unfold same_binding in Hg.
  all: destruct (globals w1' !! "pdf_maker") as [v1|], (globals w2' !! "pdf_maker") as [v2|];
       try contradiction; [| tauto].
  all: destruct v1, v2; simpl in Hg; try discriminate Hg; try contradiction;
       split; intros [= <-]; congruence.
Qed.

End WeightIgnored.

(** ** The properties on the sample survey *)

Section OnTheSample.
Import Py Logic.

Lemma pair_of_fst {A B} (p : A * B) (a : A) : p.1 = a -> p = (a, p.2).
Proof. destruct p. simpl. intros ->. reflexivity. Qed.

Lemma invalid_binning_falls_back_witness :
  (exists w2,
     PdfMaker.run (Sample.survey Sample.unknown_args false) 0
     = PdfMaker.pipeline (Sample.survey Sample.unknown_args false) w2
     /\ globals w2 !! "z_bin_edge_array" = Some (VEdges (Binner.linear 0 2 2)))
  /\ (exists w2,
        PdfMakerFullSample.run (Sample.survey Sample.unknown_args false) 0
        = PdfMakerFullSample.pipeline (Sample.survey Sample.unknown_args false) w2
        /\ globals w2 !! "z_bin_edge_array" = Some (VEdges (Binner.linear 0 2 2))).
Proof.
  destruct (invalid_binning_falls_back (Sample.survey Sample.unknown_args false) 0)
    as [Hweighted Hfull].
  split.
  - destruct (Hweighted
                (PdfMaker.load_inputs (Sample.survey Sample.unknown_args false)
                   (PdfMaker.start 0)).2 "quantile") as (w2 & Hrun & Hedges & _).
    + apply pair_of_fst. vm_compute. reflexivity.
    + reflexivity.
    + intros Hin. repeat (apply elem_of_cons in Hin as [Hin|Hin]; [discriminate Hin |]).
      apply elem_of_nil in Hin. exact Hin.
    + exists w2. split; assumption.
  - destruct (Hfull
                ((Py.bind (PdfMakerFullSample.parse_arguments
                             (Sample.survey Sample.unknown_args false))
                    (fun _ => PdfMakerFullSample.load_inputs
                                (Sample.survey Sample.unknown_args false)))
                   (PdfMakerFullSample.start 0)).2) as (w2 & Hrun & Hedges & _).
    + apply pair_of_fst. vm_compute. reflexivity.
    + intros n _. reflexivity.
    + exists w2. split; assumption.
Defined.

Lemma weight_source_ignored_witness :
  (PdfMakerFullSample.run
     (supply_weights "w" (columns Sample.catalog)
        (Sample.survey Sample.linear_args false)) 0).1
  = (PdfMakerFullSample.run (Sample.survey Sample.linear_args false) 0).1
  /\ (forall m,
        globals (PdfMakerFullSample.run
                   (supply_weights "w" (columns Sample.catalog)
                      (Sample.survey Sample.linear_args false)) 0).2
          !! "pdf_maker" = Some (VMaker m)
        <-> globals (PdfMakerFullSample.run (Sample.survey Sample.linear_args false) 0).2
              !! "pdf_maker" = Some (VMaker m))
  /\ warned "w"
       (trace (PdfMakerFullSample.run
                 (supply_weights "w" (columns Sample.catalog)
                    (Sample.survey Sample.linear_args false)) 0).2)
       (trace (PdfMakerFullSample.run (Sample.survey Sample.linear_args false) 0).2).
Proof.
  apply (weight_source_ignored "w" (columns Sample.catalog)
           (Sample.survey Sample.linear_args false) 0).
  reflexivity.
Defined.

Lemma file_edges_drop_last_witness :
  (exists w2,
     PdfMaker.run (Sample.survey Sample.file_args false) 0
     = PdfMaker.pipeline (Sample.survey Sample.file_args false) w2
     /\ globals w2 !! "z_bin_edge_array" = Some (VEdges [0; 1; 2]%Q)
     /\ (forall w', PdfMaker.run (Sample.survey Sample.file_args false) 0 = (Ok tt, w') ->
                    maker_edges [0; 1; 2]%Q w'))
  /\ (exists w',
        PdfMaker.run (Sample.survey Sample.one_number_args false) 0
        = (Raise IndexError, w')
        /\ trace w' = [ Print "";
                        Print "The-wiZZ has begun conjuring: running pdf maker...";
                        Call "input_flags.parse_input_pdf_args";
                        Call "input_flags.print_args";
                        Print "Loading unknown data...";
                        Call "core_utils.file_checker_loader";
                        Print "Creating bins...";
                        Call "np.loadtxt" ]).
Proof.
  split.
  - destruct (file_edges_drop_last (Sample.survey Sample.file_args false) 0
                (PdfMaker.load_inputs (Sample.survey Sample.file_args false)
                   (PdfMaker.start 0)).2 "edges.txt") as (Hvector & _ & _).
    + apply pair_of_fst. vm_compute. reflexivity.
    + reflexivity.
    + reflexivity.
    + apply (Hvector [0; 1; 2; 3]%Q). reflexivity.
  - destruct (file_edges_drop_last (Sample.survey Sample.one_number_args false) 0
                (PdfMaker.load_inputs (Sample.survey Sample.one_number_args false)
                   (PdfMaker.start 0)).2 "one.txt") as (_ & _ & Hscalar).
    + apply pair_of_fst. vm_compute. reflexivity.
    + reflexivity.
    + reflexivity.
    + destruct (Hscalar 1%Q) as (w' & Hrun & _ & Ht); [reflexivity |].
      exists w'. split; [exact Hrun |]. rewrite Ht. vm_compute. reflexivity.
Defined.

(** A file that holds one number is an ordered list of numbers, and the
    claim gives it the empty list of edges; np.loadtxt hands back a 0-d
    array for it, the slice of line 69 raises IndexError, and the run of
    pdf_maker.py stops there: no edges are bound and nothing of the
    pipeline is called. *)
Lemma file_edges_one_number_counterexample :
  subscript (z_binning_type Sample.one_number_args) 0 = Ok "file"
  /\ subscript (z_binning_type Sample.one_number_args) 1 = Ok "one.txt"
  /\ Py.loadtxt (Sample.survey Sample.one_number_args false) "one.txt"
     = Read (Scalar 1%Q)
  /\ (PdfMaker.run (Sample.survey Sample.one_number_args false) 0).1
     = Raise IndexError
  /\ globals (PdfMaker.run (Sample.survey Sample.one_number_args false) 0).2
       !! "z_bin_edge_array" = None
  /\ trace (PdfMaker.run (Sample.survey Sample.one_number_args false) 0).2
     = [ Print "";
         Print "The-wiZZ has begun conjuring: running pdf maker...";
         Call "input_flags.parse_input_pdf_args";
         Call "input_flags.print_args";
         Print "Loading unknown data...";
         Call "core_utils.file_checker_loader";
         Print "Creating bins...";
         Call "np.loadtxt" ].
Proof.
  split; [reflexivity |]. split; [reflexivity |]. split; [reflexivity |].
  split; [vm_compute; reflexivity |]. split; vm_compute; reflexivity.
Qed.


Lemma fatal_abort_before_output_witness :
  (run_script Weighted (Sample.survey Sample.linear_args true) 0).1 = Raise WorkerFailure
  /\ no_file (run_script Weighted (Sample.survey Sample.linear_args true) 0).2.
Proof.
  assert (H : (run_script Weighted (Sample.survey Sample.linear_args true) 0).1
              = Raise WorkerFailure) by (vm_compute; reflexivity).
  split; [exact H |].
  apply (fatal_abort_before_output Weighted (Sample.survey Sample.linear_args true) 0
           WorkerFailure).
  - apply pair_of_fst, H.
  - reflexivity.
Defined.

Lemma adaptive_raises_name_error_witness :
  exists w',
    PdfMaker.run (Sample.survey Sample.adaptive_args false) 0
    = (Raise (NameError "pdf_maker"), w')
    /\ trace w' = [ Print "";
                    Print "The-wiZZ has begun conjuring: running pdf maker...";
                    Call "input_flags.parse_input_pdf_args";
                    Call "input_flags.print_args";
                    Print "Loading unknown data...";
                    Call "core_utils.file_checker_loader";
                    Print "Creating bins..." ]
    /\ globals w' !! "pdf_maker" = None.
Proof.
  apply (adaptive_raises_name_error (Sample.survey Sample.adaptive_args false) 0
           (Fits Sample.catalog)); reflexivity.
Defined.

Lemma file_policy_dispatch_differs_witness :
  (exists w',
     PdfMakerFullSample.create_bins (Sample.survey Sample.file_args false)
       (Sample.ready Sample.file_args 0) = (Ok tt, w')
     /\ globals w' !! "z_bin_edge_array" = Some (VEdges (Binner.linear 0 2 2))
     /\ Print "Requested binning name invalid. Valid types are:" ∈ trace w')
  /\ (exists w',
        PdfMaker.create_bins (Sample.survey Sample.file_args false)
          (Sample.ready Sample.file_args 0) = (Ok tt, w')
        /\ globals w' !! "z_bin_edge_array" = Some (VEdges (removelast [0; 1; 2; 3]%Q)))
  /\ (forall name,
        PdfMaker.binning_is name (Sample.ready Sample.file_args 0)
        = (match subscript (z_binning_type Sample.file_args) 0 with
           | Ok k => Ok (String.eqb k name)
           | Raise e => Raise e
           end, Sample.ready Sample.file_args 0)
        /\ PdfMakerFullSample.binning_is name (Sample.ready Sample.file_args 0)
           = (Ok (eq_str (z_binning_type Sample.file_args) name),
              Sample.ready Sample.file_args 0)).
Proof.
  destruct (file_policy_dispatch_differs (Sample.survey Sample.file_args false)
              Sample.file_args "edges.txt" (Vector [0; 1; 2; 3]%Q)
              (Sample.ready Sample.file_args 0))
    as (Hfull & (r & w' & Hbins & _ & Hvector & _) & Htests).
  - split; [reflexivity | split; eexists; reflexivity].
  - reflexivity.
  - reflexivity.
  - reflexivity.
  - split; [exact Hfull | split; [| exact Htests]].
    destruct (Hvector [0; 1; 2; 3]%Q eq_refl) as [-> Hedges].
    exists w'. split; [exact Hbins | exact Hedges].
Defined.

(** In pdf_maker.py the dispatch reads the first element of the argument:
    an argument without one, which an option that takes one or more
    values never yields, stops the run with an [IndexError]. *)
Example empty_argument_run :
  (PdfMaker.run (Sample.survey (Sample.args (PyList []) None) false) 0).1
  = Raise IndexError.
Proof. vm_compute. reflexivity. Qed.

(** Each of the three fatal conditions does occur. *)
Example worker_failure_run :
  (PdfMaker.run (Sample.survey Sample.linear_args true) 0).1 = Raise WorkerFailure.
Proof. vm_compute. reflexivity. Qed.

Example binning_error_run :
  (PdfMakerFullSample.run (Sample.survey Sample.degenerate_args false) 0).1
  = Raise BinningError.
Proof. vm_compute. reflexivity. Qed.

Example pipeline_state_error_run :
  (PdfMaker.run (Sample.strict_survey Sample.linear_args) 0).1
  = Raise (PipelineStateError BootstrapComputed).
Proof. vm_compute. reflexivity. Qed.

(** Outside the three fatal conditions: when the file of region draws
    cannot be read, the run stops with an [IOError] after the snapshot of
    the region densities has been written. *)
Example io_error_after_snapshot :
  PdfMaker.run
    (Sample.survey
       (Sample.args_with (PyList ["linear"]) None 2 (Some "missing.txt")) false) 0
  = (Raise (IOError "missing.txt"),
     (PdfMaker.run
        (Sample.survey
           (Sample.args_with (PyList ["linear"]) None 2 (Some "missing.txt")) false) 0).2)
  /\ Create "regions.pkl"
     ∈ trace (PdfMaker.run
                (Sample.survey
                   (Sample.args_with (PyList ["linear"]) None 2 (Some "missing.txt"))
                   false) 0).2.
Proof.
  split; [apply pair_of_fst; vm_compute; reflexivity |].
  vm_compute. set_solver.
Qed.

(** The end-to-end scenario of the specification: three regions, two
    bins, the draws [[0,1,2],[2,2,2]]. *)
Example scenario_trials :
  trials (Bootstrap.bootstrap_pdf (fun x => x)
            (list_to_map
               [ ((0, 0%Z), {| raw_density := 4; n_objects := 2 |});
                 ((1, 0%Z), {| raw_density := 2; n_objects := 1 |});
                 ((2, 0%Z), {| raw_density := 0; n_objects := 0 |});
                 ((0, 1%Z), {| raw_density := 6; n_objects := 3 |});
                 ((1, 1%Z), {| raw_density := 3; n_objects := 1 |});
                 ((2, 1%Z), {| raw_density := 1; n_objects := 1 |}) ])
            [0; 1; 2]%Q [[0; 1; 2]; [2; 2; 2]])
  = [ [Some (6 # 3); None]; [Some (10 # 5); Some (3 # 3)] ].
Proof. vm_compute. reflexivity. Qed.

End OnTheSample.

(** ** What a run shows, stage by stage *)

Ltac open_inv :=
  repeat match goal with
  | H : Conduct.staged _ _ |- _ => destruct H as (? & ? & ?)
  | H : Conduct.parsed _ _ |- _ => destruct H as (? & [? ?] & [? ?] & [? ?] & [? ?])
  | H : Conduct.holds_edges _ |- _ => destruct H as [[? ?]|[? ?]]
  | H : Conduct.holds_maker _ |- _ => destruct H as [? ?]
  | H : Conduct.holds_catalog _ |- _ => destruct H as [? ?]
  | H : Conduct.holds_pairs _ |- _ => destruct H as [? ?]
  end.

Ltac inv_solve :=
  unfold Conduct.staged, Conduct.parsed, Conduct.holds_maker,
    Conduct.holds_catalog, Conduct.holds_pairs;
  repeat split;
  lazymatch goal with
  | |- Conduct.holds_edges _ =>
      first [ left; eexists; lookup_solve | right; eexists; lookup_solve ]
  | |- _ => try eexists; lookup_solve
  end.

Ltac rewrite_tests :=
  repeat match goal with
  | H : ?x = true |- context [if ?x then _ else _] => rewrite H
  | H : ?x = false |- context [if ?x then _ else _] => rewrite H
  | H : ?x = Some _ |- context [match ?x with Some _ => _ | None => _ end] => rewrite H
  | H : ?x = None |- context [match ?x with Some _ => _ | None => _ end] => rewrite H
  | H : ?x = Ok _ |- context [match ?x with Ok _ => _ | Raise _ => _ end] => rewrite H
  | H : ?x = Raise _ |- context [match ?x with Ok _ => _ | Raise _ => _ end] => rewrite H
  end.

Ltac unfold_logs :=
  unfold Conduct.region_log, Conduct.bootstrap_log, Conduct.write_log,
    Conduct.collapse_log, Conduct.optional_write, Conduct.bins_log,
    Conduct.full_bins_log, Conduct.inputs_log, Conduct.full_arguments_log,
    Conduct.full_inputs_log, Conduct.z_max_beyond.

Ltac log_solve := unfold_logs; rewrite_tests; trace_solve.

Ltac prefix_solve := unfold_logs; rewrite_tests; simpl; eexists; reflexivity.

Section Conducts.
Import Py Logic Conduct.
Local Open Scope py_scope.

Variable ext : External.

Implicit Types (w : World) (a : Namespace).

Lemma guarded_raises {A} (s : PipelineState) (m : PDFMaker) (a : A) (e : exn) :
  Orchestrator.guarded s m (Ok a) = Raise e -> outside_fault e.
Proof. intros H. apply guarded_fatal in H. rewrite H. exact I. Qed.

Ltac fault_solve :=
  lazymatch goal with
  | H : Orchestrator.guarded _ _ (Ok _) = Raise ?e |- outside_fault ?e =>
      exact (guarded_raises _ _ _ _ H)
  | H : Aggregator.compute_region_densities _ _ _ = Raise ?e |- outside_fault ?e =>
      exact (guarded_raises _ _ _ _ H)
  | H : Bootstrap._compute_pdf_bootstrap _ _ _ = Raise ?e |- outside_fault ?e =>
      exact (guarded_raises _ _ _ _ H)
  | H : Engine.write_pdf_to_ascii _ _ = Raise ?e |- outside_fault ?e =>
      exact (guarded_raises _ _ _ _ H)
  | H : Orchestrator.collapse_full_sample _ _ _ _ _ = Raise ?e |- outside_fault ?e =>
      exact (guarded_raises _ _ _ _ H)
  | H : Collapser.collapse_ids_to_single_estimate _ _ _ _ _ _ = Raise ?e
    |- outside_fault ?e =>
      rewrite (collapse_ids_raises _ _ _ _ _ _ _ H); exact I
  | |- outside_fault _ => exact I
  end.

Ltac returns_solve :=
  split; [inv_solve | split; [log_solve | intros; reflexivity]].

Ltac raises_solve :=
  split; [engine_shape; fault_solve
         | split; [eexists; split; [trace_solve | prefix_solve] | intros; reflexivity]].

(** Lines 92-95. *)
Lemma region_densities_conducts a (still : Prop) :
  conducts (staged a) (staged a) outside_fault (region_log a) [] still
    (PdfMaker.region_densities ext).
Proof.
  intros w Hw. open_inv. all: unfold PdfMaker.region_densities; wp_exec.
  all: first [returns_solve | raises_solve].
Qed.

(** Lines 98-104: only [compute_pdf_bootstrap] draws from the generator. *)
Lemma bootstrap_conducts a :
  conducts (staged a) (staged a) outside_fault (bootstrap_log a) []
    (bootstrap_samples a <> None) (PdfMaker.bootstrap ext).
Proof.
  intros w Hw. open_inv. all: unfold PdfMaker.bootstrap; wp_exec.
  all: try first [returns_solve | raises_solve].
  all: apply wp_compute_pdf_bootstrap_cases;
    [ intros m' seed;
      split; [inv_solve | split; [log_solve | intros Hs; congruence]]
    | intros seed;
      split; [exact I
             | split; [eexists; split; [trace_solve | prefix_solve]
                      | intros Hs; congruence]] ].
Qed.

(** Lines 106-115: all but the last statement. *)
Lemma write_out_conducts a (still : Prop) :
  conducts (staged a) (staged a) outside_fault (write_log a) [Print "Done!"] still
    (PdfMaker.write_out ext).
Proof.
  intros w Hw. open_inv. all: unfold PdfMaker.write_out; wp_exec.
  all: first [returns_solve | raises_solve].
Qed.

Lemma subscript_raises (t : PyArg) (i : nat) (e : exn) :
  subscript t i = Raise e -> e = IndexError.
Proof.
  destruct t as [s|l]; simpl.
  - destruct (String.get i s); congruence.
  - destruct (nth_error l i); congruence.
Qed.

(** Lines 22-31. *)
Lemma load_inputs_conducts (still : Prop) :
  conducts (fun w => globals w = PdfMaker.imports)
    (fun w => parsed (parse_input_pdf_args ext) w /\ holds_catalog w
              /\ globals w !! "pdf_maker" = None)
    outside_fault inputs_log [] still (PdfMaker.load_inputs ext).
Proof.
  intros w Hw.
  assert (globals w !! "input_flags" = Some (VModule "the_wizz.input_flags"))
    by (rewrite Hw; reflexivity).
  assert (globals w !! "core_utils" = Some (VModule "the_wizz.core_utils"))
    by (rewrite Hw; reflexivity).
  assert (globals w !! "pdf_maker_utils" = Some (VModule "the_wizz.pdf_maker_utils"))
    by (rewrite Hw; reflexivity).
  assert (globals w !! "np" = Some (VModule "numpy")) by (rewrite Hw; reflexivity).
  assert (globals w !! "pdf_maker" = None) by (rewrite Hw; reflexivity).
  unfold PdfMaker.load_inputs. wp_exec.
  all: first [returns_solve | raises_solve].
Qed.

(** The array that [array[:-1]] was taken of, by its shape. *)
Ltac slice_shape :=
  repeat match goal with
  | H : Engine.drop_last ?a = _ |- _ =>
      is_var a; destruct a; cbn [Engine.drop_last] in H
  | H : Raise _ = Ok _ |- _ => discriminate H
  | H : Ok _ = Raise _ |- _ => discriminate H
  | H : Ok _ = Ok ?v |- _ => is_var v; injection H as <-
  | H : Raise _ = Raise ?e |- _ => is_var e; injection H as <-
  end.

(** Lines 54-78. *)
Lemma create_bins_conducts a (still : Prop) :
  conducts (fun w => parsed a w /\ holds_catalog w /\ globals w !! "pdf_maker" = None)
    (fun w => parsed a w /\ holds_catalog w /\ holds_edges w)
    (may_raise a) (bins_log a) [] still (PdfMaker.create_bins ext).
Proof.
  intros w (Hp & Hc & Hm). open_inv. unfold PdfMaker.create_bins. wp_exec.
  all: slice_shape.
  all: try first [returns_solve | raises_solve].
  all: repeat match goal with
       | H : subscript _ _ = Raise ?e |- _ =>
           pose proof (subscript_raises _ _ _ H); subst e
       | H : String.eqb _ _ = true |- _ => apply String.eqb_eq in H; subst
       end.
  all: split; [| split; [eexists; split; [trace_solve | prefix_solve]
                        | intros; reflexivity]].
  all: try exact I.
  split; [reflexivity | assumption].
Qed.

(** Lines 87-89. *)
Lemma collapse_conducts a (still : Prop) :
  conducts (fun w => parsed a w /\ holds_catalog w /\ holds_edges w)
    (staged a) outside_fault (collapse_log Weighted) [] still (PdfMaker.collapse ext).
Proof.
  intros w (Hp & Hc & He). open_inv. all: unfold PdfMaker.collapse; wp_exec.
  all: first [returns_solve | raises_solve].
Qed.

(** [pdf_maker_full_sample.py], lines 21-33. *)
Lemma full_parse_arguments_conducts (still : Prop) :
  conducts (fun w => globals w = PdfMakerFullSample.imports)
    (parsed (parse_input_pdf_args ext))
    outside_fault (full_arguments_log (parse_input_pdf_args ext)) [] still
    (PdfMakerFullSample.parse_arguments ext).
Proof.
  intros w Hw.
  assert (globals w !! "input_flags" = Some (VModule "the_wizz.input_flags"))
    by (rewrite Hw; reflexivity).
  assert (globals w !! "core_utils" = Some (VModule "the_wizz.core_utils"))
    by (rewrite Hw; reflexivity).
  assert (globals w !! "pdf_maker_utils" = Some (VModule "the_wizz.pdf_maker_utils"))
    by (rewrite Hw; reflexivity).
  assert (globals w !! "np" = Some (VModule "numpy")) by (rewrite Hw; reflexivity).
  unfold PdfMakerFullSample.parse_arguments. wp_exec.
  all: first [returns_solve | raises_solve].
Qed.

Ltac full_raises_solve :=
  split; [try exact I
         | split; [eexists; split; [trace_solve | prefix_solve] | intros; reflexivity]].

Lemma array_max_raises (l : list Q) (e : exn) :
  array_max l = Raise e -> e = ValueError.
Proof. destruct l; simpl; congruence. Qed.

(** [pdf_maker_full_sample.py], lines 36-45. *)
Lemma full_load_inputs_conducts a (still : Prop) :
  conducts (parsed a)
    (fun w => parsed a w /\ holds_catalog w /\ holds_pairs w /\ holds_maker w)
    (full_may_raise a) (full_inputs_log ext a) [] still
    (PdfMakerFullSample.load_inputs ext).
Proof.
  intros w Hp. open_inv. unfold PdfMakerFullSample.load_inputs. wp_exec.
  all: try first [returns_solve | full_raises_solve].
  rewrite (array_max_raises _ _ Heqr). exact I.
Qed.

Lemma adaptive_raises (z_min z_max : Q) (n_bins : nat) (redshifts : list Q) (e : exn) :
  Binner.adaptive z_min z_max n_bins redshifts = Raise e -> e = BinningError.
Proof.
  unfold Binner.adaptive. destruct (_ <? _); congruence.
Qed.

(** [pdf_maker_full_sample.py], lines 68-89. *)
Lemma full_create_bins_conducts a (still : Prop) :
  conducts (fun w => parsed a w /\ holds_catalog w /\ holds_pairs w /\ holds_maker w)
    (fun w => parsed a w /\ holds_catalog w /\ holds_pairs w /\ holds_maker w
              /\ holds_edges w)
    (full_may_raise a) (full_bins_log a) [] still
    (PdfMakerFullSample.create_bins ext).
Proof.
  intros w (Hp & Hc & Hh & Hm). open_inv. unfold PdfMakerFullSample.create_bins.
  wp_exec.
  all: try first [returns_solve | full_raises_solve].
  rewrite (adaptive_raises _ _ _ _ _ Heqr). exact Heqb0.
Qed.

(** [pdf_maker_full_sample.py], lines 98-100. *)
Lemma full_collapse_conducts a (still : Prop) :
  conducts (fun w => parsed a w /\ holds_catalog w /\ holds_pairs w /\ holds_maker w
                     /\ holds_edges w)
    (staged a) outside_fault (collapse_log FullSample) [] still
    (PdfMakerFullSample.collapse ext).
Proof.
  intros w (Hp & Hc & Hh & Hm & He). open_inv.
  all: unfold PdfMakerFullSample.collapse; wp_exec.
  all: first [returns_solve | raises_solve].
Qed.

(** One statement sequence after the other. *)
Lemma conducts_seq {A B} (pre mid post : World -> Prop) (may : exn -> Prop)
    (log1 log2 final : list Event) (still : Prop) (c : M A) (k : A -> M B) :
  conducts pre mid may log1 [] still c ->
  (forall x, conducts mid post may log2 final still (k x)) ->
  conducts pre post may (log1 ++ log2) final still (bind c k).
Proof.
  intros Hc Hk w Hw. apply wp_bind.
  eapply wp_conseq; [apply Hc, Hw | |].
  - intros x w1 (Hmid & Ht & Hr). rewrite app_nil_r in Ht.
    eapply wp_conseq; [apply (Hk x), Hmid | |].
    + intros y w2 (Hpost & Ht2 & Hr2). split; [exact Hpost | split].
      * rewrite Ht2, Ht, <- !app_assoc. reflexivity.
      * intros Hs. rewrite (Hr2 Hs). apply Hr, Hs.
    + intros e w2 (He & (t & Ht2 & Hpre) & Hr2). split; [exact He | split].
      * exists (log1 ++ t). split.
        -- rewrite Ht2, Ht, <- app_assoc. reflexivity.
        -- apply prefix_app, Hpre.
      * intros Hs. rewrite (Hr2 Hs). apply Hr, Hs.
  - intros e w1 (He & (t & Ht & Hpre) & Hr). split; [exact He | split].
    + exists t. split; [exact Ht | apply prefix_app_r, Hpre].
    + exact Hr.
Qed.

Lemma conducts_may {A} (pre post : World -> Prop) (may may' : exn -> Prop)
    (log final : list Event) (still : Prop) (c : M A) :
  (forall e, may e -> may' e) ->
  conducts pre post may log final still c ->
  conducts pre post may' log final still c.
Proof.
  intros Hmay Hc w Hw.
  eapply wp_conseq; [apply Hc, Hw | |].
  - intros x w' H. exact H.
  - intros e w' (H1 & H2 & H3). auto.
Qed.

Lemma outside_may_raise a (e : exn) : outside_fault e -> may_raise a e.
Proof. destruct e; simpl; tauto. Qed.

Lemma outside_full_may_raise a (e : exn) : outside_fault e -> full_may_raise a e.
Proof. destruct e; simpl; tauto. Qed.

(** After the pairs are collapsed: lines 92-116 of [pdf_maker.py], lines
    103-126 of [pdf_maker_full_sample.py]. *)
Lemma after_collapse_conducts a :
  conducts (staged a) (staged a) outside_fault
    (region_log a ++ bootstrap_log a ++ write_log a) [Print "Done!"]
    (bootstrap_samples a <> None)
    (PdfMaker.region_densities ext ;; PdfMaker.bootstrap ext ;; PdfMaker.write_out ext).
Proof.
  eapply conducts_seq; [apply region_densities_conducts |]. intros _.
  eapply conducts_seq; [apply bootstrap_conducts |]. intros _.
  apply write_out_conducts.
Qed.

(** The whole of [pdf_maker.py]. *)
Lemma main_conducts :
  conducts (fun w => globals w = PdfMaker.imports)
    (staged (parse_input_pdf_args ext))
    (may_raise (parse_input_pdf_args ext))
    (body_log Weighted ext) [Print "Done!"]
    (bootstrap_samples (parse_input_pdf_args ext) <> None)
    (PdfMaker.main ext).
Proof.
  unfold PdfMaker.main, PdfMaker.pipeline, body_log, pipeline_log.
  eapply conducts_seq.
  { apply (conducts_may _ _ _ _ _ _ _ _ (outside_may_raise _)), load_inputs_conducts. }
  intros _. eapply conducts_seq; [apply create_bins_conducts |]. intros _.
  eapply conducts_seq.
  { apply (conducts_may _ _ _ _ _ _ _ _ (outside_may_raise _)), collapse_conducts. }
  intros _.
  apply (conducts_may _ _ _ _ _ _ _ _ (outside_may_raise _)), after_collapse_conducts.
Qed.

(** The whole of [pdf_maker_full_sample.py]. *)
Lemma full_main_conducts :
  conducts (fun w => globals w = PdfMakerFullSample.imports)
    (staged (parse_input_pdf_args ext))
    (full_may_raise (parse_input_pdf_args ext))
    (body_log FullSample ext) [Print "Done!"]
    (bootstrap_samples (parse_input_pdf_args ext) <> None)
    (PdfMakerFullSample.main ext).
Proof.
  unfold PdfMakerFullSample.main, PdfMakerFullSample.pipeline, body_log, pipeline_log.
  eapply conducts_seq.
  { apply (conducts_may _ _ _ _ _ _ _ _ (outside_full_may_raise _)),
      full_parse_arguments_conducts. }
  intros _. eapply conducts_seq; [apply full_load_inputs_conducts |]. intros _.
  eapply conducts_seq; [apply full_create_bins_conducts |]. intros _.
  eapply conducts_seq.
  { apply (conducts_may _ _ _ _ _ _ _ _ (outside_full_may_raise _)),
      full_collapse_conducts. }
  intros _.
  apply (conducts_may _ _ _ _ _ _ _ _ (outside_full_may_raise _)).
  exact (after_collapse_conducts _).
Qed.

End Conducts.

(** What every run of either script shows, whatever the environment. *)
Lemma run_conducts (s : Logic.Script) (ext : Py.External) (seed : N) :
  match Logic.run_script s ext seed with
  | (Ok _, w') =>
      Py.trace w' = Conduct.script_log s ext
      /\ (Py.bootstrap_samples (Py.parse_input_pdf_args ext) <> None -> Py.rng w' = seed)
  | (Raise e, w') =>
      Conduct.may_raise_of s (Py.parse_input_pdf_args ext) e
      /\ Py.trace w' `prefix_of` Conduct.body_log s ext
      /\ (Py.bootstrap_samples (Py.parse_input_pdf_args ext) <> None -> Py.rng w' = seed)
  end.
Proof.
  destruct s; simpl.
  - pose proof (main_conducts ext (PdfMaker.start seed) eq_refl) as H.
    apply wp_run in H. unfold PdfMaker.run.
    destruct (PdfMaker.main ext (PdfMaker.start seed)) as [[[]|e] w'].
    + destruct H as (_ & Ht & Hr). split; [exact Ht | exact Hr].
    + destruct H as (He & (t & Ht & Hp) & Hr). split; [exact He | split; [| exact Hr]].
      rewrite Ht. exact Hp.
  - pose proof (full_main_conducts ext (PdfMakerFullSample.start seed) eq_refl) as H.
    apply wp_run in H. unfold PdfMakerFullSample.run.
    destruct (PdfMakerFullSample.main ext (PdfMakerFullSample.start seed))
      as [[[]|e] w'].
    + destruct H as (_ & Ht & Hr). split; [exact Ht | exact Hr].
    + destruct H as (He & (t & Ht & Hp) & Hr). split; [exact He | split; [| exact Hr]].
      rewrite Ht. exact Hp.
Qed.

(** ** What every run shows *)

Section TraceFacts.
Import Py Conduct.

Lemma existsb_elem_of (P : Event -> bool) (t : list Event) :
  existsb P t = true <-> exists e, e ∈ t /\ P e = true.
Proof.
  rewrite existsb_exists. split; intros (e & He & HP); exists e; split; auto.
  - apply list_elem_of_In, He.
  - apply list_elem_of_In, He.
Qed.

Lemma existsb_prefix (P : Event -> bool) (t l : list Event) :
  t `prefix_of` l -> existsb P l = false -> existsb P t = false.
Proof.
  intros [k ->]. rewrite existsb_app. intros H.
  apply orb_false_iff in H as [H _]. exact H.
Qed.

Lemma elem_of_existsb (P : Event -> bool) (e : Event) (t : list Event) :
  e ∈ t -> P e = true -> existsb P t = true.
Proof. intros He HP. apply existsb_elem_of. exists e. auto. Qed.

Lemma after_first_prefix (A B : Event -> bool) (t l : list Event) (seen : bool) :
  t `prefix_of` l -> after_first A B seen l = true -> after_first A B seen t = true.
Proof.
  intros [k ->]. revert seen. induction t as [|e t IH]; intros seen; [reflexivity |].
  simpl. intros H. apply andb_true_iff in H as [H1 H2].
  rewrite H1. simpl. apply IH, H2.
Qed.

Lemma after_first_seen (A B : Event -> bool) (t : list Event) (seen : bool) :
  after_first A B seen t = true ->
  forall i e, t !! i = Some e -> B e = true ->
    seen = true \/ exists j e', j < i /\ t !! j = Some e' /\ A e' = true.
Proof.
  revert seen. induction t as [|x t IH]; intros seen H i e Hi HB.
  - rewrite lookup_nil in Hi. discriminate.
  - simpl in H. apply andb_true_iff in H as [H1 H2]. destruct i as [|i].
    + simpl in Hi. injection Hi as ->. rewrite HB in H1. simpl in H1. left. exact H1.
    + simpl in Hi. destruct (IH _ H2 i e Hi HB) as [Hs | (j & e' & Hj & He' & HA)].
      * apply orb_true_iff in Hs as [Hs | Hs]; [left; exact Hs |].
        right. exists 0, x. split; [lia | split; [reflexivity | exact Hs]].
      * right. exists (S j), e'. split; [lia | split; [exact He' | exact HA]].
Qed.

Lemma after_first_mono (A B : Event -> bool) (t : list Event) (seen x : bool) :
  after_first A B seen t = true -> after_first A B (seen || x) t = true.
Proof.
  revert seen. induction t as [|e t IH]; intros seen; [reflexivity |].
  simpl. intros H. apply andb_true_iff in H as [H1 H2]. apply andb_true_iff. split.
  - destruct (B e), seen; simpl in *; congruence.
  - replace (seen || x || A e) with (seen || A e || x)
      by (destruct seen, x, (A e); reflexivity).
    apply IH, H2.
Qed.

(** A stretch in front with events of neither kind changes nothing. *)
Lemma after_first_quiet_front (A B : Event -> bool) (l1 l2 : list Event) (seen : bool) :
  existsb A l1 = false ->
  existsb B l1 = false ->
  after_first A B seen l2 = true ->
  after_first A B seen (l1 ++ l2) = true.
Proof.
  intros _. revert seen. induction l1 as [|e l1 IH]; intros seen Hq H; [exact H |].
  simpl in Hq. apply orb_false_iff in Hq as [He Hq].
  simpl. rewrite He. simpl. apply IH; [exact Hq |]. apply after_first_mono, H.
Qed.

(** The monitor decides the order of events. *)
Lemma after_first_comes_after (A B : Event -> bool) (t : list Event) :
  after_first A B false t = true -> comes_after A B t.
Proof.
  intros H i e Hi HB.
  destruct (after_first_seen A B t false H i e Hi HB) as [Hs | Hj];
    [discriminate | exact Hj].
Qed.

End TraceFacts.

(** An event of some kind is in none of the parts of a log. *)
Ltac absent_cases :=
  unfold Conduct.script_log, Conduct.body_log, Conduct.pipeline_log;
  rewrite ?existsb_app;
  repeat match goal with
         | |- (_ || _)%bool = false => apply orb_false_intro
         end;
  unfold Conduct.region_log, Conduct.bootstrap_log, Conduct.write_log,
    Conduct.collapse_log, Conduct.optional_write, Conduct.bins_log,
    Conduct.full_bins_log, Conduct.inputs_log, Conduct.full_arguments_log,
    Conduct.full_inputs_log;
  repeat case_match; try reflexivity; try congruence.

Ltac unfold_parts :=
  unfold Conduct.region_log, Conduct.bootstrap_log, Conduct.write_log,
    Conduct.collapse_log, Conduct.optional_write, Conduct.bins_log,
    Conduct.full_bins_log, Conduct.inputs_log, Conduct.full_arguments_log,
    Conduct.full_inputs_log.

(** The order of two kinds of event in a log: the parts in front that hold
    no event of either kind are passed over, the rest is checked case by
    case. *)
Ltac order_cases :=
  unfold Conduct.script_log, Conduct.body_log, Conduct.pipeline_log;
  rewrite <- ?app_assoc;
  repeat (apply after_first_quiet_front;
          [ solve [unfold_parts; repeat case_match; reflexivity]
          | solve [unfold_parts; repeat case_match; reflexivity] |]);
  unfold_parts; repeat case_match; reflexivity.

Section RunFacts.
Import Py Logic Conduct.

Variable s : Script.
Variable ext : External.
Variable seed : N.

Lemma no_done_in_body : existsb (print_of "Done!") (body_log s ext) = false.
Proof. destruct s; absent_cases. Qed.

Lemma file_after_densities_log :
  after_first (call_of "pdf_maker.compute_region_densities") is_create false
    (script_log s ext) = true.
Proof. destruct s; order_cases. Qed.

Lemma densities_after_collapse_log :
  after_first collapsing (call_of "pdf_maker.compute_region_densities") false
    (script_log s ext) = true.
Proof. destruct s; order_cases. Qed.

Lemma bootstrap_after_densities_log :
  after_first (call_of "pdf_maker.compute_region_densities") bootstrapping false
    (script_log s ext) = true.
Proof. destruct s; order_cases. Qed.

Lemma write_after_bootstrap_log :
  after_first bootstrapping (call_of "pdf_maker.write_pdf_to_ascii") false
    (script_log s ext) = true.
Proof. destruct s; order_cases. Qed.

(** The trace of a run is an initial segment of the script's log. *)
Lemma run_trace_prefix :
  trace (run_script s ext seed).2 `prefix_of` script_log s ext.
Proof.
  pose proof (run_conducts s ext seed) as H.
  destruct (run_script s ext seed) as [[[]|e] w']; simpl.
  - destruct H as [-> _]. reflexivity.
  - destruct H as (_ & Hp & _). apply prefix_app_r, Hp.
Qed.

Lemma run_raises_prefix (e : exn) (w' : World) :
  run_script s ext seed = (Raise e, w') -> trace w' `prefix_of` body_log s ext.
Proof.
  intros Hrun. pose proof (run_conducts s ext seed) as H.
  rewrite Hrun in H. apply H.
Qed.

Lemma run_returns_log (w' : World) :
  run_script s ext seed = (Ok tt, w') -> trace w' = script_log s ext.
Proof.
  intros Hrun. pose proof (run_conducts s ext seed) as H.
  rewrite Hrun in H. apply H.
Qed.

End RunFacts.

(** X1: the trace of every run of either script is an initial segment of
    the log that the arguments and the files determine, and the whole of it
    exactly when the run completes. *)
Theorem run_follows_script_log (s : Logic.Script) (ext : Py.External) (seed : N) :
  Py.trace (Logic.run_script s ext seed).2 `prefix_of` Conduct.script_log s ext
  /\ ((Logic.run_script s ext seed).1 = Ok tt
      <-> Py.trace (Logic.run_script s ext seed).2 = Conduct.script_log s ext).
Proof.
  split; [apply run_trace_prefix |].
  destruct (Logic.run_script s ext seed) as [[[]|e] w'] eqn:Hrun; simpl.
  - split; [intros _; apply (run_returns_log _ _ _ _ Hrun) | reflexivity].
  - split; [discriminate |]. intros Ht. exfalso.
    pose proof (run_raises_prefix _ _ _ _ _ Hrun) as Hp.
    apply prefix_length in Hp. rewrite Ht in Hp.
    unfold Conduct.script_log in Hp. rewrite length_app in Hp. simpl in Hp. lia.
Qed.

(** X2: "Done!" is printed exactly by the runs that complete. *)
Theorem done_iff_completed (s : Logic.Script) (ext : Py.External) (seed : N) :
  Py.Print "Done!" ∈ Py.trace (Logic.run_script s ext seed).2
  <-> (Logic.run_script s ext seed).1 = Ok tt.
Proof.
  destruct (Logic.run_script s ext seed) as [[[]|e] w'] eqn:Hrun; simpl.
  - split; [reflexivity | intros _].
    rewrite (run_returns_log _ _ _ _ Hrun). unfold Conduct.script_log.
    apply elem_of_app. right. apply list_elem_of_singleton. reflexivity.
  - split; [| discriminate]. intros Hin. exfalso.
    pose proof (existsb_prefix (Conduct.print_of "Done!") _ _
                  (run_raises_prefix _ _ _ _ _ Hrun) (no_done_in_body s ext)) as Hno.
    rewrite (elem_of_existsb _ _ _ Hin eq_refl) in Hno. discriminate.
Qed.

(** X3: in every run, complete or not, a file is created only after
    [compute_region_densities] has been called. *)
Theorem files_after_region_densities (s : Logic.Script) (ext : Py.External)
    (seed : N) :
  Conduct.comes_after (Conduct.call_of "pdf_maker.compute_region_densities")
    Conduct.is_create (Py.trace (Logic.run_script s ext seed).2).
Proof.
  apply after_first_comes_after.
  apply (after_first_prefix _ _ _ _ _ (run_trace_prefix s ext seed)).
  apply file_after_densities_log.
Qed.

(** X4: in every run the engine is entered in the order of the pipeline:
    the region densities only after the pairs are collapsed, the bootstrap
    only after the region densities, [write_pdf_to_ascii] only after the
    bootstrap. *)
Theorem engine_calls_in_order (s : Logic.Script) (ext : Py.External) (seed : N) :
  Conduct.comes_after Conduct.collapsing
    (Conduct.call_of "pdf_maker.compute_region_densities")
    (Py.trace (Logic.run_script s ext seed).2)
  /\ Conduct.comes_after (Conduct.call_of "pdf_maker.compute_region_densities")
       Conduct.bootstrapping (Py.trace (Logic.run_script s ext seed).2)
  /\ Conduct.comes_after Conduct.bootstrapping
       (Conduct.call_of "pdf_maker.write_pdf_to_ascii")
       (Py.trace (Logic.run_script s ext seed).2).
Proof.
  split; [| split]; apply after_first_comes_after;
    apply (after_first_prefix _ _ _ _ _ (run_trace_prefix s ext seed)).
  - apply densities_after_collapse_log.
  - apply bootstrap_after_densities_log.
  - apply write_after_bootstrap_log.
Qed.

Section OptionalSteps.
Import Py Logic Conduct.

Variable s : Script.
Variable ext : External.

Lemma call_of_eq (f : string) (e : Event) : call_of f e = true -> e = Call f.
Proof. destruct e; simpl; try discriminate. intros H. apply String.eqb_eq in H. congruence. Qed.

Lemma not_called_prefix (f : string) (t : list Event) :
  t `prefix_of` script_log s ext ->
  existsb (call_of f) (script_log s ext) = false ->
  Call f ∉ t.
Proof.
  intros Hp Hno Hin. pose proof (existsb_prefix _ _ _ Hp Hno) as Ht.
  rewrite (elem_of_existsb (call_of f) _ _ Hin) in Ht; [discriminate |].
  simpl. apply String.eqb_refl.
Qed.

Lemma no_snapshot_log :
  output_region_pickle_file (parse_input_pdf_args ext) = None ->
  existsb (call_of "pdf_maker.write_region_densities") (script_log s ext) = false.
Proof. intros H. destruct s; absent_cases. Qed.

Lemma no_bootstraps_file_log :
  output_bootstraps_file (parse_input_pdf_args ext) = None ->
  existsb (call_of "pdf_maker.write_bootstrap_samples_to_ascii") (script_log s ext)
  = false.
Proof. intros H. destruct s; absent_cases. Qed.



Lemma region_log_in_script (e : Event) :
  e ∈ region_log (parse_input_pdf_args ext) -> e ∈ script_log s ext.
Proof.
  intros H. unfold script_log, body_log, pipeline_log.
  destruct s; rewrite !elem_of_app; tauto.
Qed.

Lemma write_log_in_script (e : Event) :
  e ∈ write_log (parse_input_pdf_args ext) -> e ∈ script_log s ext.
Proof.
  intros H. unfold script_log, body_log, pipeline_log.
  destruct s; rewrite !elem_of_app; tauto.
Qed.

End OptionalSteps.

(** X5: the two optional files.  In no run is [write_region_densities] or
    [write_bootstrap_samples_to_ascii] called without its file name among
    the arguments; a run that completes with the name given has made the
    call and created the file. *)
Theorem optional_outputs (s : Logic.Script) (ext : Py.External) (seed : N) :
  (Py.Call "pdf_maker.write_region_densities" ∈ Py.trace (Logic.run_script s ext seed).2
   -> Py.output_region_pickle_file (Py.parse_input_pdf_args ext) <> None)
  /\ (Py.Call "pdf_maker.write_bootstrap_samples_to_ascii"
        ∈ Py.trace (Logic.run_script s ext seed).2
      -> Py.output_bootstraps_file (Py.parse_input_pdf_args ext) <> None)
  /\ ((Logic.run_script s ext seed).1 = Ok tt ->
      (forall path,
         Py.output_region_pickle_file (Py.parse_input_pdf_args ext) = Some path ->
         Py.Call "pdf_maker.write_region_densities"
           ∈ Py.trace (Logic.run_script s ext seed).2
         /\ Py.Create path ∈ Py.trace (Logic.run_script s ext seed).2)
      /\ (forall path,
            Py.output_bootstraps_file (Py.parse_input_pdf_args ext) = Some path ->
            Py.Call "pdf_maker.write_bootstrap_samples_to_ascii"
              ∈ Py.trace (Logic.run_script s ext seed).2
            /\ Py.Create path ∈ Py.trace (Logic.run_script s ext seed).2)).
Proof.
  split; [| split].
  - intros Hin Hnone.
    exact (not_called_prefix s ext _ _ (run_trace_prefix s ext seed)
             (no_snapshot_log s ext Hnone) Hin).
  - intros Hin Hnone.
    exact (not_called_prefix s ext _ _ (run_trace_prefix s ext seed)
             (no_bootstraps_file_log s ext Hnone) Hin).
  - intros Hok.
    destruct (Logic.run_script s ext seed) as [[[]|e] w'] eqn:Hrun; [| discriminate].
    simpl. rewrite (run_returns_log _ _ _ _ Hrun). split; intros path Hp.
    + split; apply region_log_in_script; unfold Conduct.region_log; rewrite Hp;
        simpl; set_solver.
    + split; apply write_log_in_script; unfold Conduct.write_log; rewrite Hp;
        simpl; set_solver.
Qed.


(** X7: the errors that the scripts' own statements settle.  A run of
    pdf_maker.py ends in a NameError only for the name pdf_maker under the
    adaptive policy, and never in a BinningError, the adaptive binner being
    out of its reach; a run of pdf_maker_full_sample.py never ends in a
    NameError, and in a BinningError only when the argument is the string
    'adaptive'.  Nothing is said of the other exceptions (IndexError,
    ValueError, IOError, ...), which the argument, numpy and the engine
    can raise. *)
Theorem errors_of_runs (s : Logic.Script) (ext : Py.External) (seed : N)
    (e : exn) (w' : Py.World) :
  Logic.run_script s ext seed = (Raise e, w') ->
  Conduct.may_raise_of s (Py.parse_input_pdf_args ext) e.
Proof.
  intros Hrun. pose proof (run_conducts s ext seed) as H.
  rewrite Hrun in H. apply H.
Qed.

(** ** The policies by name *)

Section NamedPolicies.
Import Py Logic Conduct.
Local Open Scope py_scope.

Variable ext : External.

(** X8: in pdf_maker.py a first element 'linear', 'comoving' or 'logspace'
    calls the engine function of that name with (z_min, z_max, z_n_bins)
    and binds its result to z_bin_edge_array; nothing but "Creating
    bins..." is printed. *)
Theorem named_policy_dispatch (a : Namespace) (name : string) (w : World) :
  bound a w ->
  subscript (z_binning_type a) 0 = Ok name ->
  name ∈ ["linear"; "comoving"; "logspace"] ->
  PdfMaker.create_bins ext w
  = (Ok tt,
     set_global "z_bin_edge_array" (VEdges (policy_edges ext name a))
       (add_event (Call ("pdf_maker_utils._create_" ++ name ++ "_redshift_bin_edges"))
          (add_event (Print "Creating bins...") w))).
Proof.
  intros (Hargs & [v1 Hutils] & [v2 Hnp]) Hsub Hname.
  apply wp_returns. unfold PdfMaker.create_bins.
  repeat (apply elem_of_cons in Hname as [-> | Hname]);
    [| | | apply elem_of_nil in Hname; destruct Hname].
  all: wp_exec; split; reflexivity.
Qed.

(** X9: in pdf_maker_full_sample.py the same holds when the argument is the
    string 'linear', 'comoving' or 'logspace' itself. *)
Theorem full_named_policy_dispatch (a : Namespace) (name : string) (w : World) :
  bound a w ->
  z_binning_type a = PyStr name ->
  name ∈ ["linear"; "comoving"; "logspace"] ->
  PdfMakerFullSample.create_bins ext w
  = (Ok tt,
     set_global "z_bin_edge_array" (VEdges (policy_edges ext name a))
       (add_event (Call ("pdf_maker_utils._create_" ++ name ++ "_redshift_bin_edges"))
          (add_event (Print "Creating bins...") w))).
Proof.
  intros (Hargs & [v1 Hutils] & [v2 Hnp]) Harg Hname.
  apply wp_returns. unfold PdfMakerFullSample.create_bins.
  repeat (apply elem_of_cons in Hname as [-> | Hname]);
    [| | | apply elem_of_nil in Hname; destruct Hname].
  all: repeat (wp_exec_step; rewrite ?Harg; cbn [eq_str String.eqb Ascii.eqb Bool.eqb]).
  all: split; reflexivity.
Qed.

(** The inputs of pdf_maker_full_sample.py are loaded: lines 21-45. *)
Lemma full_front_conducts :
  conducts (fun w => globals w = PdfMakerFullSample.imports)
    (fun w => parsed (parse_input_pdf_args ext) w /\ holds_catalog w
              /\ holds_pairs w /\ holds_maker w)
    (full_may_raise (parse_input_pdf_args ext))
    (full_arguments_log (parse_input_pdf_args ext)
     ++ full_inputs_log ext (parse_input_pdf_args ext)) [] True
    (PdfMakerFullSample.parse_arguments ext ;; PdfMakerFullSample.load_inputs ext).
Proof.
  eapply conducts_seq.
  - apply (conducts_may _ _ _ _ _ _ _ _ (outside_full_may_raise _)),
      full_parse_arguments_conducts.
  - intros _. apply full_load_inputs_conducts.
Qed.

(** X10: in pdf_maker_full_sample.py the adaptive policy reaches the binner:
    once the inputs are loaded the name pdf_maker is bound, and the bin
    creation hands the reference redshifts of that object to the adaptive
    binner and ends as the binner does. *)
Theorem full_adaptive_reaches_binner (seed : N) (w1 : World) :
  (PdfMakerFullSample.parse_arguments ext ;; PdfMakerFullSample.load_inputs ext)
    (PdfMakerFullSample.start seed) = (Ok tt, w1) ->
  z_binning_type (parse_input_pdf_args ext) = PyStr "adaptive" ->
  exists m,
    globals w1 !! "pdf_maker" = Some (VMaker m)
    /\ PdfMakerFullSample.create_bins ext w1
       = match Binner.adaptive (z_min (parse_input_pdf_args ext))
                 (z_max (parse_input_pdf_args ext))
                 (z_n_bins (parse_input_pdf_args ext))
                 (reference_redshift_array m) with
         | Ok edges =>
             (Ok tt,
              set_global "z_bin_edge_array" (VEdges edges)
                (add_event (Call "pdf_maker_utils._create_adaptive_redshift_bin_edges")
                   (add_event (Print "Creating bins...") w1)))
         | Raise e =>
             (Raise e,
              add_event (Call "pdf_maker_utils._create_adaptive_redshift_bin_edges")
                (add_event (Print "Creating bins...") w1))
         end.
Proof.
  intros Hfront Harg.
  pose proof (full_front_conducts (PdfMakerFullSample.start seed) eq_refl) as H.
  apply wp_run in H. rewrite Hfront in H. destruct H as ((Hp & Hc & Hh & Hm) & _).
  open_inv. eexists. split; [eassumption |].
  destruct (Binner.adaptive _ _ _ _) as [edges|e] eqn:Hb.
  - apply wp_returns. unfold PdfMakerFullSample.create_bins.
    repeat (wp_exec_step; rewrite ?Harg; cbn [eq_str String.eqb Ascii.eqb Bool.eqb]).
    split; reflexivity.
  - apply wp_raises. unfold PdfMakerFullSample.create_bins.
    repeat (wp_exec_step; rewrite ?Harg; cbn [eq_str String.eqb Ascii.eqb Bool.eqb]).
    split; reflexivity.
Qed.

Lemma one_letter_no_policy (c : Ascii.ascii) :
  String c EmptyString ∉ ["linear"; "adaptive"; "comoving"; "logspace"; "file"].
Proof.
  intros Hin.
  repeat (apply elem_of_cons in Hin as [Hin | Hin]; [discriminate Hin |]).
  apply elem_of_nil in Hin. exact Hin.
Qed.

(** X11: pdf_maker.py reads the first element of the argument, so a plain
    string names no policy: whatever non-empty string is given, 'linear'
    included, the invalid-name warning is printed and the linear edges are
    used. *)
Theorem string_argument_falls_back (a : Namespace) (s : string) (w : World) :
  bound a w ->
  z_binning_type a = PyStr s ->
  s <> EmptyString ->
  exists w',
    PdfMaker.create_bins ext w = (Ok tt, w')
    /\ globals w' !! "z_bin_edge_array"
       = Some (VEdges (Binner.linear (z_min a) (z_max a) (z_n_bins a)))
    /\ Print "Requested binning name invalid. Valid types are:" ∈ trace w'.
Proof.
  intros Hb Harg Hs. destruct s as [|c s]; [congruence |].
  destruct (create_bins_fallback ext a (String c EmptyString) w Hb)
    as (w' & Hrun & Hg & Ht & _).
  - rewrite Harg. reflexivity.
  - apply one_letter_no_policy.
  - exists w'. split; [exact Hrun | split].
    + rewrite Hg. apply lookup_insert_eq.
    + rewrite Ht. set_solver.
Qed.

(** X12: pdf_maker_full_sample.py compares the whole argument with the
    names, so a list names no policy: whatever list is given, ['linear']
    and ['adaptive'] included, the invalid-name warning is printed and the
    linear edges are used. *)
Theorem list_argument_falls_back (a : Namespace) (l : list string) (w : World) :
  bound a w ->
  z_binning_type a = PyList l ->
  exists w',
    PdfMakerFullSample.create_bins ext w = (Ok tt, w')
    /\ globals w' !! "z_bin_edge_array"
       = Some (VEdges (Binner.linear (z_min a) (z_max a) (z_n_bins a)))
    /\ Print "Requested binning name invalid. Valid types are:" ∈ trace w'.
Proof.
  intros Hb Harg.
  destruct (full_create_bins_fallback ext a w Hb) as (w' & Hrun & Hg & Ht & _).
  - intros n _. rewrite Harg. reflexivity.
  - exists w'. split; [exact Hrun | split].
    + rewrite Hg. apply lookup_insert_eq.
    + rewrite Ht. set_solver.
Qed.

(** X13: where the argument of pdf_maker.py has no element to read (no
    first element, or 'file' with no path after it) the bin creation stops
    with an IndexError right after "Creating bins...", before any call. *)
Theorem short_argument_index_error (a : Namespace) (w : World) :
  bound a w ->
  subscript (z_binning_type a) 0 = Raise IndexError
  \/ (subscript (z_binning_type a) 0 = Ok "file"
      /\ subscript (z_binning_type a) 1 = Raise IndexError) ->
  PdfMaker.create_bins ext w
  = (Raise IndexError, add_event (Print "Creating bins...") w).
Proof.
  intros (Hargs & [v1 Hutils] & [v2 Hnp]) [H0 | [H0 H1]].
  - apply wp_raises. unfold PdfMaker.create_bins. wp_exec. split; reflexivity.
  - apply wp_raises. unfold PdfMaker.create_bins. wp_exec. split; reflexivity.
Qed.

End NamedPolicies.

(** ** The reference redshifts against z_max *)

Section ZMaxWarning.
Import Py Logic Conduct.
Local Open Scope py_scope.

Variable ext : External.

Lemma larger_below (x y hi : Q) :
  ((if Qle_bool x y then y else x) < hi)%Q <-> (x < hi)%Q /\ (y < hi)%Q.
Proof.
  destruct (Qle_bool x y) eqn:Hxy.
  - apply Qle_bool_iff in Hxy. split; [| tauto].
    intros H. split; [| exact H]. eapply Qle_lt_trans; eassumption.
  - assert (Hyx : (y < x)%Q).
    { apply Qnot_le_lt. intros Hle. apply Qle_bool_iff in Hle. congruence. }
    split; [| tauto]. intros H. split; [exact H |]. eapply Qlt_trans; eassumption.
Qed.

Lemma foldl_larger_below (rest : list Q) (x hi : Q) :
  (foldl (fun a b => if Qle_bool a b then b else a) x rest < hi)%Q
  <-> (x < hi)%Q /\ Forall (fun z => (z < hi)%Q) rest.
Proof.
  revert x. induction rest as [|y rest IH]; intros x; simpl.
  - split; [intros H; split; [exact H | constructor] | tauto].
  - rewrite IH, larger_below, Forall_cons. tauto.
Qed.

(** [array.max()] is below a bound exactly when every element is. *)
Lemma array_max_below (l : list Q) (top hi : Q) :
  array_max l = Ok top ->
  (top < hi)%Q <-> Forall (fun z => (z < hi)%Q) l.
Proof.
  destruct l as [|x rest]; simpl; [discriminate |]. intros [= <-].
  rewrite foldl_larger_below, Forall_cons. tauto.
Qed.

(** X14: pdf_maker_full_sample.py, lines 41-45.  When the inputs are loaded,
    the object bound to pdf_maker has at least one reference redshift (an
    empty array stops the run at [max()]), and the warning about z_max has
    been printed exactly when every reference redshift is below z_max. *)
Theorem z_max_warning (seed : N) (w1 : World) (m : PDFMaker) :
  (PdfMakerFullSample.parse_arguments ext ;; PdfMakerFullSample.load_inputs ext)
    (PdfMakerFullSample.start seed) = (Ok tt, w1) ->
  globals w1 !! "pdf_maker" = Some (VMaker m) ->
  reference_redshift_array m <> []
  /\ (Print "WARNING: requested z_max is greater than available reference redshifts."
       ∈ trace w1
     <-> forall z, z ∈ reference_redshift_array m ->
                   (z < z_max (parse_input_pdf_args ext))%Q).
Proof.
  intros Hfront Hm.
  assert (H : wp (PdfMakerFullSample.parse_arguments ext ;;
                  PdfMakerFullSample.load_inputs ext)
                (fun _ w' =>
                   forall m', globals w' !! "pdf_maker" = Some (VMaker m') ->
                     reference_redshift_array m' <> []
                     /\ (Print "WARNING: requested z_max is greater than available reference redshifts."
                          ∈ trace w'
                        <-> Forall (fun z => (z < z_max (parse_input_pdf_args ext))%Q)
                              (reference_redshift_array m')))
                (fun _ _ => True) (PdfMakerFullSample.start seed)).
  { unfold PdfMakerFullSample.parse_arguments, PdfMakerFullSample.load_inputs.
    wp_exec; try exact I.
    all: intros m' Hm'; norm_lookups.
    all: split; [intros Hnil; rewrite Hnil in *; discriminate |].
    all: rewrite <- (array_max_below _ _ _ Heqr), <- Qlt_bool_iff.
    all: match goal with H : Binner.Qlt_bool _ _ = _ |- _ => rewrite H end.
    all: split; [| try discriminate; intros _].
    all: try (intros Hin; exfalso;
              apply (elem_of_existsb
                       (print_of "WARNING: requested z_max is greater than available reference redshifts."))
                in Hin; [| reflexivity]; vm_compute in Hin; discriminate).
    all: try reflexivity.
    all: cbn [trace add_event set_global]; set_solver. }
  apply wp_run in H. rewrite Hfront in H. specialize (H m Hm).
  destruct H as [Hne Hiff]. split; [exact Hne |].
  rewrite Hiff, Forall_forall. reflexivity.
Qed.

End ZMaxWarning.

(** ** The same on the sample survey *)

Section RunsOfTheSample.
Import Py Logic Conduct.
Local Open Scope py_scope.

Lemma files_after_region_densities_witness :
  trace (run_script Weighted (Sample.survey Sample.linear_args false) 0).2 !! 13
  = Some (Create "regions.pkl")
  /\ exists j e',
       j < 13
       /\ trace (run_script Weighted (Sample.survey Sample.linear_args false) 0).2 !! j
          = Some e'
       /\ call_of "pdf_maker.compute_region_densities" e' = true.
Proof.
  assert (H : trace (run_script Weighted (Sample.survey Sample.linear_args false) 0).2
                !! 13 = Some (Create "regions.pkl")) by (vm_compute; reflexivity).
  split; [exact H |].
  apply (files_after_region_densities Weighted (Sample.survey Sample.linear_args false)
           0 13 (Create "regions.pkl") H).
  reflexivity.
Defined.

Lemma optional_outputs_witness :
  Call "pdf_maker.write_region_densities"
    ∈ trace (run_script Weighted (Sample.survey Sample.linear_args false) 0).2
  /\ Create "regions.pkl"
       ∈ trace (run_script Weighted (Sample.survey Sample.linear_args false) 0).2.
Proof.
  destruct (optional_outputs Weighted (Sample.survey Sample.linear_args false) 0)
    as (_ & _ & Hdone).
  destruct Hdone as [Hsnapshot _]; [vm_compute; reflexivity |].
  apply (Hsnapshot "regions.pkl"). reflexivity.
Defined.


Lemma errors_of_runs_witness :
  (run_script Weighted (Sample.survey Sample.adaptive_args false) 0).1
  = Raise (NameError "pdf_maker")
  /\ may_raise_of Weighted Sample.adaptive_args (NameError "pdf_maker").
Proof.
  assert (H : (run_script Weighted (Sample.survey Sample.adaptive_args false) 0).1
              = Raise (NameError "pdf_maker")) by (vm_compute; reflexivity).
  split; [exact H |].
  apply (errors_of_runs Weighted (Sample.survey Sample.adaptive_args false) 0
           (NameError "pdf_maker")
           (run_script Weighted (Sample.survey Sample.adaptive_args false) 0).2).
  apply pair_of_fst, H.
Defined.

Lemma named_policy_dispatch_witness :
  PdfMaker.create_bins (Sample.survey Sample.linear_args false)
    (Sample.ready Sample.linear_args 0)
  = (Ok tt,
     set_global "z_bin_edge_array" (VEdges (Binner.linear 0 2 2))
       (add_event (Call "pdf_maker_utils._create_linear_redshift_bin_edges")
          (add_event (Print "Creating bins...") (Sample.ready Sample.linear_args 0)))).
Proof.
  apply (named_policy_dispatch (Sample.survey Sample.linear_args false)
           Sample.linear_args "linear" (Sample.ready Sample.linear_args 0)).
  - split; [reflexivity | split; eexists; reflexivity].
  - reflexivity.
  - constructor.
Defined.

Lemma full_named_policy_dispatch_witness :
  PdfMakerFullSample.create_bins
    (Sample.survey (Sample.args (PyStr "linear") None) false)
    (Sample.ready (Sample.args (PyStr "linear") None) 0)
  = (Ok tt,
     set_global "z_bin_edge_array" (VEdges (Binner.linear 0 2 2))
       (add_event (Call "pdf_maker_utils._create_linear_redshift_bin_edges")
          (add_event (Print "Creating bins...")
             (Sample.ready (Sample.args (PyStr "linear") None) 0)))).
Proof.
  apply (full_named_policy_dispatch
           (Sample.survey (Sample.args (PyStr "linear") None) false)
           (Sample.args (PyStr "linear") None) "linear"
           (Sample.ready (Sample.args (PyStr "linear") None) 0)).
  - split; [reflexivity | split; eexists; reflexivity].
  - reflexivity.
  - constructor.
Defined.

Lemma full_adaptive_reaches_binner_witness :
  exists m,
    globals
      ((PdfMakerFullSample.parse_arguments
          (Sample.survey (Sample.args (PyStr "adaptive") None) false) ;;
        PdfMakerFullSample.load_inputs
          (Sample.survey (Sample.args (PyStr "adaptive") None) false))
         (PdfMakerFullSample.start 0)).2 !! "pdf_maker" = Some (VMaker m)
    /\ reference_redshift_array m = [1 # 2; 3 # 2; 5 # 2]%Q.
Proof.
  destruct (full_adaptive_reaches_binner
              (Sample.survey (Sample.args (PyStr "adaptive") None) false) 0
              ((PdfMakerFullSample.parse_arguments
                  (Sample.survey (Sample.args (PyStr "adaptive") None) false) ;;
                PdfMakerFullSample.load_inputs
                  (Sample.survey (Sample.args (PyStr "adaptive") None) false))
                 (PdfMakerFullSample.start 0)).2) as (m & Hm & _).
  - apply pair_of_fst. vm_compute. reflexivity.
  - reflexivity.
  - exists m. split; [exact Hm |].
    assert (Hm' : globals
                    ((PdfMakerFullSample.parse_arguments
                        (Sample.survey (Sample.args (PyStr "adaptive") None) false) ;;
                      PdfMakerFullSample.load_inputs
                        (Sample.survey (Sample.args (PyStr "adaptive") None) false))
                       (PdfMakerFullSample.start 0)).2 !! "pdf_maker"
                  = Some (VMaker (Collapser.new_PDFMaker Sample.pairs)))
      by (vm_compute; reflexivity).
    rewrite Hm' in Hm. injection Hm as <-. reflexivity.
Defined.

Lemma string_argument_falls_back_witness :
  exists w',
    PdfMaker.create_bins (Sample.survey (Sample.args (PyStr "linear") None) false)
      (Sample.ready (Sample.args (PyStr "linear") None) 0) = (Ok tt, w')
    /\ globals w' !! "z_bin_edge_array" = Some (VEdges (Binner.linear 0 2 2))
    /\ Print "Requested binning name invalid. Valid types are:" ∈ trace w'.
Proof.
  apply (string_argument_falls_back
           (Sample.survey (Sample.args (PyStr "linear") None) false)
           (Sample.args (PyStr "linear") None) "linear"
           (Sample.ready (Sample.args (PyStr "linear") None) 0)).
  - split; [reflexivity | split; eexists; reflexivity].
  - reflexivity.
  - discriminate.
Defined.

Lemma list_argument_falls_back_witness :
  exists w',
    PdfMakerFullSample.create_bins (Sample.survey Sample.linear_args false)
      (Sample.ready Sample.linear_args 0) = (Ok tt, w')
    /\ globals w' !! "z_bin_edge_array" = Some (VEdges (Binner.linear 0 2 2))
    /\ Print "Requested binning name invalid. Valid types are:" ∈ trace w'.
Proof.
  apply (list_argument_falls_back (Sample.survey Sample.linear_args false)
           Sample.linear_args ["linear"] (Sample.ready Sample.linear_args 0)).
  - split; [reflexivity | split; eexists; reflexivity].
  - reflexivity.
Defined.

Lemma short_argument_index_error_witness :
  PdfMaker.create_bins (Sample.survey (Sample.args (PyList ["file"]) None) false)
    (Sample.ready (Sample.args (PyList ["file"]) None) 0)
  = (Raise IndexError,
     add_event (Print "Creating bins...")
       (Sample.ready (Sample.args (PyList ["file"]) None) 0)).
Proof.
  apply (short_argument_index_error
           (Sample.survey (Sample.args (PyList ["file"]) None) false)
           (Sample.args (PyList ["file"]) None)).
  - split; [reflexivity | split; eexists; reflexivity].
  - right. split; reflexivity.
Defined.

Lemma z_max_warning_witness :
  reference_redshift_array (Collapser.new_PDFMaker Sample.pairs) <> []
  /\ (Print "WARNING: requested z_max is greater than available reference redshifts."
       ∈ trace
           ((PdfMakerFullSample.parse_arguments
               (Sample.survey (Sample.args (PyStr "linear") None) false) ;;
             PdfMakerFullSample.load_inputs
               (Sample.survey (Sample.args (PyStr "linear") None) false))
              (PdfMakerFullSample.start 0)).2
     <-> forall z, z ∈ reference_redshift_array (Collapser.new_PDFMaker Sample.pairs) ->
                   (z < 2)%Q).
Proof.
  apply (z_max_warning (Sample.survey (Sample.args (PyStr "linear") None) false) 0
           ((PdfMakerFullSample.parse_arguments
               (Sample.survey (Sample.args (PyStr "linear") None) false) ;;
             PdfMakerFullSample.load_inputs
               (Sample.survey (Sample.args (PyStr "linear") None) false))
              (PdfMakerFullSample.start 0)).2
           (Collapser.new_PDFMaker Sample.pairs)).
  - apply pair_of_fst. vm_compute. reflexivity.
  - vm_compute. reflexivity.
Defined.

End RunsOfTheSample.
